(** * IlluminationBuffer: the pass detector and the persistent buffer

    A shallow embedding of [scripts/interceptor.js] (the WebGL
    interceptor module with its real-time and one-shot debug modes, and the
    earlier modules kept in the same file: the wrapper on the canvas group's
    [draw], [Frame_Capture] and the libWrapper based module) and of
    [scripts/api.js]. What the module uses of PIXI is modelled after the
    library: [RenderTexture.create] rounds the size to device pixels and
    throws when a side is zero.

    JavaScript values are modelled as follows.
    - numbers are integers ([Z]) where the code passes sizes in, and
      rationals ([Qc]) for resolutions and the sizes of textures;
    - strings are [string]s whose characters stand for code units below 256;
    - mutable module variables, the [gl] object's two patched entry points,
      the closure environments created by the arming functions and the
      textures living on the GPU are fields of one explicit [world];
    - a function value stored in [gl.useProgram] or [gl.drawElements] is an
      [impl]: the native entry point or a wrapper together with the index of
      its closure environment;
    - a call either completes normally or throws ([completion]); wrappers
      call whatever sits in the [gl] slots, so the interpreter is driven by
      fuel. *)

From stdpp Require Import base option list numbers strings.
From Stdlib Require Import Ascii String QArith Qcanon Qround.

Close Scope Qc_scope.
Close Scope Q_scope.

Open Scope string_scope.

(** ** Strings: [includes], [trim] and the SHADER_NAME pattern *)

(** [String.prototype.includes]. *)
Fixpoint includes (s pat : string) : bool :=
  String.prefix pat s ||
  match s with
  | EmptyString => false
  | String _ s' => includes s' pat
  end.

(** The class [\s] (also the characters removed by [trim]) on code units
    below 256: TAB, LF, VT, FF, CR, SPACE and NBSP. *)
Definition is_space (c : ascii) : bool :=
  let n := nat_of_ascii c in
  (((9 <=? n) && (n <=? 13)) || (n =? 32) || (n =? 160))%nat.

Definition is_newline (c : ascii) : bool := (nat_of_ascii c =? 10)%nat.

Fixpoint trim_start (s : string) : string :=
  match s with
  | String c s' => if is_space c then trim_start s' else s
  | EmptyString => EmptyString
  end.

Fixpoint trim_end (s : string) : string :=
  match s with
  | EmptyString => EmptyString
  | String c s' =>
      match trim_end s' with
      | EmptyString => if is_space c then EmptyString else String c EmptyString
      | r => String c r
      end
  end.

(** [String.prototype.trim]. *)
Definition trim (s : string) : string := trim_end (trim_start s).

Fixpoint drop_chars (n : nat) (s : string) : string :=
  match n, s with
  | S n', String _ s' => drop_chars n' s'
  | _, _ => s
  end.

(** The longest prefix without a line feed: what [[^\n]+] consumes. *)
Fixpoint take_line (s : string) : string :=
  match s with
  | String c s' => if is_newline c then EmptyString else String c (take_line s')
  | EmptyString => EmptyString
  end.

(** [([^\n]+)] anchored at the head of [s]. *)
Definition match_line (s : string) : option string :=
  match take_line s with
  | EmptyString => None
  | l => Some l
  end.

(** [\s*([^\n]+)] anchored at the head of [s]: the greedy star first tries to
    consume one more blank and backtracks to the group when that fails. *)
Fixpoint match_blanks_line (s : string) : option string :=
  match s with
  | String c s' =>
      if is_space c then
        match match_blanks_line s' with
        | Some r => Some r
        | None => match_line s
        end
      else match_line s
  | EmptyString => None
  end.

(** [#define SHADER_NAME\s+([^\n]+)] anchored at the head of [s]. *)
Definition match_define_here (s : string) : option string :=
  if String.prefix "#define SHADER_NAME" s then
    match drop_chars 19 s with
    | String c s' => if is_space c then match_blanks_line s' else None
    | EmptyString => None
    end
  else None.

(** [source.match(/#define SHADER_NAME\s+([^\n]+)/)]: the first capture group
    of the leftmost match, or [None] for JavaScript's [null]. *)
Fixpoint match_shader_name (source : string) : option string :=
  match match_define_here source with
  | Some r => Some r
  | None =>
      match source with
      | String _ s' => match_shader_name s'
      | EmptyString => None
      end
  end.

(** The identifier both detectors look for. *)
Definition target_identifier : string := "pixi-shader-15".

(** ** Completions *)

(** What is thrown: a [TypeError] of the language, or the [Error] of PIXI's
    framebuffer ("Framebuffer width or height is zero"). *)
Inductive js_error := TypeError | FramebufferError.

Inductive completion (A : Type) :=
| Normal (a : A)
| Throw (e : js_error).
Arguments Normal {A} a.
Arguments Throw {A} e.

Definition cbind {A B} (c : completion A) (k : A -> completion B) : completion B :=
  match c with
  | Normal a => k a
  | Throw e => Throw e
  end.

(** [try { c } catch (e) {}] around a computation whose only effect, when it
    completes, is the value [c]; [d] is what the surrounding code sees when
    the block threw. *)
Definition try_catch {A} (c : completion A) (d : A) : A :=
  match c with
  | Normal a => a
  | Throw _ => d
  end.

(** ** Program handles as the WebGL introspection calls see them *)

(** A shader object: [getShaderSource] gives its source or [null]. *)
Definition shader := option string.

(** What is passed to [gl.useProgram]: [null], or a program object.
    [prog_shaders] is the result of [gl.getAttachedShaders]: [None] for
    [null] (invalid program or lost context). *)
Inductive program :=
| NullProgram
| Program (prog_id : nat) (prog_shaders : option (list shader)).

(** [gl.getAttachedShaders(program)]: a [null] argument is a TypeError. *)
Definition getAttachedShaders (p : program) : completion (option (list shader)) :=
  match p with
  | NullProgram => Throw TypeError
  | Program _ sh => Normal sh
  end.

(** [shaders[1]]: indexing [null] throws, a missing element is [undefined]. *)
Definition second_shader (sh : option (list shader)) : completion (option shader) :=
  match sh with
  | None => Throw TypeError
  | Some l => Normal (l !! 1)
  end.

(** [gl.getShaderSource(shader)]: [undefined] is not a shader object. *)
Definition getShaderSource (s : option shader) : completion (option string) :=
  match s with
  | None => Throw TypeError
  | Some src => Normal src
  end.

(** [gl.getShaderSource(gl.getAttachedShaders(program)[1])]. *)
Definition second_shader_source (p : program) : completion (option string) :=
  cbind (getAttachedShaders p) (fun sh =>
  cbind (second_shader sh) getShaderSource).

(** The body of the real-time wrapper's [try] block, as the value assigned to
    the flag when the block decides to set it:
    [source && source.includes("pixi-shader-15")]. *)
Definition realtime_entry_test (p : program) : completion bool :=
  cbind (second_shader_source p) (fun source =>
  Normal match source with
         | Some s => negb (String.eqb s "") && includes s target_identifier
         | None => false
         end).

(** Entry condition of the real-time wrapper, the [catch] swallowing every
    failure of the resolution. *)
Definition realtime_matches (p : program) : bool :=
  try_catch (realtime_entry_test p) false.

(** The body of the debug wrapper's [try] block: the new value of
    [programName] ([source.match] on [null] throws). *)
Definition debug_name_test (programName : string) (p : program) : completion string :=
  cbind (second_shader_source p) (fun source =>
  match source with
  | None => Throw TypeError
  | Some s =>
      Normal match match_shader_name s with
             | Some m => trim m
             | None => programName
             end
  end).

(** [programName] after the [try]/[catch] of the debug wrapper. *)
Definition debug_program_name (p : program) : string :=
  try_catch (debug_name_test "UnknownProgram" p) "UnknownProgram".

(** Entry condition of the debug wrapper. *)
Definition debug_matches (p : program) : bool :=
  includes (debug_program_name p) target_identifier.

(** The identifier cannot be resolved: one of the introspection calls throws,
    or the shader has no source ([null]). *)
Definition resolution_fails (p : program) : bool :=
  match second_shader_source p with
  | Throw _ => true
  | Normal None => true
  | Normal (Some _) => false
  end.

(** ** Textures, entry points and closure environments *)

(** A [PIXI.RenderTexture] object on the heap. Numbers are rationals.
    [tex_width] and [tex_height] are the texture's [width] and [height]: its
    size in device pixels divided by its resolution. [tex_content] is the
    texture whose pixels were last copied into this one ([None]: never
    written). *)
Record texture := {
  tex_width : Qc;
  tex_height : Qc;
  tex_resolution : Qc;
  tex_valid : bool;
  tex_destroyed : bool;
  tex_content : option nat
}.

(** [texture.destroy(true)]. *)
Definition destroy_texture (t : texture) : texture :=
  {| tex_width := tex_width t; tex_height := tex_height t;
     tex_resolution := tex_resolution t;
     tex_valid := false; tex_destroyed := true;
     tex_content := tex_content t |}.

Definition write_texture (src : nat) (t : texture) : texture :=
  {| tex_width := tex_width t; tex_height := tex_height t;
     tex_resolution := tex_resolution t;
     tex_valid := tex_valid t; tex_destroyed := tex_destroyed t;
     tex_content := Some src |}.

(** [Math.round]: halves go up. *)
Definition js_round (q : Qc) : Z := Qfloor (Qcplus q (Q2Qc (Qmake 1 2))).

(** [options.resolution || settings.RESOLUTION]; [None] is an option that
    is not given. *)
Definition effective_resolution (settings : Qc) (resolution : option Qc) : Qc :=
  match resolution with
  | Some r => if Qc_eq_bool r (Q2Qc 0) then settings else r
  | None => settings
  end.

(** [Math.round(size * resolution)]: a size in device pixels. *)
Definition real_size (size : Z) (resolution : Qc) : Z :=
  js_round (Qcmult (Q2Qc (inject_Z size)) resolution).

(** A fresh render texture of [realWidth] by [realHeight] device pixels. *)
Definition new_texture (realWidth realHeight : Z) (resolution : Qc) : texture :=
  {| tex_width := Qcdiv (Q2Qc (inject_Z realWidth)) resolution;
     tex_height := Qcdiv (Q2Qc (inject_Z realHeight)) resolution;
     tex_resolution := resolution;
     tex_valid := true; tex_destroyed := false; tex_content := None |}.

(** The framebuffer of a render texture can be made: neither side is zero
    in device pixels. *)
Definition framebuffer_ok (settings : Qc) (width height : Z)
    (resolution : option Qc) : bool :=
  let r := effective_resolution settings resolution in
  negb ((real_size width r =? 0)%Z || (real_size height r =? 0)%Z).

(** [PIXI.RenderTexture.create({width, height, resolution})], [settings]
    being [PIXI.settings.RESOLUTION]: the size is rounded to device pixels,
    and the framebuffer's constructor throws when a side is zero. *)
Definition create_texture (settings : Qc) (width height : Z)
    (resolution : option Qc) : completion texture :=
  let r := effective_resolution settings resolution in
  if framebuffer_ok settings width height resolution
  then Normal (new_texture (real_size width r) (real_size height r) r)
  else Throw FramebufferError.

(** Arguments of [gl.drawElements(mode, count, type, offset)]. *)
Record draw_args := {
  draw_mode : Z;
  draw_count : Z;
  draw_type : Z;
  draw_offset : Z
}.

(** A call on one of the two tapped entry points. *)
Inductive glcall :=
| UseProgram (p : program)
| DrawElements (a : draw_args).

(** A function value that can sit in [gl.useProgram] or [gl.drawElements]:
    the browser's own entry point, or the wrapper installed by one of the
    arming functions, with the index of the closure environment it shares
    with its sibling. [FinalWrapper] is the wrapper of the earlier modules
    ([Frame_Capture] and [oneShotDebugCapture], whose wrappers have the same
    text). *)
Inductive impl :=
| Native
| RealTimeWrapper (k : nat)
| DebugWrapper (k : nat)
| FinalWrapper (k : nat).

(** Values returned by the native entry points. WebGL returns [undefined];
    the wrappers return whatever they get. *)
Inductive jsval :=
| JSUndefined
| JSValue (n : nat).

(** Variables captured by the two wrappers of [armRealTimeCapture]. *)
Record rt_closure := {
  rt_inTargetShaderPass : bool;
  rt_lastCapturedTexture : option nat
}.

(** Variables captured by the two wrappers of [armOneShotDebugCapture]; the
    wrappers of the earlier modules capture variables of the same names. *)
Record dbg_closure := {
  dbg_originalUseProgram : impl;
  dbg_originalDrawElements : impl;
  dbg_inTargetShaderPass : bool;
  dbg_lastCapturedTexture : option nat;
  dbg_drawCountInPass : nat
}.

(** What [canvas.app?.renderer?.gl] finds. *)
Inductive host_env :=
| NoApp
| NoRenderer
| NoGL (resolution : Qc)
| HasGL (resolution : Qc).

Definition gl_available (h : host_env) : bool :=
  match h with
  | HasGL _ => true
  | _ => false
  end.

(** ** Observable effects *)

Inductive event :=
| LogArmingRealTime
| LogFirstCapture
| LogTearDown
| LogCanvasResized
| WarnGetTextureNotReady
| Blit (src dst : nat)
| TextureDestroyed (t : nat)
| NotifyAlreadyArmed
| NotifyNoGL
| LogDebugArmed
| NotifyReadyForCapture
| LogExiting (draws : nat)
| ExtractCanvas (t : nat)
| WindowWrite
| NotifyNoValidTexture
| LogRestored
| LogEntering (name : string)
(* the libWrapper based module *)
| LogDebugModeArming
| LogApiInitialized
| LogLibWrapperActive
| NotifyTargetNotFound
| ErrorTargetNotFound
| NotifyLibWrapperRequired
| LogPreviewCreated
| HookIlluminationBufferReady
| LogHookFired
| FilterApplied
| ErrorCapturing
(* the one-shot capture of the earlier modules *)
| NotifyFinalAlreadyArmed
| NotifyCaptureNoGL
| LogFinalArmed
| NotifyReadyForFinalCapture
| LogCaptureExiting (draws : nat)
| WindowWriteFinal
| NotifyCaptureNoValidTexture
| LogCaptureRestored
| LogCaptureEntering (name : string).

(** ** The world *)

Record world := {
  (* module state of the real-time mode *)
  persistentTexture : option nat;
  isApiReady : bool;
  isInterceptorArmed : bool;
  (* originalGLFunctions: both fields null, or both saved (they are only
     ever written together) *)
  originalGLFunctions : option (impl * impl);
  (* window.illuminationBufferDebugCaptureArmed *)
  debugCaptureArmed : bool;
  (* the gl object's two entry points *)
  gl_useProgram : impl;
  gl_drawElements : impl;
  (* closure environments, in order of creation *)
  rt_closures : list rt_closure;
  dbg_closures : list dbg_closure;
  (* renderer and GPU *)
  textures : list texture;
  renderTexture_current : option nat;
  resize_listeners : nat;
  host : host_env;
  popups_allowed : bool;
  (* what reached the native entry points, and what was logged or drawn *)
  native_calls : list glcall;
  trace : list event;
  (* window.isFinalStateMachineCaptureArmed *)
  finalCaptureArmed : bool;
  (* PIXI.settings.RESOLUTION *)
  settings_RESOLUTION : Qc
}.

Definition set_persistentTexture (v : option nat) (w : world) : world :=
  {| persistentTexture := v; isApiReady := isApiReady w;
     isInterceptorArmed := isInterceptorArmed w;
     originalGLFunctions := originalGLFunctions w;
     debugCaptureArmed := debugCaptureArmed w;
     gl_useProgram := gl_useProgram w; gl_drawElements := gl_drawElements w;
     rt_closures := rt_closures w; dbg_closures := dbg_closures w;
     textures := textures w; renderTexture_current := renderTexture_current w;
     resize_listeners := resize_listeners w; host := host w;
     popups_allowed := popups_allowed w;
     native_calls := native_calls w; trace := trace w;
     finalCaptureArmed := finalCaptureArmed w;
     settings_RESOLUTION := settings_RESOLUTION w |}.

Definition set_isApiReady (v : bool) (w : world) : world :=
  {| persistentTexture := persistentTexture w; isApiReady := v;
     isInterceptorArmed := isInterceptorArmed w;
     originalGLFunctions := originalGLFunctions w;
     debugCaptureArmed := debugCaptureArmed w;
     gl_useProgram := gl_useProgram w; gl_drawElements := gl_drawElements w;
     rt_closures := rt_closures w; dbg_closures := dbg_closures w;
     textures := textures w; renderTexture_current := renderTexture_current w;
     resize_listeners := resize_listeners w; host := host w;
     popups_allowed := popups_allowed w;
     native_calls := native_calls w; trace := trace w;
     finalCaptureArmed := finalCaptureArmed w;
     settings_RESOLUTION := settings_RESOLUTION w |}.

Definition set_isInterceptorArmed (v : bool) (w : world) : world :=
  {| persistentTexture := persistentTexture w; isApiReady := isApiReady w;
     isInterceptorArmed := v;
     originalGLFunctions := originalGLFunctions w;
     debugCaptureArmed := debugCaptureArmed w;
     gl_useProgram := gl_useProgram w; gl_drawElements := gl_drawElements w;
     rt_closures := rt_closures w; dbg_closures := dbg_closures w;
     textures := textures w; renderTexture_current := renderTexture_current w;
     resize_listeners := resize_listeners w; host := host w;
     popups_allowed := popups_allowed w;
     native_calls := native_calls w; trace := trace w;
     finalCaptureArmed := finalCaptureArmed w;
     settings_RESOLUTION := settings_RESOLUTION w |}.

Definition set_originalGLFunctions (v : option (impl * impl)) (w : world) : world :=
  {| persistentTexture := persistentTexture w; isApiReady := isApiReady w;
     isInterceptorArmed := isInterceptorArmed w;
     originalGLFunctions := v;
     debugCaptureArmed := debugCaptureArmed w;
     gl_useProgram := gl_useProgram w; gl_drawElements := gl_drawElements w;
     rt_closures := rt_closures w; dbg_closures := dbg_closures w;
     textures := textures w; renderTexture_current := renderTexture_current w;
     resize_listeners := resize_listeners w; host := host w;
     popups_allowed := popups_allowed w;
     native_calls := native_calls w; trace := trace w;
     finalCaptureArmed := finalCaptureArmed w;
     settings_RESOLUTION := settings_RESOLUTION w |}.

Definition set_debugCaptureArmed (v : bool) (w : world) : world :=
  {| persistentTexture := persistentTexture w; isApiReady := isApiReady w;
     isInterceptorArmed := isInterceptorArmed w;
     originalGLFunctions := originalGLFunctions w;
     debugCaptureArmed := v;
     gl_useProgram := gl_useProgram w; gl_drawElements := gl_drawElements w;
     rt_closures := rt_closures w; dbg_closures := dbg_closures w;
     textures := textures w; renderTexture_current := renderTexture_current w;
     resize_listeners := resize_listeners w; host := host w;
     popups_allowed := popups_allowed w;
     native_calls := native_calls w; trace := trace w;
     finalCaptureArmed := finalCaptureArmed w;
     settings_RESOLUTION := settings_RESOLUTION w |}.

Definition set_gl (u d : impl) (w : world) : world :=
  {| persistentTexture := persistentTexture w; isApiReady := isApiReady w;
     isInterceptorArmed := isInterceptorArmed w;
     originalGLFunctions := originalGLFunctions w;
     debugCaptureArmed := debugCaptureArmed w;
     gl_useProgram := u; gl_drawElements := d;
     rt_closures := rt_closures w; dbg_closures := dbg_closures w;
     textures := textures w; renderTexture_current := renderTexture_current w;
     resize_listeners := resize_listeners w; host := host w;
     popups_allowed := popups_allowed w;
     native_calls := native_calls w; trace := trace w;
     finalCaptureArmed := finalCaptureArmed w;
     settings_RESOLUTION := settings_RESOLUTION w |}.

Definition set_rt_closures (v : list rt_closure) (w : world) : world :=
  {| persistentTexture := persistentTexture w; isApiReady := isApiReady w;
     isInterceptorArmed := isInterceptorArmed w;
     originalGLFunctions := originalGLFunctions w;
     debugCaptureArmed := debugCaptureArmed w;
     gl_useProgram := gl_useProgram w; gl_drawElements := gl_drawElements w;
     rt_closures := v; dbg_closures := dbg_closures w;
     textures := textures w; renderTexture_current := renderTexture_current w;
     resize_listeners := resize_listeners w; host := host w;
     popups_allowed := popups_allowed w;
     native_calls := native_calls w; trace := trace w;
     finalCaptureArmed := finalCaptureArmed w;
     settings_RESOLUTION := settings_RESOLUTION w |}.

Definition set_dbg_closures (v : list dbg_closure) (w : world) : world :=
  {| persistentTexture := persistentTexture w; isApiReady := isApiReady w;
     isInterceptorArmed := isInterceptorArmed w;
     originalGLFunctions := originalGLFunctions w;
     debugCaptureArmed := debugCaptureArmed w;
     gl_useProgram := gl_useProgram w; gl_drawElements := gl_drawElements w;
     rt_closures := rt_closures w; dbg_closures := v;
     textures := textures w; renderTexture_current := renderTexture_current w;
     resize_listeners := resize_listeners w; host := host w;
     popups_allowed := popups_allowed w;
     native_calls := native_calls w; trace := trace w;
     finalCaptureArmed := finalCaptureArmed w;
     settings_RESOLUTION := settings_RESOLUTION w |}.

Definition set_textures (v : list texture) (w : world) : world :=
  {| persistentTexture := persistentTexture w; isApiReady := isApiReady w;
     isInterceptorArmed := isInterceptorArmed w;
     originalGLFunctions := originalGLFunctions w;
     debugCaptureArmed := debugCaptureArmed w;
     gl_useProgram := gl_useProgram w; gl_drawElements := gl_drawElements w;
     rt_closures := rt_closures w; dbg_closures := dbg_closures w;
     textures := v; renderTexture_current := renderTexture_current w;
     resize_listeners := resize_listeners w; host := host w;
     popups_allowed := popups_allowed w;
     native_calls := native_calls w; trace := trace w;
     finalCaptureArmed := finalCaptureArmed w;
     settings_RESOLUTION := settings_RESOLUTION w |}.

Definition set_renderTexture_current (v : option nat) (w : world) : world :=
  {| persistentTexture := persistentTexture w; isApiReady := isApiReady w;
     isInterceptorArmed := isInterceptorArmed w;
     originalGLFunctions := originalGLFunctions w;
     debugCaptureArmed := debugCaptureArmed w;
     gl_useProgram := gl_useProgram w; gl_drawElements := gl_drawElements w;
     rt_closures := rt_closures w; dbg_closures := dbg_closures w;
     textures := textures w; renderTexture_current := v;
     resize_listeners := resize_listeners w; host := host w;
     popups_allowed := popups_allowed w;
     native_calls := native_calls w; trace := trace w;
     finalCaptureArmed := finalCaptureArmed w;
     settings_RESOLUTION := settings_RESOLUTION w |}.

Definition set_resize_listeners (v : nat) (w : world) : world :=
  {| persistentTexture := persistentTexture w; isApiReady := isApiReady w;
     isInterceptorArmed := isInterceptorArmed w;
     originalGLFunctions := originalGLFunctions w;
     debugCaptureArmed := debugCaptureArmed w;
     gl_useProgram := gl_useProgram w; gl_drawElements := gl_drawElements w;
     rt_closures := rt_closures w; dbg_closures := dbg_closures w;
     textures := textures w; renderTexture_current := renderTexture_current w;
     resize_listeners := v; host := host w;
     popups_allowed := popups_allowed w;
     native_calls := native_calls w; trace := trace w;
     finalCaptureArmed := finalCaptureArmed w;
     settings_RESOLUTION := settings_RESOLUTION w |}.

Definition set_host (v : host_env) (w : world) : world :=
  {| persistentTexture := persistentTexture w; isApiReady := isApiReady w;
     isInterceptorArmed := isInterceptorArmed w;
     originalGLFunctions := originalGLFunctions w;
     debugCaptureArmed := debugCaptureArmed w;
     gl_useProgram := gl_useProgram w; gl_drawElements := gl_drawElements w;
     rt_closures := rt_closures w; dbg_closures := dbg_closures w;
     textures := textures w; renderTexture_current := renderTexture_current w;
     resize_listeners := resize_listeners w; host := v;
     popups_allowed := popups_allowed w;
     native_calls := native_calls w; trace := trace w;
     finalCaptureArmed := finalCaptureArmed w;
     settings_RESOLUTION := settings_RESOLUTION w |}.

Definition set_native_calls (v : list glcall) (w : world) : world :=
  {| persistentTexture := persistentTexture w; isApiReady := isApiReady w;
     isInterceptorArmed := isInterceptorArmed w;
     originalGLFunctions := originalGLFunctions w;
     debugCaptureArmed := debugCaptureArmed w;
     gl_useProgram := gl_useProgram w; gl_drawElements := gl_drawElements w;
     rt_closures := rt_closures w; dbg_closures := dbg_closures w;
     textures := textures w; renderTexture_current := renderTexture_current w;
     resize_listeners := resize_listeners w; host := host w;
     popups_allowed := popups_allowed w;
     native_calls := v; trace := trace w;
     finalCaptureArmed := finalCaptureArmed w;
     settings_RESOLUTION := settings_RESOLUTION w |}.

Definition set_trace (v : list event) (w : world) : world :=
  {| persistentTexture := persistentTexture w; isApiReady := isApiReady w;
     isInterceptorArmed := isInterceptorArmed w;
     originalGLFunctions := originalGLFunctions w;
     debugCaptureArmed := debugCaptureArmed w;
     gl_useProgram := gl_useProgram w; gl_drawElements := gl_drawElements w;
     rt_closures := rt_closures w; dbg_closures := dbg_closures w;
     textures := textures w; renderTexture_current := renderTexture_current w;
     resize_listeners := resize_listeners w; host := host w;
     popups_allowed := popups_allowed w;
     native_calls := native_calls w; trace := v;
     finalCaptureArmed := finalCaptureArmed w;
     settings_RESOLUTION := settings_RESOLUTION w |}.

Definition set_finalCaptureArmed (v : bool) (w : world) : world :=
  {| persistentTexture := persistentTexture w; isApiReady := isApiReady w;
     isInterceptorArmed := isInterceptorArmed w;
     originalGLFunctions := originalGLFunctions w;
     debugCaptureArmed := debugCaptureArmed w;
     gl_useProgram := gl_useProgram w; gl_drawElements := gl_drawElements w;
     rt_closures := rt_closures w; dbg_closures := dbg_closures w;
     textures := textures w; renderTexture_current := renderTexture_current w;
     resize_listeners := resize_listeners w; host := host w;
     popups_allowed := popups_allowed w;
     native_calls := native_calls w; trace := trace w;
     finalCaptureArmed := v;
     settings_RESOLUTION := settings_RESOLUTION w |}.

Definition set_settings_RESOLUTION (v : Qc) (w : world) : world :=
  {| persistentTexture := persistentTexture w; isApiReady := isApiReady w;
     isInterceptorArmed := isInterceptorArmed w;
     originalGLFunctions := originalGLFunctions w;
     debugCaptureArmed := debugCaptureArmed w;
     gl_useProgram := gl_useProgram w; gl_drawElements := gl_drawElements w;
     rt_closures := rt_closures w; dbg_closures := dbg_closures w;
     textures := textures w; renderTexture_current := renderTexture_current w;
     resize_listeners := resize_listeners w; host := host w;
     popups_allowed := popups_allowed w;
     native_calls := native_calls w; trace := trace w;
     finalCaptureArmed := finalCaptureArmed w;
     settings_RESOLUTION := v |}.

(** [console.log], [ui.notifications.*] and the GPU copies append to the
    trace. *)
Definition emit (e : event) (w : world) : world :=
  set_trace (trace w ++ [e]) w.

(** The page right after the module's script has run, PIXI's settings
    being the library's defaults. *)
Definition initial_world (h : host_env) (popups : bool) : world :=
  {| persistentTexture := None; isApiReady := false;
     isInterceptorArmed := false;
     originalGLFunctions := None;
     debugCaptureArmed := false;
     gl_useProgram := Native; gl_drawElements := Native;
     rt_closures := []; dbg_closures := [];
     textures := []; renderTexture_current := None;
     resize_listeners := 0; host := h; popups_allowed := popups;
     native_calls := []; trace := [];
     finalCaptureArmed := false;
     settings_RESOLUTION := Q2Qc 1 |}.

(** ** Computations on the world *)

(** A computation may run out of fuel ([None]), complete or throw; the world
    it leaves behind is kept in both cases. *)
Definition M (A : Type) : Type := world -> option (completion A * world).

Definition ret {A} (a : A) : M A := fun w => Some (Normal a, w).

Definition throw {A} (e : js_error) : M A := fun w => Some (Throw e, w).

Definition bind {A B} (m : M A) (k : A -> M B) : M B := fun w =>
  match m w with
  | None => None
  | Some (Normal a, w') => k a w'
  | Some (Throw e, w') => Some (Throw e, w')
  end.

Definition get : M world := fun w => Some (Normal w, w).

Definition modify (f : world -> world) : M unit := fun w => Some (Normal tt, f w).

(** A closure index that does not exist: no JavaScript value denotes it. *)
Definition stuck {A} : M A := fun _ => None.

Notation "'let!' x ':=' m 'in' k" := (bind m (fun x => k))
  (at level 10, x name, m at level 100, k at level 200).
Notation "m '>>;' k" := (bind m (fun _ => k))
  (at level 100, k at level 200, right associativity).

Definition when (b : bool) (m : M unit) : M unit := if b then m else ret tt.

Definition log (e : event) : M unit := modify (emit e).

(** [t && t.valid] for a texture reference [t]. *)
Definition texture_valid (w : world) (t : option nat) : bool :=
  match t with
  | Some i =>
      match textures w !! i with
      | Some x => tex_valid x
      | None => false
      end
  | None => false
  end.

Definition get_rt_closure (k : nat) : M rt_closure := fun w =>
  match rt_closures w !! k with
  | Some c => ret c w
  | None => stuck w
  end.

Definition update_rt_closure (k : nat) (f : rt_closure -> rt_closure) : M unit :=
  modify (fun w => set_rt_closures (alter f k (rt_closures w)) w).

Definition get_dbg_closure (k : nat) : M dbg_closure := fun w =>
  match dbg_closures w !! k with
  | Some c => ret c w
  | None => stuck w
  end.

Definition update_dbg_closure (k : nat) (f : dbg_closure -> dbg_closure) : M unit :=
  modify (fun w => set_dbg_closures (alter f k (dbg_closures w)) w).

Definition rt_set_flag (b : bool) (c : rt_closure) : rt_closure :=
  {| rt_inTargetShaderPass := b;
     rt_lastCapturedTexture := rt_lastCapturedTexture c |}.

Definition rt_set_last (t : option nat) (c : rt_closure) : rt_closure :=
  {| rt_inTargetShaderPass := rt_inTargetShaderPass c;
     rt_lastCapturedTexture := t |}.

(** [inTargetShaderPass = true; drawCountInPass = 0]. *)
Definition dbg_enter (c : dbg_closure) : dbg_closure :=
  {| dbg_originalUseProgram := dbg_originalUseProgram c;
     dbg_originalDrawElements := dbg_originalDrawElements c;
     dbg_inTargetShaderPass := true;
     dbg_lastCapturedTexture := dbg_lastCapturedTexture c;
     dbg_drawCountInPass := 0 |}.

(** [drawCountInPass++; lastCapturedTexture = renderer.renderTexture.current]. *)
Definition dbg_record (t : option nat) (c : dbg_closure) : dbg_closure :=
  {| dbg_originalUseProgram := dbg_originalUseProgram c;
     dbg_originalDrawElements := dbg_originalDrawElements c;
     dbg_inTargetShaderPass := dbg_inTargetShaderPass c;
     dbg_lastCapturedTexture := t;
     dbg_drawCountInPass := S (dbg_drawCountInPass c) |}.

(** The entry point a call goes through when the host (or PIXI) writes
    [gl.useProgram(...)] or [gl.drawElements(...)]. *)
Definition slot_of (c : glcall) (w : world) : impl :=
  match c with
  | UseProgram _ => gl_useProgram w
  | DrawElements _ => gl_drawElements w
  end.

(** ** The wrappers and the module's functions *)

Section Interceptor.

(** What the browser's own entry points return. *)
Variable native_return : glcall -> jsval.

(** The [gl.useProgram] and [gl.drawElements] calls PIXI issues, through the
    [gl] object, while it renders the temporary sprite of the blit. *)
Variable blit_calls : list glcall.

(** The native entry point: the call reaches the driver. *)
Definition native (c : glcall) : M jsval := fun w =>
  Some (Normal (native_return c), set_native_calls (native_calls w ++ [c]) w).

Section Wrappers.

(** Calling a function value; the wrappers are written against it and the
    interpreter below ties the knot. *)
Variable call : impl -> glcall -> M jsval.

(** [gl.f(...)] as written by a caller: whatever sits in the slot now. *)
Definition gl_call (c : glcall) : M jsval := fun w => call (slot_of c w) c w.

Fixpoint gl_calls (cs : list glcall) : M unit :=
  match cs with
  | [] => ret tt
  | c :: cs' => gl_call c >>; gl_calls cs'
  end.

(** [const tempSprite = new PIXI.Sprite(src);
     renderer.render(tempSprite, { renderTexture: dst, clear: false });
     tempSprite.destroy();] *)
Definition blit (src dst : nat) : M unit :=
  modify (set_renderTexture_current (Some dst)) >>;
  gl_calls blit_calls >>;
  modify (fun w => set_textures (alter (write_texture src) dst (textures w)) w) >>;
  log (Blit src dst).

(** The [gl.useProgram] wrapper of [armRealTimeCapture]. *)
Definition rt_useProgram (k : nat) (p : program) : M jsval :=
  let! clo := get_rt_closure k in
  when (rt_inTargetShaderPass clo) (
    update_rt_closure k (rt_set_flag false) >>;
    let! w := get in
    match rt_lastCapturedTexture clo, persistentTexture w with
    | Some src, Some dst =>
        when (texture_valid w (Some src)) (
          blit src dst >>;
          let! w' := get in
          when (negb (isApiReady w')) (
            modify (set_isApiReady true) >>;
            log LogFirstCapture))
    | _, _ => ret tt
    end) >>;
  when (realtime_matches p) (update_rt_closure k (rt_set_flag true)) >>;
  let! w := get in
  match originalGLFunctions w with
  | Some (useProgram, _) => call useProgram (UseProgram p)
  | None => throw TypeError
  end.

(** The [gl.drawElements] wrapper of [armRealTimeCapture]. *)
Definition rt_drawElements (k : nat) (a : draw_args) : M jsval :=
  let! w := get in
  let! originalReturn :=
    match originalGLFunctions w with
    | Some (_, drawElements) => call drawElements (DrawElements a)
    | None => throw TypeError
    end in
  let! clo := get_rt_closure k in
  when (rt_inTargetShaderPass clo) (
    let! w' := get in
    update_rt_closure k (rt_set_last (renderTexture_current w'))) >>;
  ret originalReturn.

(** The [gl.useProgram] wrapper of [armOneShotDebugCapture]. *)
Definition dbg_useProgram (k : nat) (p : program) : M jsval :=
  let! clo := get_dbg_closure k in
  when (dbg_inTargetShaderPass clo) (
    log (LogExiting (dbg_drawCountInPass clo)) >>;
    let! w := get in
    match dbg_lastCapturedTexture clo with
    | Some t =>
        if texture_valid w (Some t) then
          log (ExtractCanvas t) >>;
          when (popups_allowed w) (log WindowWrite)
        else log NotifyNoValidTexture
    | None => log NotifyNoValidTexture
    end >>;
    modify (set_gl (dbg_originalUseProgram clo) (dbg_originalDrawElements clo)) >>;
    modify (set_debugCaptureArmed false) >>;
    log LogRestored) >>;
  let programName := debug_program_name p in
  when (includes programName target_identifier) (
    let! clo' := get_dbg_closure k in
    when (negb (dbg_inTargetShaderPass clo')) (
      log (LogEntering programName) >>;
      update_dbg_closure k dbg_enter)) >>;
  call (dbg_originalUseProgram clo) (UseProgram p).

(** The [gl.drawElements] wrapper of [armOneShotDebugCapture]. *)
Definition dbg_drawElements (k : nat) (a : draw_args) : M jsval :=
  let! clo := get_dbg_closure k in
  let! originalReturn := call (dbg_originalDrawElements clo) (DrawElements a) in
  let! clo' := get_dbg_closure k in
  when (dbg_inTargetShaderPass clo') (
    let! w := get in
    update_dbg_closure k (dbg_record (renderTexture_current w))) >>;
  ret originalReturn.

(** The [gl.useProgram] wrapper of [oneShotDebugCapture] and of
    [Frame_Capture]. *)
Definition final_useProgram (k : nat) (p : program) : M jsval :=
  let! clo := get_dbg_closure k in
  when (dbg_inTargetShaderPass clo) (
    log (LogCaptureExiting (dbg_drawCountInPass clo)) >>;
    let! w := get in
    match dbg_lastCapturedTexture clo with
    | Some t =>
        if texture_valid w (Some t) then
          log (ExtractCanvas t) >>;
          when (popups_allowed w) (log WindowWriteFinal)
        else log NotifyCaptureNoValidTexture
    | None => log NotifyCaptureNoValidTexture
    end >>;
    modify (set_gl (dbg_originalUseProgram clo) (dbg_originalDrawElements clo)) >>;
    modify (set_finalCaptureArmed false) >>;
    log LogCaptureRestored) >>;
  let programName := debug_program_name p in
  when (includes programName target_identifier) (
    let! clo' := get_dbg_closure k in
    when (negb (dbg_inTargetShaderPass clo')) (
      log (LogCaptureEntering programName) >>;
      update_dbg_closure k dbg_enter)) >>;
  call (dbg_originalUseProgram clo) (UseProgram p).

(** The [gl.drawElements] wrapper of [oneShotDebugCapture] and of
    [Frame_Capture]. *)
Definition final_drawElements (k : nat) (a : draw_args) : M jsval :=
  let! clo := get_dbg_closure k in
  let! originalReturn := call (dbg_originalDrawElements clo) (DrawElements a) in
  let! clo' := get_dbg_closure k in
  when (dbg_inTargetShaderPass clo') (
    let! w := get in
    update_dbg_closure k (dbg_record (renderTexture_current w))) >>;
  ret originalReturn.

(** Applying a function value to the arguments of a call. *)
Definition apply_impl (f : impl) (c : glcall) : M jsval :=
  match f, c with
  | Native, _ => native c
  | RealTimeWrapper k, UseProgram p => rt_useProgram k p
  | RealTimeWrapper k, DrawElements a => rt_drawElements k a
  | DebugWrapper k, UseProgram p => dbg_useProgram k p
  | DebugWrapper k, DrawElements a => dbg_drawElements k a
  | FinalWrapper k, UseProgram p => final_useProgram k p
  | FinalWrapper k, DrawElements a => final_drawElements k a
  end.

End Wrappers.

(** Function application, with one unit of fuel per call. *)
Fixpoint call (fuel : nat) (f : impl) (c : glcall) : M jsval :=
  match fuel with
  | 0 => stuck
  | S n => apply_impl (call n) f c
  end.

(** ** The module's functions *)

(** [IlluminationBufferAPI.getTexture]. *)
Definition getTexture : M (option nat) :=
  let! w := get in
  if negb (isApiReady w) then
    log WarnGetTextureNotReady >>; ret None
  else ret (persistentTexture w).

(** [IlluminationBufferAPI.isReady]. *)
Definition isReady : M bool :=
  let! w := get in ret (isApiReady w).

(** [persistentTexture.destroy(true)] on the heap. *)
Definition destroy_on_heap (t : nat) : M unit :=
  modify (fun w => set_textures (alter destroy_texture t (textures w)) w) >>;
  log (TextureDestroyed t).

(** [canvas.app.renderer.resolution]. *)
Definition renderer_resolution : M Qc :=
  let! w := get in
  match host w with
  | NoApp | NoRenderer => throw TypeError
  | NoGL r | HasGL r => ret r
  end.

(** [PIXI.RenderTexture.create(options)] on the heap: the reference to the
    new texture, or what the constructor threw. *)
Definition RenderTexture_create (width height : Z) (resolution : option Qc) : M nat :=
  fun w =>
    match create_texture (settings_RESOLUTION w) width height resolution with
    | Normal t =>
        Some (Normal (List.length (textures w)), set_textures (textures w ++ [t]) w)
    | Throw e => Some (Throw e, w)
    end.

(** [onCanvasResize(width, height)]. *)
Definition onCanvasResize (width height : Z) : M unit :=
  log LogCanvasResized >>;
  let! w := get in
  match persistentTexture w with
  | Some t => destroy_on_heap t
  | None => ret tt
  end >>;
  let! resolution := renderer_resolution in
  let! t := RenderTexture_create width height (Some resolution) in
  modify (set_persistentTexture (Some t)).

(** [armRealTimeCapture()]. *)
Definition armRealTimeCapture : M unit :=
  let! w := get in
  if negb (gl_available (host w)) || isInterceptorArmed w then ret tt
  else
    log LogArmingRealTime >>;
    when (negb (bool_decide (is_Some (originalGLFunctions w)))) (
      modify (set_originalGLFunctions (Some (gl_useProgram w, gl_drawElements w)))) >>;
    let k := List.length (rt_closures w) in
    modify (fun w' =>
      set_rt_closures (rt_closures w' ++
        [{| rt_inTargetShaderPass := false; rt_lastCapturedTexture := None |}]) w') >>;
    modify (set_gl (RealTimeWrapper k) (RealTimeWrapper k)) >>;
    modify (set_isInterceptorArmed true).

(** [canvas.app?.renderer.off('resize', onCanvasResize)]: the optional chain
    stops at a missing [app] only. *)
Definition renderer_off_resize : M unit :=
  let! w := get in
  match host w with
  | NoApp => ret tt
  | NoRenderer => throw TypeError
  | NoGL _ | HasGL _ => modify (set_resize_listeners 0)
  end.

(** [tearDownRealTime()]. *)
Definition tearDownRealTime : M unit :=
  log LogTearDown >>;
  let! w := get in
  match originalGLFunctions w with
  | Some (useProgram, drawElements) =>
      when (isInterceptorArmed w && gl_available (host w)) (
        modify (set_gl useProgram drawElements))
  | None => ret tt
  end >>;
  match persistentTexture w with
  | Some t => destroy_on_heap t >>; modify (set_persistentTexture None)
  | None => ret tt
  end >>;
  renderer_off_resize >>;
  modify (set_isApiReady false) >>;
  modify (set_isInterceptorArmed false).

(** [armOneShotDebugCapture()]. *)
Definition armOneShotDebugCapture : M unit :=
  let! w := get in
  if debugCaptureArmed w then log NotifyAlreadyArmed
  else
    modify (set_debugCaptureArmed true) >>;
    if negb (gl_available (host w)) then
      log NotifyNoGL >>;
      modify (set_debugCaptureArmed false)
    else
      let k := List.length (dbg_closures w) in
      modify (fun w' =>
        set_dbg_closures (dbg_closures w' ++
          [{| dbg_originalUseProgram := gl_useProgram w;
              dbg_originalDrawElements := gl_drawElements w;
              dbg_inTargetShaderPass := false;
              dbg_lastCapturedTexture := None;
              dbg_drawCountInPass := 0 |}]) w') >>;
      log LogDebugArmed >>;
      log NotifyReadyForCapture >>;
      modify (set_gl (DebugWrapper k) (DebugWrapper k)).

(** [Frame_Capture()] of the first WebGL module: the guard is
    [window.isFinalStateMachineCaptureArmed]. *)
Definition Frame_Capture : M unit :=
  let! w := get in
  if finalCaptureArmed w then log NotifyFinalAlreadyArmed
  else
    modify (set_finalCaptureArmed true) >>;
    if negb (gl_available (host w)) then
      log NotifyCaptureNoGL >>;
      modify (set_finalCaptureArmed false)
    else
      let k := List.length (dbg_closures w) in
      modify (fun w' =>
        set_dbg_closures (dbg_closures w' ++
          [{| dbg_originalUseProgram := gl_useProgram w;
              dbg_originalDrawElements := gl_drawElements w;
              dbg_inTargetShaderPass := false;
              dbg_lastCapturedTexture := None;
              dbg_drawCountInPass := 0 |}]) w') >>;
      log LogFinalArmed >>;
      log NotifyReadyForFinalCapture >>;
      modify (set_gl (FinalWrapper k) (FinalWrapper k)).

(** [canvas.app.renderer.on('resize', onCanvasResize)]. *)
Definition renderer_on_resize : M unit :=
  let! w := get in
  match host w with
  | NoApp | NoRenderer => throw TypeError
  | NoGL _ | HasGL _ => modify (set_resize_listeners (S (resize_listeners w)))
  end.

(** The [canvasReady] handler of the real-time mode;
    [width] and [height] are [canvas.screenDimensions]. *)
Definition onCanvasReady (width height : Z) : M unit :=
  onCanvasResize width height >>;
  renderer_on_resize >>;
  armRealTimeCapture.

Fixpoint repeat_M (n : nat) (m : M unit) : M unit :=
  match n with
  | 0 => ret tt
  | S n' => m >>; repeat_M n' m
  end.

(** ** The host *)

Inductive host_event :=
| CanvasReady (width height : Z)
| CanvasTearDown
| RendererResize (width height : Z)
| GLCall (c : glcall)
| BindRenderTexture (t : option nat)
| HostCreateTexture (width height : Z) (resolution : Qc)
| HostDestroyTexture (t : nat)
| HostChange (h : host_env)
| DebugCanvasReady
| ConsumerGetTexture
| ConsumerIsReady.

Definition ignore {A} (m : M A) : M unit := m >>; ret tt.

(** Code of the host that may fail without the module being involved: what
    it throws is the host's. *)
Definition attempt {A} (m : M A) : M unit := fun w =>
  match m w with
  | Some (_, w') => Some (Normal tt, w')
  | None => None
  end.

(** One event of the host page. A renderer that does not exist emits no
    [resize]; a registered listener runs once per registration. The host
    creates its own render textures with [PIXI.RenderTexture.create]. *)
Definition host_step (fuel : nat) (e : host_event) : M unit :=
  match e with
  | CanvasReady width height => onCanvasReady width height
  | CanvasTearDown => tearDownRealTime
  | RendererResize width height =>
      let! w := get in
      match host w with
      | NoApp | NoRenderer => ret tt
      | NoGL _ | HasGL _ => repeat_M (resize_listeners w) (onCanvasResize width height)
      end
  | GLCall c => ignore (gl_call (call fuel) c)
  | BindRenderTexture t => modify (set_renderTexture_current t)
  | HostCreateTexture width height resolution =>
      attempt (RenderTexture_create width height (Some resolution))
  | HostDestroyTexture t =>
      modify (fun w => set_textures (alter destroy_texture t (textures w)) w)
  | HostChange h => modify (set_host h)
  | DebugCanvasReady => armOneShotDebugCapture
  | ConsumerGetTexture => ignore getTexture
  | ConsumerIsReady => ignore isReady
  end.

Fixpoint run (fuel : nat) (es : list host_event) : M unit :=
  match es with
  | [] => ret tt
  | e :: es' => host_step fuel e >>; run fuel es'
  end.

(** ** The libWrapper based module and [api.js] *)

(** What the [canvasReady] handler of that module reads from its
    surroundings. *)
Record legacy_env := {
  setting_debugMode : bool;
  setting_livePreview : bool;
  (* game.modules.get('lib-wrapper')?.active *)
  libWrapper_active : bool;
  (* canvas?.effects?.illumination?.filter?.apply *)
  filter_apply_present : bool;
  (* renderer.screen *)
  screen_width : Z;
  screen_height : Z
}.

(** The page of that module: the [gl] object, [window], the textures and the
    console are those of [page]; the rest are the module's own variables. *)
Record legacy_state := {
  page : world;
  (* api._persistentTexture *)
  api_persistentTexture : option nat;
  (* interceptorState.didCopy *)
  didCopy : bool;
  (* previewSprite: null, or a sprite showing a texture *)
  previewSprite : option (option nat);
  (* the wrapper registered on canvas.effects.illumination.filter.apply *)
  apply_wrapper_registered : bool;
  ticker_callbacks : nat;
  (* Hooks.once("canvasReady", ...) has not fired yet *)
  canvasReady_pending : bool
}.

Definition set_page (v : world) (s : legacy_state) : legacy_state :=
  {| page := v; api_persistentTexture := api_persistentTexture s;
     didCopy := didCopy s; previewSprite := previewSprite s;
     apply_wrapper_registered := apply_wrapper_registered s;
     ticker_callbacks := ticker_callbacks s;
     canvasReady_pending := canvasReady_pending s |}.

Definition set_api_persistentTexture (v : option nat) (s : legacy_state) : legacy_state :=
  {| page := page s; api_persistentTexture := v;
     didCopy := didCopy s; previewSprite := previewSprite s;
     apply_wrapper_registered := apply_wrapper_registered s;
     ticker_callbacks := ticker_callbacks s;
     canvasReady_pending := canvasReady_pending s |}.

Definition set_didCopy (v : bool) (s : legacy_state) : legacy_state :=
  {| page := page s; api_persistentTexture := api_persistentTexture s;
     didCopy := v; previewSprite := previewSprite s;
     apply_wrapper_registered := apply_wrapper_registered s;
     ticker_callbacks := ticker_callbacks s;
     canvasReady_pending := canvasReady_pending s |}.

Definition set_previewSprite (v : option (option nat)) (s : legacy_state) : legacy_state :=
  {| page := page s; api_persistentTexture := api_persistentTexture s;
     didCopy := didCopy s; previewSprite := v;
     apply_wrapper_registered := apply_wrapper_registered s;
     ticker_callbacks := ticker_callbacks s;
     canvasReady_pending := canvasReady_pending s |}.

Definition set_apply_wrapper_registered (v : bool) (s : legacy_state) : legacy_state :=
  {| page := page s; api_persistentTexture := api_persistentTexture s;
     didCopy := didCopy s; previewSprite := previewSprite s;
     apply_wrapper_registered := v;
     ticker_callbacks := ticker_callbacks s;
     canvasReady_pending := canvasReady_pending s |}.

Definition set_ticker_callbacks (v : nat) (s : legacy_state) : legacy_state :=
  {| page := page s; api_persistentTexture := api_persistentTexture s;
     didCopy := didCopy s; previewSprite := previewSprite s;
     apply_wrapper_registered := apply_wrapper_registered s;
     ticker_callbacks := v;
     canvasReady_pending := canvasReady_pending s |}.

Definition set_canvasReady_pending (v : bool) (s : legacy_state) : legacy_state :=
  {| page := page s; api_persistentTexture := api_persistentTexture s;
     didCopy := didCopy s; previewSprite := previewSprite s;
     apply_wrapper_registered := apply_wrapper_registered s;
     ticker_callbacks := ticker_callbacks s;
     canvasReady_pending := v |}.

Definition legacy_initial (h : host_env) (popups : bool) : legacy_state :=
  {| page := initial_world h popups; api_persistentTexture := None;
     didCopy := false; previewSprite := None;
     apply_wrapper_registered := false; ticker_callbacks := 0;
     canvasReady_pending := true |}.

(** Computations of that module. *)
Definition LM (A : Type) : Type := legacy_state -> option (completion A * legacy_state).

(** A computation on the page, run inside the module. *)
Definition on_page {A} (m : M A) : LM A := fun s =>
  match m (page s) with
  | None => None
  | Some (c, w') => Some (c, set_page w' s)
  end.

Definition lbind {A B} (m : LM A) (k : A -> LM B) : LM B := fun s =>
  match m s with
  | None => None
  | Some (Normal a, s') => k a s'
  | Some (Throw e, s') => Some (Throw e, s')
  end.

Definition lret {A} (a : A) : LM A := fun s => Some (Normal a, s).

Definition lmodify (f : legacy_state -> legacy_state) : LM unit :=
  fun s => Some (Normal tt, f s).

(** [try { m } catch (e) { h }]. *)
Definition ltry (m : LM unit) (h : LM unit) : LM unit := fun s =>
  match m s with
  | None => None
  | Some (Normal a, s') => Some (Normal a, s')
  | Some (Throw _, s') => h s'
  end.

(** [api.initialize(renderer)]: [create] is given no resolution. *)
Definition api_initialize (env : legacy_env) : LM unit := fun s =>
  lbind
    (match api_persistentTexture s with
     | Some t => on_page (destroy_on_heap t)
     | None => lret tt
     end)
    (fun _ =>
     lbind (on_page (RenderTexture_create (screen_width env) (screen_height env) None))
       (fun t => lmodify (set_api_persistentTexture (Some t)))) s.

(** [api.getLightingTexture()]. *)
Definition api_getLightingTexture (s : legacy_state) : option nat :=
  api_persistentTexture s.

(** [this._persistentTexture.baseTexture] is still there. *)
Definition has_baseTexture (w : world) (t : nat) : bool :=
  match textures w !! t with
  | Some x => negb (tex_destroyed x)
  | None => false
  end.

(** [api.updateFromSource(sourceTexture, renderer)]; [renderer_given] is
    false when the caller passes no second argument. *)
Definition api_updateFromSource (fuel : nat) (sourceTexture : option nat)
    (renderer_given : bool) : LM unit := fun s =>
  match sourceTexture, api_persistentTexture s with
  | Some src, Some dst =>
      if texture_valid (page s) (Some src) && has_baseTexture (page s) dst then
        if renderer_given then on_page (blit (call fuel) src dst) s
        else Some (Throw TypeError, s)
      else lret tt s
  | _, _ => lret tt s
  end.

(** The wrapper registered on [canvas.effects.illumination.filter.apply];
    [sourceTexture] is [args[1]]. *)
Definition apply_wrapper (fuel : nat) (sourceTexture : option nat) : LM unit :=
  lbind (on_page (log FilterApplied)) (fun _ =>
  lbind (api_updateFromSource fuel sourceTexture true) (fun _ =>
  lmodify (set_didCopy true))).

(** The callback added to [canvas.app.ticker]. *)
Definition ticker_callback : LM unit := fun s =>
  if didCopy s then
    let s1 := set_didCopy false s in
    match previewSprite s1 with
    | Some _ => lmodify (set_previewSprite (Some (api_getLightingTexture s1))) s1
    | None => lret tt s1
    end
  else lret tt s.

(** [canvas.app?.renderer]: [None] is [undefined]; [Some g] is a renderer,
    [g] telling whether its [gl] is there. *)
Definition canvas_app_renderer (h : host_env) : option bool :=
  match h with
  | NoApp | NoRenderer => None
  | NoGL _ => Some false
  | HasGL _ => Some true
  end.

(** [oneShotDebugCapture(renderer)] of that module: [renderer.gl] is read
    first, then the guard [window.isFinalStateMachineCaptureArmed]. *)
Definition oneShotDebugCapture (renderer : option bool) : M unit :=
  match renderer with
  | None => throw TypeError
  | Some false => log NotifyCaptureNoGL
  | Some true =>
      let! w := get in
      if finalCaptureArmed w then log NotifyFinalAlreadyArmed
      else
        modify (set_finalCaptureArmed true) >>;
        let k := List.length (dbg_closures w) in
        modify (fun w' =>
          set_dbg_closures (dbg_closures w' ++
            [{| dbg_originalUseProgram := gl_useProgram w;
                dbg_originalDrawElements := gl_drawElements w;
                dbg_inTargetShaderPass := false;
                dbg_lastCapturedTexture := None;
                dbg_drawCountInPass := 0 |}]) w') >>;
        log LogFinalArmed >>;
        log NotifyReadyForFinalCapture >>;
        modify (set_gl (FinalWrapper k) (FinalWrapper k))
  end.

(** The body of the [Hooks.once("canvasReady", ...)] handler. *)
Definition legacy_canvasReady_body (env : legacy_env) : LM unit := fun s =>
  match canvas_app_renderer (host (page s)) with
  | None => lret tt s
  | Some g =>
      if setting_debugMode env then
        lbind (on_page (log LogDebugModeArming)) (fun _ =>
        on_page (oneShotDebugCapture (Some g))) s
      else
        lbind (api_initialize env) (fun _ =>
        lbind (on_page (log LogApiInitialized)) (fun _ =>
        lbind
          (if libWrapper_active env then
             if filter_apply_present env then
               lbind (lmodify (set_apply_wrapper_registered true)) (fun _ =>
               on_page (log LogLibWrapperActive))
             else
               lbind (on_page (log NotifyTargetNotFound)) (fun _ =>
               on_page (log ErrorTargetNotFound))
           else on_page (log NotifyLibWrapperRequired)) (fun _ =>
        lbind
          (if setting_livePreview env then
             lbind (fun s' =>
                      lmodify (set_previewSprite (Some (api_getLightingTexture s'))) s')
                   (fun _ => on_page (log LogPreviewCreated))
           else lret tt) (fun _ =>
        lbind (fun s' => lmodify (set_ticker_callbacks (S (ticker_callbacks s'))) s')
              (fun _ =>
        lbind (on_page (log HookIlluminationBufferReady)) (fun _ =>
        on_page (log LogHookFired))))))) s
  end.

(** The [canvasReady] hook reaching the module: a handler registered with
    [Hooks.once] runs at most once. *)
Definition legacy_canvasReady (env : legacy_env) : LM unit := fun s =>
  if canvasReady_pending s then
    legacy_canvasReady_body env (set_canvasReady_pending false s)
  else lret tt s.

Fixpoint repeat_LM (n : nat) (m : LM unit) : LM unit :=
  match n with
  | 0 => lret tt
  | S n' => lbind m (fun _ => repeat_LM n' m)
  end.

Inductive legacy_event :=
| LCanvasReady (env : legacy_env)
| LFilterApply (sourceTexture : option nat)
| LTick
| LHost (e : host_event).

Definition legacy_step (fuel : nat) (e : legacy_event) : LM unit := fun s =>
  match e with
  | LCanvasReady env => legacy_canvasReady env s
  | LFilterApply src =>
      if apply_wrapper_registered s then apply_wrapper fuel src s
      else on_page (log FilterApplied) s
  | LTick => repeat_LM (ticker_callbacks s) ticker_callback s
  | LHost (GLCall c) => on_page (ignore (gl_call (call fuel) c)) s
  | LHost (BindRenderTexture t) => on_page (modify (set_renderTexture_current t)) s
  | LHost (HostCreateTexture width height resolution) =>
      on_page (attempt (RenderTexture_create width height (Some resolution))) s
  | LHost (HostDestroyTexture t) =>
      on_page (modify (fun w =>
        set_textures (alter destroy_texture t (textures w)) w)) s
  | LHost (HostChange h) => on_page (modify (set_host h)) s
  | LHost _ => lret tt s
  end.

Fixpoint legacy_run (fuel : nat) (es : list legacy_event) : LM unit :=
  match es with
  | [] => lret tt
  | e :: es' => lbind (legacy_step fuel e) (fun _ => legacy_run fuel es')
  end.

(** ** The first interceptor: the wrapper on [PrimaryCanvasGroup.prototype.draw] *)

(** A filter of the group: its constructor's name and
    [uniforms.illuminationTexture]. *)
Record pixi_filter := {
  constructor_name : string;
  illuminationTexture : option nat
}.

(** [this.filters?.find(pred)]. *)
Definition find_filter (pred : pixi_filter -> bool)
    (filters : option (list pixi_filter)) : option pixi_filter :=
  match filters with
  | Some fs => List.find pred fs
  | None => None
  end.

(** The body of the [try] block of the wrapper: [updateFromSource] is called
    with the texture alone. *)
Definition draw_wrapper_capture (fuel : nat)
    (filters : option (list pixi_filter)) : LM unit :=
  match find_filter (fun f => String.eqb (constructor_name f) "IlluminationShader") filters with
  | Some f =>
      match illuminationTexture f with
      | Some t => api_updateFromSource fuel (Some t) false
      | None =>
          match find_filter (fun f' => includes (constructor_name f') "Illumination") filters with
          | Some g =>
              match illuminationTexture g with
              | Some t => api_updateFromSource fuel (Some t) false
              | None => lret tt
              end
          | None => lret tt
          end
      end
  | None =>
      match find_filter (fun f' => includes (constructor_name f') "Illumination") filters with
      | Some g =>
          match illuminationTexture g with
          | Some t => api_updateFromSource fuel (Some t) false
          | None => lret tt
          end
      | None => lret tt
      end
  end.

(** The wrapper itself: [result] is what the wrapped [draw] returned. *)
Definition draw_wrapper (fuel : nat) (filters : option (list pixi_filter))
    (result : jsval) : LM jsval :=
  lbind (ltry (draw_wrapper_capture fuel filters)
              (on_page (log ErrorCapturing))) (fun _ =>
  lret result).

End Interceptor.

(** * Auxiliary definitions for the properties *)

(** The world [tearDownRealTime] leaves behind when it returns. *)
Definition torn_down (w : world) : world :=
  let w1 := emit LogTearDown w in
  let w2 := match originalGLFunctions w with
            | Some (u, d) =>
                if isInterceptorArmed w && gl_available (host w)
                then set_gl u d w1 else w1
            | None => w1
            end in
  let w3 := match persistentTexture w with
            | Some t =>
                set_persistentTexture None
                  (emit (TextureDestroyed t)
                     (set_textures (alter destroy_texture t (textures w)) w2))
            | None => w2
            end in
  let w4 := match host w with
            | NoApp => w3
            | _ => set_resize_listeners 0 w3
            end in
  set_isInterceptorArmed false (set_isApiReady false w4).

(** The closure environment [armOneShotDebugCapture] creates on [w]. *)
Definition fresh_dbg_closure (w : world) : dbg_closure :=
  {| dbg_originalUseProgram := gl_useProgram w;
     dbg_originalDrawElements := gl_drawElements w;
     dbg_inTargetShaderPass := false;
     dbg_lastCapturedTexture := None;
     dbg_drawCountInPass := 0 |}.

(** The world after [armOneShotDebugCapture] has installed its wrappers. *)
Definition debug_installed (w : world) : world :=
  let k := List.length (dbg_closures w) in
  set_gl (DebugWrapper k) (DebugWrapper k)
    (emit NotifyReadyForCapture
       (emit LogDebugArmed
          (set_dbg_closures (dbg_closures w ++ [fresh_dbg_closure w])
             (set_debugCaptureArmed true w)))).

(** The draw counts reported by the end-of-pass lines of a trace. *)
Definition end_of_pass_draws (tr : list event) : list nat :=
  omap (fun e => match e with LogExiting n => Some n | _ => None end) tr.

(** The textures read back by the debug capture in a trace. *)
Definition extracted (tr : list event) : list nat :=
  omap (fun e => match e with ExtractCanvas t => Some t | _ => None end) tr.

(** The GPU copies of a trace, as (source, destination). *)
Definition blits (tr : list event) : list (nat * nat) :=
  omap (fun e => match e with Blit s d => Some (s, d) | _ => None end) tr.

(** What the exit branch of the debug wrapper does with the target it
    kept. *)
Definition capture_events (w : world) (t : option nat) : list event :=
  match t with
  | Some i =>
      if texture_valid w (Some i)
      then ExtractCanvas i :: (if popups_allowed w then [WindowWrite] else [])
      else [NotifyNoValidTexture]
  | None => [NotifyNoValidTexture]
  end.

(** The host draws once on each render target of [ds], binding it first. *)
Definition draw_events (ds : list (option nat * draw_args)) : list host_event :=
  flat_map (fun d => [BindRenderTexture (fst d); GLCall (DrawElements (snd d))]) ds.

(** Bind [pt], draw [ds], bind [po]. *)
Definition pass_events (pt : program) (ds : list (option nat * draw_args))
    (po : program) : list host_event :=
  GLCall (UseProgram pt) :: draw_events ds ++ [GLCall (UseProgram po)].

(** The render target bound at the last draw of [ds], after [t0]. *)
Definition last_target (t0 : option nat) (ds : list (option nat * draw_args)) : option nat :=
  List.last (map fst ds) t0.

(** The debug detector [k] is installed on both entry points, forwards to
    the native ones and holds [clo]. *)
Definition debug_installed_at (w : world) (k : nat) (clo : dbg_closure) : Prop :=
  gl_useProgram w = DebugWrapper k /\
  gl_drawElements w = DebugWrapper k /\
  dbg_closures w !! k = Some clo /\
  dbg_originalUseProgram clo = Native /\
  dbg_originalDrawElements clo = Native.

(** Logging a list of events, one after the other. *)
Definition emit_list (es : list event) (w : world) : world :=
  fold_left (fun w' e => emit e w') es w.

(** ** Example values *)

Definition newline : string := String (ascii_of_nat 10) EmptyString.

(** A program whose fragment shader carries the target's name. *)
Definition example_target : program :=
  Program 15
    (Some [Some "attribute vec2 aVertexPosition;";
           Some ("#define SHADER_NAME pixi-shader-15" ++ newline ++ "void main(void){}")]).

(** Another program of the host. *)
Definition example_other : program :=
  Program 3
    (Some [Some "attribute vec2 aVertexPosition;";
           Some ("#define SHADER_NAME pixi-shader-3" ++ newline ++ "void main(void){}")]).

(** A program without attached shaders. *)
Definition example_opaque : program := Program 7 (Some []).

Definition example_draw : draw_args :=
  {| draw_mode := 4; draw_count := 6; draw_type := 5123; draw_offset := 0 |}.

(** WebGL's entry points return [undefined]. *)
Definition example_return (c : glcall) : jsval := JSUndefined.

(** The blit binds the sprite shader and draws one quad. *)
Definition example_blit : list glcall :=
  [UseProgram example_other; DrawElements example_draw].

Definition world_after (es : list host_event) (w : world) : world :=
  match run example_return example_blit 4 es w with
  | Some (_, w') => w'
  | None => w
  end.

(** A page with two render targets of the host, the debug capture armed,
    after an unrelated pass of three draws. *)
Definition example_debug_world : world :=
  Eval vm_compute in
    world_after
      [HostCreateTexture 800 600 1%Qc; HostCreateTexture 800 600 1%Qc;
       DebugCanvasReady;
       GLCall (UseProgram example_other);
       BindRenderTexture (Some 0); GLCall (DrawElements example_draw);
       GLCall (DrawElements example_draw); GLCall (DrawElements example_draw)]
      (initial_world (HasGL 1%Qc) true).

(** Five draws, the last one on render target 1. *)
Definition example_draws : list (option nat * draw_args) :=
  [(Some 0, example_draw); (Some 0, example_draw); (Some 1, example_draw);
   (Some 0, example_draw); (Some 1, example_draw)].

(** ** Closed forms for the real-time wrappers *)

(** The call [c] has reached the native entry point. *)
Definition forwarded (c : glcall) (w : world) : world :=
  set_native_calls (native_calls w ++ [c]) w.

(** The sprite blit does not itself bind the target shader. *)
Definition quiet_call (c : glcall) : Prop :=
  match c with
  | UseProgram q => realtime_matches q = false
  | DrawElements _ => True
  end.

(** The real-time interceptor [k] is installed on both entry points, holds
    [clo], and the saved originals are the native entry points. *)
Definition rt_installed_at (w : world) (k : nat) (clo : rt_closure) : Prop :=
  gl_useProgram w = RealTimeWrapper k /\
  gl_drawElements w = RealTimeWrapper k /\
  rt_closures w !! k = Some clo /\
  originalGLFunctions w = Some (Native, Native).

(** The end-of-pass copy of [src] into [dst], the blit issuing [cs], and the
    ready flag raised when it was down. *)
Definition rt_copy (cs : list glcall) (src dst : nat) (w : world) : world :=
  let w1 := emit (Blit src dst)
              (set_textures (alter (write_texture src) dst (textures w))
                 (set_native_calls (native_calls w ++ cs)
                    (set_renderTexture_current (Some dst) w))) in
  if isApiReady w then w1 else emit LogFirstCapture (set_isApiReady true w1).

(** Whether the exit branch of the real-time wrapper copies. *)
Definition rt_copies (w : world) (clo : rt_closure) : option (nat * nat) :=
  match rt_lastCapturedTexture clo, persistentTexture w with
  | Some src, Some dst => if texture_valid w (Some src) then Some (src, dst) else None
  | _, _ => None
  end.

(** The world after the exit branch of the real-time wrapper [k]. *)
Definition rt_after_exit (cs : list glcall) (k : nat) (clo : rt_closure) (w : world) : world :=
  let w1 := set_rt_closures (alter (rt_set_flag false) k (rt_closures w)) w in
  match rt_copies w clo with
  | Some (src, dst) => rt_copy cs src dst w1
  | None => w1
  end.

(** The entry test of the real-time wrapper [k] on [p]. *)
Definition rt_entry (p : program) (k : nat) (w : world) : world :=
  if realtime_matches p
  then set_rt_closures (alter (rt_set_flag true) k (rt_closures w)) w
  else w.

(** A page in real-time mode: the buffer created at 800x600, the interceptor
    armed, and the host inside the target pass after one draw on its render
    target 0. *)
Definition example_rt_world : world :=
  Eval vm_compute in
    world_after
      [HostCreateTexture 800 600 1%Qc;
       CanvasReady 800 600;
       GLCall (UseProgram example_target);
       BindRenderTexture (Some 0); GLCall (DrawElements example_draw)]
      (initial_world (HasGL 1%Qc) true).

(** The closure of the interceptor of [example_rt_world]. *)
Definition example_rt_closure : rt_closure :=
  {| rt_inTargetShaderPass := true; rt_lastCapturedTexture := Some 0 |}.

(** The debug capture armed and inside the target pass after two draws. *)
Definition example_debug_inpass_world : world :=
  Eval vm_compute in
    world_after
      [GLCall (UseProgram example_target);
       BindRenderTexture (Some 0); GLCall (DrawElements example_draw);
       GLCall (DrawElements example_draw)]
      example_debug_world.

Definition example_debug_inpass_closure : dbg_closure :=
  {| dbg_originalUseProgram := Native;
     dbg_originalDrawElements := Native;
     dbg_inTargetShaderPass := true;
     dbg_lastCapturedTexture := Some 0;
     dbg_drawCountInPass := 2 |}.

Definition option_list {A} (o : option A) : list A :=
  match o with
  | Some a => [a]
  | None => []
  end.

(** [canvas.app.renderer.resolution], when there is a renderer. *)
Definition host_resolution (h : host_env) : option Qc :=
  match h with
  | NoApp | NoRenderer => None
  | NoGL r | HasGL r => Some r
  end.

(** The world [onCanvasResize] has reached when it asks for the new
    texture: the old buffer is destroyed and still referred to. *)
Definition resize_begun (w : world) : world :=
  let w1 := emit LogCanvasResized w in
  match persistentTexture w with
  | Some t =>
      emit (TextureDestroyed t)
        (set_textures (alter destroy_texture t (textures w)) w1)
  | None => w1
  end.

(** The texture [onCanvasResize] creates on [w], the renderer's resolution
    being [resolution], when the framebuffer can be made. *)
Definition resize_texture (width height : Z) (resolution : Qc) (w : world) : texture :=
  let r := effective_resolution (settings_RESOLUTION w) (Some resolution) in
  new_texture (real_size width r) (real_size height r) r.

(** The world [onCanvasResize] leaves behind when it returns. *)
Definition resized (width height : Z) (resolution : Qc) (w : world) : world :=
  let w2 := resize_begun w in
  set_persistentTexture (Some (List.length (textures w2)))
    (set_textures (textures w2 ++ [resize_texture width height resolution w]) w2).

(** The pass of [example_rt_world] from the start, with a resize of the
    canvas to 1920x1080 before the pass ends. *)
Definition resize_scenario : list host_event :=
  [HostCreateTexture 800 600 1%Qc;
   CanvasReady 800 600;
   GLCall (UseProgram example_target);
   BindRenderTexture (Some 0); GLCall (DrawElements example_draw);
   RendererResize 1920 1080;
   GLCall (UseProgram example_other)].

(** ** The tap seen from the caller *)



(** The world after [armRealTimeCapture] has installed its wrappers for the
    first time. *)
Definition rt_armed (w : world) : world :=
  let k := List.length (rt_closures w) in
  set_isInterceptorArmed true
    (set_gl (RealTimeWrapper k) (RealTimeWrapper k)
       (set_rt_closures
          (rt_closures w ++
             [{| rt_inTargetShaderPass := false; rt_lastCapturedTexture := None |}])
          (set_originalGLFunctions (Some (gl_useProgram w, gl_drawElements w))
             (emit LogArmingRealTime w)))).


(** ** The activation lifecycle of the real-time mode *)

(** What can happen between [canvasReady] and [canvasTearDown]. *)
Definition lifecycle_event (e : host_event) : Prop :=
  match e with
  | GLCall _ | BindRenderTexture _ | HostCreateTexture _ _ _
  | HostDestroyTexture _ | RendererResize _ _
  | ConsumerGetTexture | ConsumerIsReady => True
  | CanvasReady _ _ | CanvasTearDown | HostChange _ | DebugCanvasReady => False
  end.

(** The real-time interceptor [k] is installed and the renderer is there. *)
Definition rt_active (w : world) (k : nat) : Prop :=
  (exists clo, rt_installed_at w k clo) /\
  (exists r, host_resolution (host w) = Some r).

Definition has_blit (tr : list event) : bool :=
  match blits tr with
  | [] => false
  | _ :: _ => true
  end.

(** The number of times the ready hook was fired in a trace. *)
Definition ready_hooks (tr : list event) : nat :=
  List.length
    (omap (fun e => match e with
                    | HookIlluminationBufferReady => Some tt
                    | _ => None
                    end) tr).

(** The pass of [example_rt_world] from the start, completed, and followed by
    a resize of the canvas. *)
Definition ready_then_resize_scenario : list host_event :=
  [HostCreateTexture 800 600 1%Qc;
   CanvasReady 800 600;
   GLCall (UseProgram example_target);
   BindRenderTexture (Some 0); GLCall (DrawElements example_draw);
   GLCall (UseProgram example_other);
   RendererResize 1920 1080].

(** ** The libWrapper based module *)

(** What the [canvasReady] handler of that module logs once
    [api.initialize] has returned, outside debug mode. *)
Definition legacy_ready_events (env : legacy_env) : list event :=
  (LogApiInitialized ::
   (if libWrapper_active env then
      if filter_apply_present env then [LogLibWrapperActive]
      else [NotifyTargetNotFound; ErrorTargetNotFound]
    else [NotifyLibWrapperRequired]) ++
   (if setting_livePreview env then [LogPreviewCreated] else []) ++
   [HookIlluminationBufferReady; LogHookFired])%list.

(** The page [api.initialize] has reached when it asks for the new texture:
    the old buffer, if any, is destroyed. *)
Definition initialize_begun (s : legacy_state) : world :=
  let w := page s in
  match api_persistentTexture s with
  | Some t =>
      emit (TextureDestroyed t)
        (set_textures (alter destroy_texture t (textures w)) w)
  | None => w
  end.

(** The texture [api.initialize] creates, when the framebuffer can be
    made: no resolution is given, so PIXI's setting applies. *)
Definition screen_texture (env : legacy_env) (s : legacy_state) : texture :=
  let r := settings_RESOLUTION (page s) in
  new_texture (real_size (screen_width env) r) (real_size (screen_height env) r) r.

(** The state [api.initialize] leaves behind when it returns. *)
Definition legacy_initialized (env : legacy_env) (s : legacy_state) : legacy_state :=
  let w1 := initialize_begun s in
  set_api_persistentTexture (Some (List.length (textures w1)))
    (set_page (set_textures (textures w1 ++ [screen_texture env s]) w1) s).

(** The state the [canvasReady] handler of that module leaves behind, outside
    debug mode, [s] being the state in which [api.initialize] has returned. *)
Definition legacy_announced (env : legacy_env) (s : legacy_state) : legacy_state :=
  {| page := emit_list (legacy_ready_events env) (page s);
     api_persistentTexture := api_persistentTexture s;
     didCopy := didCopy s;
     previewSprite :=
       if setting_livePreview env then Some (api_persistentTexture s)
       else previewSprite s;
     apply_wrapper_registered :=
       if libWrapper_active env && filter_apply_present env then true
       else apply_wrapper_registered s;
     ticker_callbacks := S (ticker_callbacks s);
     canvasReady_pending := canvasReady_pending s |}.

(** The [canvasReady] handler of that module gets as far as the ready hook:
    there is a renderer, debug mode is off and the buffer can be made. *)
Definition hook_fires (env : legacy_env) (s : legacy_state) : bool :=
  match canvas_app_renderer (host (page s)) with
  | Some _ =>
      negb (setting_debugMode env) &&
      framebuffer_ok (settings_RESOLUTION (page s))
        (screen_width env) (screen_height env) None
  | None => false
  end.

(** The world after [oneShotDebugCapture] (or [Frame_Capture]) has installed
    its wrappers. *)
Definition final_installed (w : world) : world :=
  let k := List.length (dbg_closures w) in
  set_gl (FinalWrapper k) (FinalWrapper k)
    (emit NotifyReadyForFinalCapture
       (emit LogFinalArmed
          (set_dbg_closures (dbg_closures w ++ [fresh_dbg_closure w])
             (set_finalCaptureArmed true w)))).

(** What [oneShotDebugCapture] logs when it is given a renderer. *)
Definition final_arming_events (g : bool) (w : world) : list event :=
  if g then
    if finalCaptureArmed w then [NotifyFinalAlreadyArmed]
    else [LogFinalArmed; NotifyReadyForFinalCapture]
  else [NotifyCaptureNoGL].

Definition example_legacy_env : legacy_env :=
  {| setting_debugMode := false; setting_livePreview := true;
     libWrapper_active := true; filter_apply_present := true;
     screen_width := 800; screen_height := 600 |}.

(** A pass of the host completed in real-time mode. *)
Definition completed_pass_scenario : list host_event :=
  [HostCreateTexture 800 600 1%Qc;
   CanvasReady 800 600;
   GLCall (UseProgram example_target);
   BindRenderTexture (Some 0); GLCall (DrawElements example_draw);
   GLCall (UseProgram example_other)].

(** The real-time mode just activated: the buffer created and the
    interceptor armed. *)
Definition example_activated_world : world :=
  Eval vm_compute in
    world_after [HostCreateTexture 800 600 1%Qc; CanvasReady 800 600]
      (initial_world (HasGL 1%Qc) true).

(** A pass of the host, a resize and a look at the API. *)
Definition example_lifecycle : list host_event :=
  [GLCall (UseProgram example_target);
   BindRenderTexture (Some 0); GLCall (DrawElements example_draw);
   GLCall (UseProgram example_other);
   RendererResize 1920 1080;
   ConsumerGetTexture].

(** [example_rt_world] after the host has destroyed its render target. *)
Definition example_stale_world : world :=
  Eval vm_compute in world_after [HostDestroyTexture 0] example_rt_world.

(** The world after [armRealTimeCapture] has installed its wrappers on a
    page where the original entry points are saved already. *)
Definition rt_rearmed (w : world) : world :=
  let k := List.length (rt_closures w) in
  set_isInterceptorArmed true
    (set_gl (RealTimeWrapper k) (RealTimeWrapper k)
       (set_rt_closures
          (rt_closures w ++
             [{| rt_inTargetShaderPass := false; rt_lastCapturedTexture := None |}])
          (emit LogArmingRealTime w))).

(** The real-time mode after a teardown: the wrappers are gone, the saved
    originals are still there. *)
Definition example_torn_down_world : world :=
  Eval vm_compute in world_after [CanvasTearDown] example_rt_world.

(** [x] occurs in [s] as a run of consecutive characters. *)
Definition occurs_in (x s : string) : Prop :=
  exists a b, s = a ++ x ++ b.

(** A program whose fragment shader mentions the identifier without
    defining a shader name. *)
Definition example_unnamed : program :=
  Program 16 (Some [Some "void main(void){}"; Some "// pixi-shader-15"]).

(** The libWrapper module activated on a page where the host has one
    texture. *)
Definition example_legacy_state : legacy_state :=
  Eval vm_compute in
    match legacy_run example_return example_blit 4
            [LHost (HostCreateTexture 800 600 1%Qc); LCanvasReady example_legacy_env]
            (legacy_initial (HasGL 1%Qc) true) with
    | Some (_, s) => s
    | None => legacy_initial (HasGL 1%Qc) true
    end.

(** [example_rt_world] after the pass has ended with a copy, on a page whose
    application object has lost its renderer since. *)
Definition example_lost_renderer_world : world :=
  Eval vm_compute in
    world_after [GLCall (UseProgram example_other); HostChange NoRenderer]
      example_rt_world.

(** A blit that binds a program carrying the target's name. *)
Definition example_loud_blit : list glcall :=
  [UseProgram example_target; DrawElements example_draw].


(** * Properties *)

(** ** Reasoning about computations *)

Ltac psimpl := cbn [
   set_persistentTexture set_isApiReady set_isInterceptorArmed
   set_originalGLFunctions set_debugCaptureArmed set_gl set_rt_closures
   set_dbg_closures set_textures set_renderTexture_current
   set_resize_listeners set_host set_native_calls set_trace emit
   persistentTexture isApiReady isInterceptorArmed originalGLFunctions
   debugCaptureArmed gl_useProgram gl_drawElements rt_closures dbg_closures
   textures renderTexture_current resize_listeners host popups_allowed
   native_calls trace finalCaptureArmed settings_RESOLUTION
   set_finalCaptureArmed set_settings_RESOLUTION slot_of
   rt_inTargetShaderPass rt_lastCapturedTexture rt_set_flag rt_set_last
   dbg_originalUseProgram dbg_originalDrawElements dbg_inTargetShaderPass
   dbg_lastCapturedTexture dbg_drawCountInPass dbg_enter dbg_record].

Lemma bind_normal {A B} (m : M A) (k : A -> M B) w a w1 r :
  m w = Some (Normal a, w1) -> k a w1 = r -> bind m k w = r.
Proof. intros H1 H2. unfold bind. rewrite H1. exact H2. Qed.

Lemma bind_throw {A B} (m : M A) (k : A -> M B) w e w1 :
  m w = Some (Throw e, w1) -> bind m k w = Some (Throw e, w1).
Proof. intros H1. unfold bind. rewrite H1. reflexivity. Qed.

Lemma get_rt_closure_eq k w clo :
  rt_closures w !! k = Some clo -> get_rt_closure k w = Some (Normal clo, w).
Proof. intros H. unfold get_rt_closure. rewrite H. reflexivity. Qed.

Lemma get_dbg_closure_eq k w clo :
  dbg_closures w !! k = Some clo -> get_dbg_closure k w = Some (Normal clo, w).
Proof. intros H. unfold get_dbg_closure. rewrite H. reflexivity. Qed.

(** ** Teardown *)

Lemma tearDownRealTime_returns (w : world) :
  host w <> NoRenderer ->
  tearDownRealTime w = Some (Normal tt, torn_down w).
Proof.
  intros Hh.
  destruct w as [pt rdy armed og guard up de rtc dbc tx cur rl h pop nc tr fg sr].
  simpl in Hh.
  destruct h as [| |r|r]; [|exfalso; apply Hh; reflexivity| |];
    destruct og as [[u d]|], armed, pt as [t|]; vm_compute; reflexivity.
Qed.

Lemma torn_down_again (w : world) :
  torn_down (torn_down w) = emit LogTearDown (torn_down w).
Proof.
  destruct w as [pt rdy armed og guard up de rtc dbc tx cur rl h pop nc tr fg sr].
  destruct h as [| |r|r], og as [[u d]|], armed, pt as [t|];
    vm_compute; reflexivity.
Qed.

Lemma torn_down_host (w : world) : host (torn_down w) = host w.
Proof.
  destruct w as [pt rdy armed og guard up de rtc dbc tx cur rl h pop nc tr fg sr].
  destruct h as [| |r|r], og as [[u d]|], armed, pt as [t|];
    vm_compute; reflexivity.
Qed.

(** X17. Calling [tearDownRealTime] twice in a row, on a page whose
    application object (when there is one) still has its renderer: the first
    call returns with the buffer reference null and both flags reset, and the
    second call returns too and changes nothing but the console (it logs its
    one line again; no texture is destroyed, no entry point is touched). *)
Theorem tearDownRealTime_twice (w : world) :
  host w <> NoRenderer ->
  exists w1,
    tearDownRealTime w = Some (Normal tt, w1) /\
    persistentTexture w1 = None /\
    isApiReady w1 = false /\
    isInterceptorArmed w1 = false /\
    tearDownRealTime w1 = Some (Normal tt, emit LogTearDown w1).
Proof.
  intros Hh. exists (torn_down w).
  split; [apply tearDownRealTime_returns; exact Hh|].
  split; [|split; [|split]].
  - destruct w as [pt rdy armed og guard up de rtc dbc tx cur rl h pop nc tr fg sr].
    destruct h as [| |r|r], og as [[u d]|], armed, pt as [t|];
      vm_compute; reflexivity.
  - reflexivity.
  - reflexivity.
  - rewrite tearDownRealTime_returns.
    + rewrite torn_down_again. reflexivity.
    + rewrite torn_down_host. exact Hh.
Qed.

Lemma tearDownRealTime_twice_witness :
  exists w1,
    tearDownRealTime example_rt_world = Some (Normal tt, w1) /\
    persistentTexture w1 = None /\
    isApiReady w1 = false /\
    isInterceptorArmed w1 = false /\
    tearDownRealTime w1 = Some (Normal tt, emit LogTearDown w1).
Proof.
  apply (tearDownRealTime_twice example_rt_world).
  simpl. discriminate.
Defined.

(** C9 fails on a page whose application object has no renderer (the
    removal of the resize listener reads [canvas.app?.renderer.off], without
    the second [?.] that the restore three lines above has): the first call
    throws a TypeError after it has released the buffer, so the ready flag
    and the armed flag are not reset and the wrappers stay in the entry
    points; the second call throws again and resets nothing either. *)
Lemma tearDownRealTime_twice_throws :
  exists w1 w2,
    host example_lost_renderer_world = NoRenderer /\
    isApiReady example_lost_renderer_world = true /\
    isInterceptorArmed example_lost_renderer_world = true /\
    tearDownRealTime example_lost_renderer_world = Some (Throw TypeError, w1) /\
    persistentTexture w1 = None /\
    isApiReady w1 = true /\
    isInterceptorArmed w1 = true /\
    gl_useProgram w1 = RealTimeWrapper 0 /\
    gl_drawElements w1 = RealTimeWrapper 0 /\
    tearDownRealTime w1 = Some (Throw TypeError, w2) /\
    isApiReady w2 = true /\
    isInterceptorArmed w2 = true.
Proof.
  eexists. eexists.
  split; [reflexivity|]. split; [reflexivity|]. split; [reflexivity|].
  split; [vm_compute; reflexivity|].
  split; [reflexivity|]. split; [reflexivity|]. split; [reflexivity|].
  split; [reflexivity|]. split; [reflexivity|].
  split; [vm_compute; reflexivity|].
  split; reflexivity.
Qed.

(** ** The one-shot debug capture *)

Lemma armOneShotDebugCapture_guarded (w : world) :
  debugCaptureArmed w = true ->
  armOneShotDebugCapture w = Some (Normal tt, emit NotifyAlreadyArmed w).
Proof.
  destruct w as [pt rdy armed og guard up de rtc dbc tx cur rl h pop nc tr fg sr].
  simpl. intros ->. vm_compute. reflexivity.
Qed.

Lemma armOneShotDebugCapture_no_gl (w : world) :
  debugCaptureArmed w = false -> gl_available (host w) = false ->
  armOneShotDebugCapture w = Some (Normal tt, emit NotifyNoGL w).
Proof.
  destruct w as [pt rdy armed og guard up de rtc dbc tx cur rl h pop nc tr fg sr].
  simpl. intros -> Hh.
  destruct h as [| |r|r]; try discriminate Hh; vm_compute; reflexivity.
Qed.

Lemma armOneShotDebugCapture_installs (w : world) :
  debugCaptureArmed w = false -> gl_available (host w) = true ->
  armOneShotDebugCapture w = Some (Normal tt, debug_installed w).
Proof.
  destruct w as [pt rdy armed og guard up de rtc dbc tx cur rl h pop nc tr fg sr].
  simpl. intros -> Hh.
  destruct h as [| |r|r]; try discriminate Hh. vm_compute. reflexivity.
Qed.

(** C8. [armOneShotDebugCapture] always returns. It installs its wrappers
    exactly when the guard is clear and a context is found. With the guard
    set it only warns: nothing else changes. Without a context it only
    reports the error: the guard is clear afterwards and nothing else
    changes. *)
Theorem armOneShotDebugCapture_aborts (w : world) :
  exists w',
    armOneShotDebugCapture w = Some (Normal tt, w') /\
    (debugCaptureArmed w = true -> w' = emit NotifyAlreadyArmed w) /\
    (debugCaptureArmed w = false -> gl_available (host w) = false ->
       w' = emit NotifyNoGL w /\ debugCaptureArmed w' = false) /\
    (debugCaptureArmed w = false -> gl_available (host w) = true ->
       gl_useProgram w' = DebugWrapper (List.length (dbg_closures w)) /\
       gl_drawElements w' = DebugWrapper (List.length (dbg_closures w)) /\
       dbg_closures w' = (dbg_closures w ++ [fresh_dbg_closure w])%list /\
       debugCaptureArmed w' = true).
Proof.
  destruct (debugCaptureArmed w) eqn:Hg.
  - exists (emit NotifyAlreadyArmed w).
    split; [apply armOneShotDebugCapture_guarded; exact Hg|].
    split; [reflexivity|].
    split; intros H; discriminate H.
  - destruct (gl_available (host w)) eqn:Hgl.
    + exists (debug_installed w).
      split; [apply armOneShotDebugCapture_installs; assumption|].
      split; [intros H; discriminate H|].
      split; [intros _ H; discriminate H|].
      intros _ _. repeat split.
    + exists (emit NotifyNoGL w).
      split; [apply armOneShotDebugCapture_no_gl; assumption|].
      split; [intros H; discriminate H|].
      split; [|intros _ H; discriminate H].
      intros _ _. split; [reflexivity|exact Hg].
Qed.

Lemma armOneShotDebugCapture_aborts_witness :
  (exists w',
     armOneShotDebugCapture (set_debugCaptureArmed true (initial_world (HasGL 1%Qc) true))
       = Some (Normal tt, w') /\
     w' = emit NotifyAlreadyArmed
            (set_debugCaptureArmed true (initial_world (HasGL 1%Qc) true))) /\
  (exists w',
     armOneShotDebugCapture (initial_world NoApp true) = Some (Normal tt, w') /\
     w' = emit NotifyNoGL (initial_world NoApp true) /\
     debugCaptureArmed w' = false) /\
  (exists w',
     armOneShotDebugCapture (initial_world (HasGL 1%Qc) true) = Some (Normal tt, w') /\
     gl_useProgram w' = DebugWrapper 0 /\
     gl_drawElements w' = DebugWrapper 0 /\
     debugCaptureArmed w' = true).
Proof.
  split; [|split].
  - destruct (armOneShotDebugCapture_aborts
                (set_debugCaptureArmed true (initial_world (HasGL 1%Qc) true)))
      as (w' & E & H1 & _).
    exists w'. split; [exact E|]. apply H1. reflexivity.
  - destruct (armOneShotDebugCapture_aborts (initial_world NoApp true))
      as (w' & E & _ & H2 & _).
    exists w'. split; [exact E|]. apply H2; reflexivity.
  - destruct (armOneShotDebugCapture_aborts (initial_world (HasGL 1%Qc) true))
      as (w' & E & _ & _ & H3).
    exists w'. split; [exact E|].
    destruct H3 as (A & B & _ & D); [reflexivity|reflexivity|].
    split; [exact A|]. split; [exact B|exact D].
Defined.

Section Detector.

Variable native_return : glcall -> jsval.
Variable blit_calls : list glcall.

Abbreviation call := (call native_return blit_calls).
Abbreviation run := (run native_return blit_calls).
Abbreviation host_step := (host_step native_return blit_calls).

Lemma call_native n c w :
  call (S n) Native c w =
  Some (Normal (native_return c), set_native_calls (native_calls w ++ [c]) w).
Proof. destruct c; reflexivity. Qed.

(** *** The debug wrappers, one call at a time *)

Lemma dbg_draw n k a w clo :
  dbg_closures w !! k = Some clo ->
  dbg_originalDrawElements clo = Native ->
  call (S (S n)) (DebugWrapper k) (DrawElements a) w =
  Some (Normal (native_return (DrawElements a)),
        if dbg_inTargetShaderPass clo
        then set_dbg_closures
               (alter (dbg_record (renderTexture_current w)) k (dbg_closures w))
               (set_native_calls (native_calls w ++ [DrawElements a]) w)
        else set_native_calls (native_calls w ++ [DrawElements a]) w).
Proof.
  intros Hk Ho.
  change (call (S (S n)) (DebugWrapper k) (DrawElements a))
    with (dbg_drawElements (call (S n)) k a).
  unfold dbg_drawElements.
  eapply bind_normal; [apply get_dbg_closure_eq; exact Hk|]. cbv beta.
  rewrite Ho.
  eapply bind_normal; [apply call_native|]. cbv beta.
  eapply bind_normal; [apply get_dbg_closure_eq; psimpl; exact Hk|]. cbv beta.
  destruct (dbg_inTargetShaderPass clo); reflexivity.
Qed.

Lemma dbg_use_idle n k p w clo :
  dbg_closures w !! k = Some clo ->
  dbg_inTargetShaderPass clo = false ->
  dbg_originalUseProgram clo = Native ->
  call (S (S n)) (DebugWrapper k) (UseProgram p) w =
  Some (Normal (native_return (UseProgram p)),
        if debug_matches p
        then set_native_calls (native_calls w ++ [UseProgram p])
               (set_dbg_closures (alter dbg_enter k (dbg_closures w))
                  (emit (LogEntering (debug_program_name p)) w))
        else set_native_calls (native_calls w ++ [UseProgram p]) w).
Proof.
  intros Hk Hf Ho.
  change (call (S (S n)) (DebugWrapper k) (UseProgram p))
    with (dbg_useProgram (call (S n)) k p).
  unfold dbg_useProgram.
  eapply bind_normal; [apply get_dbg_closure_eq; exact Hk|]. cbv beta.
  rewrite Hf, Ho.
  eapply bind_normal; [reflexivity|]. cbv beta.
  unfold debug_matches.
  destruct (includes (debug_program_name p) target_identifier).
  - eapply bind_normal.
    + unfold when.
      eapply bind_normal; [apply get_dbg_closure_eq; exact Hk|]. cbv beta.
      rewrite Hf. reflexivity.
    + cbv beta. rewrite call_native. reflexivity.
  - eapply bind_normal; [reflexivity|]. cbv beta. apply call_native.
Qed.

(** The world after the exit branch of the debug wrapper. *)
Lemma dbg_use_exit n k p w clo :
  dbg_closures w !! k = Some clo ->
  dbg_inTargetShaderPass clo = true ->
  dbg_originalUseProgram clo = Native ->
  call (S (S n)) (DebugWrapper k) (UseProgram p) w =
  Some (Normal (native_return (UseProgram p)),
        set_native_calls (native_calls w ++ [UseProgram p])
          (emit LogRestored
             (set_debugCaptureArmed false
                (set_gl Native (dbg_originalDrawElements clo)
                   (emit_list (capture_events w (dbg_lastCapturedTexture clo))
                      (emit (LogExiting (dbg_drawCountInPass clo)) w)))))).
Proof.
  intros Hk Hf Ho.
  change (call (S (S n)) (DebugWrapper k) (UseProgram p))
    with (dbg_useProgram (call (S n)) k p).
  unfold dbg_useProgram.
  eapply bind_normal; [apply get_dbg_closure_eq; exact Hk|]. cbv beta.
  rewrite Hf, Ho.
  assert (Hk' : forall w0, dbg_closures w0 = dbg_closures w ->
            get_dbg_closure k w0 = Some (Normal clo, w0)).
  { intros w0 E. apply get_dbg_closure_eq. rewrite E. exact Hk. }
  unfold capture_events.
  destruct (dbg_lastCapturedTexture clo) as [t|].
  - destruct (texture_valid w (Some t)) eqn:Hv; [destruct (popups_allowed w) eqn:Hp|].
    all: (eapply bind_normal;
      [ unfold when;
        (eapply bind_normal; [reflexivity|]); cbv beta;
        (eapply bind_normal; [reflexivity|]); cbv beta;
        change (texture_valid (emit (LogExiting (dbg_drawCountInPass clo)) w) (Some t))
          with (texture_valid w (Some t));
        change (popups_allowed (emit (LogExiting (dbg_drawCountInPass clo)) w))
          with (popups_allowed w);
        rewrite Hv, ?Hp; reflexivity
      | cbv beta ]).
    all: (eapply bind_normal;
      [ unfold when;
        destruct (includes (debug_program_name p) target_identifier); [|reflexivity];
        (eapply bind_normal; [apply Hk'; reflexivity|]);
        cbv beta; rewrite Hf; reflexivity
      | cbv beta; rewrite call_native; reflexivity ]).
  - eapply bind_normal; [reflexivity|]. cbv beta.
    eapply bind_normal.
    { unfold when.
      destruct (includes (debug_program_name p) target_identifier); [|reflexivity].
      eapply bind_normal; [apply Hk'; reflexivity|].
      cbv beta. rewrite Hf. reflexivity. }
    cbv beta. rewrite call_native. reflexivity.
Qed.

(** *** Runs of host events *)

Lemma run_cons fuel e es w w1 r :
  host_step fuel e w = Some (Normal tt, w1) ->
  run fuel es w1 = r ->
  run fuel (e :: es) w = r.
Proof. intros H1 H2. simpl. eapply bind_normal; eassumption. Qed.

Lemma run_app fuel es1 es2 w w1 r :
  run fuel es1 w = Some (Normal tt, w1) ->
  run fuel es2 w1 = r ->
  run fuel (es1 ++ es2) w = r.
Proof.
  revert w. induction es1 as [|e es1 IH]; intros w H1 H2.
  - simpl in H1. injection H1 as <-. exact H2.
  - simpl in *. unfold bind in *.
    destruct (host_step fuel e w) as [[[[] | e0] w0]|]; try discriminate H1.
    eapply IH; eassumption.
Qed.

Lemma step_glcall fuel c w v w1 :
  call fuel (slot_of c w) c w = Some (Normal v, w1) ->
  host_step fuel (GLCall c) w = Some (Normal tt, w1).
Proof.
  intros H.
  change (host_step fuel (GLCall c) w) with (ignore (gl_call (call fuel) c) w).
  unfold ignore, gl_call.
  eapply bind_normal; [exact H|reflexivity].
Qed.

(** *** A pass seen by the debug detector *)

Lemma last_nonempty {A} (l : list A) : forall x d d',
  List.last (x :: l) d = List.last (x :: l) d'.
Proof.
  induction l as [|y l IH]; intros x d d'; [reflexivity|].
  change (List.last (y :: l) d = List.last (y :: l) d'). apply IH.
Qed.

Lemma last_target_cons t0 t a ds :
  last_target t0 ((t, a) :: ds) = last_target t ds.
Proof.
  unfold last_target. destruct ds as [|[t' a'] ds]; [reflexivity|].
  change (List.last (t' :: map fst ds) t0 = List.last (t' :: map fst ds) t).
  apply last_nonempty.
Qed.

(** The closure after the draws [ds] of a pass. *)
Lemma dbg_record_fold ds : forall clo,
  let clo' := fold_left (fun c d => dbg_record (fst d) c) ds clo in
  dbg_originalUseProgram clo' = dbg_originalUseProgram clo /\
  dbg_originalDrawElements clo' = dbg_originalDrawElements clo /\
  dbg_inTargetShaderPass clo' = dbg_inTargetShaderPass clo /\
  dbg_lastCapturedTexture clo' = last_target (dbg_lastCapturedTexture clo) ds /\
  dbg_drawCountInPass clo' = dbg_drawCountInPass clo + List.length ds.
Proof.
  induction ds as [|[t a] ds IH]; intros clo.
  - cbn. unfold last_target. cbn. repeat split. lia.
  - destruct (IH (dbg_record t clo)) as (A & B & C & D & E).
    cbn [fold_left fst]. cbv zeta.
    rewrite A, B, C, D, E, last_target_cons. cbn. repeat split. lia.
Qed.

Lemma dbg_draws n k ds : forall w clo,
  debug_installed_at w k clo ->
  dbg_inTargetShaderPass clo = true ->
  exists w',
    run (S (S n)) (draw_events ds) w = Some (Normal tt, w') /\
    debug_installed_at w' k (fold_left (fun c d => dbg_record (fst d) c) ds clo) /\
    trace w' = trace w /\
    textures w' = textures w /\
    popups_allowed w' = popups_allowed w.
Proof.
  induction ds as [|[t a] ds IH]; intros w clo (Hu & Hd & Hk & Ho1 & Ho2) Hf.
  - exists w. repeat split; assumption.
  - pose (w1 := set_renderTexture_current t w).
    pose (w2 := set_dbg_closures
                  (alter (dbg_record t) k (dbg_closures w))
                  (set_native_calls (native_calls w ++ [DrawElements a]) w1)).
    destruct (IH w2 (dbg_record t clo)) as (w' & Hr & Hi & Ht & Hx & Hp).
    { unfold w2, w1. repeat split; psimpl; try assumption.
      rewrite list_lookup_alter_eq, Hk. reflexivity. }
    { exact Hf. }
    exists w'. split; [|split; [exact Hi|split; [|split]]].
    + change (draw_events ((t, a) :: ds))
        with (BindRenderTexture t :: GLCall (DrawElements a) :: draw_events ds).
      eapply run_cons; [reflexivity|].
      eapply run_cons; [|exact Hr].
      eapply step_glcall. fold w1.
      change (slot_of (DrawElements a) w1) with (gl_drawElements w).
      rewrite Hd.
      rewrite (dbg_draw n k a w1 clo Hk Ho2), Hf. reflexivity.
    + rewrite Ht. reflexivity.
    + rewrite Hx. reflexivity.
    + rewrite Hp. reflexivity.
Qed.

End Detector.

Lemma emit_list_trace es : forall w,
  trace (emit_list es w) = (trace w ++ es)%list.
Proof.
  induction es as [|e es IH]; intros w.
  - cbn. rewrite app_nil_r. reflexivity.
  - change (emit_list (e :: es) w) with (emit_list es (emit e w)).
    rewrite IH. psimpl. rewrite <- app_assoc. reflexivity.
Qed.

Lemma emit_list_frame es : forall w,
  dbg_closures (emit_list es w) = dbg_closures w /\
  rt_closures (emit_list es w) = rt_closures w /\
  textures (emit_list es w) = textures w /\
  native_calls (emit_list es w) = native_calls w /\
  gl_useProgram (emit_list es w) = gl_useProgram w /\
  gl_drawElements (emit_list es w) = gl_drawElements w.
Proof.
  induction es as [|e es IH]; intros w.
  - repeat split.
  - change (emit_list (e :: es) w) with (emit_list es (emit e w)).
    destruct (IH (emit e w)) as (A & B & C & D & E & F).
    rewrite A, B, C, D, E, F. repeat split.
Qed.

Lemma capture_events_ext w w' t :
  textures w' = textures w ->
  popups_allowed w' = popups_allowed w ->
  capture_events w' t = capture_events w t.
Proof.
  intros Ht Hp. unfold capture_events, texture_valid. rewrite Ht, Hp. reflexivity.
Qed.

Lemma end_of_pass_draws_capture w t :
  end_of_pass_draws (capture_events w t) = [].
Proof.
  unfold capture_events. destruct t as [i|]; [|reflexivity].
  destruct (texture_valid w (Some i)); [|reflexivity].
  destruct (popups_allowed w); reflexivity.
Qed.

Lemma extracted_capture w t :
  extracted (capture_events w t) =
  match t with
  | Some i => if texture_valid w (Some i) then [i] else []
  | None => []
  end.
Proof.
  unfold capture_events. destruct t as [i|]; [|reflexivity].
  destruct (texture_valid w (Some i)); [|reflexivity].
  destruct (popups_allowed w); reflexivity.
Qed.

Section DebugPass.

Variable native_return : glcall -> jsval.
Variable blit_calls : list glcall.

Abbreviation run' := (run native_return blit_calls).

(** C1. The debug detector, installed and idle, sees the host bind a
    program matching the identifier, draw [N] times (on the render targets
    [ds]) and bind a program that does not match. The run completes; the
    detector logs one end-of-pass line, which reports [N] draws; the target
    it kept is the render target bound at the last of the draws ([null] when
    there was none), and that target is the one read back when it is valid. *)
Theorem debug_pass_detected n w k clo pt po ds :
  debug_installed_at w k clo ->
  dbg_inTargetShaderPass clo = false ->
  dbg_lastCapturedTexture clo = None ->
  debug_matches pt = true ->
  debug_matches po = false ->
  exists w' new clo',
    run' (S (S n)) (pass_events pt ds po) w = Some (Normal tt, w') /\
    trace w' = (trace w ++ new)%list /\
    end_of_pass_draws new = [List.length ds] /\
    dbg_closures w' !! k = Some clo' /\
    dbg_lastCapturedTexture clo' = last_target None ds /\
    extracted new =
      match last_target None ds with
      | Some t => if texture_valid w (Some t) then [t] else []
      | None => []
      end.
Proof.
  intros (Hu & Hd & Hk & Ho1 & Ho2) Hf Hl Hpt Hpo.
  pose (w1 := set_native_calls (native_calls w ++ [UseProgram pt])
                (set_dbg_closures (alter dbg_enter k (dbg_closures w))
                   (emit (LogEntering (debug_program_name pt)) w))).
  assert (H1 : host_step native_return blit_calls (S (S n)) (GLCall (UseProgram pt)) w
               = Some (Normal tt, w1)).
  { eapply step_glcall.
    change (slot_of (UseProgram pt) w) with (gl_useProgram w). rewrite Hu.
    rewrite (dbg_use_idle _ _ n k pt w clo Hk Hf Ho1), Hpt. reflexivity. }
  destruct (dbg_draws native_return blit_calls n k ds w1 (dbg_enter clo))
    as (w2 & H2 & (Hu2 & Hd2 & Hk2 & Ho12 & Ho22) & Ht2 & Hx2 & Hp2).
  { unfold w1. repeat split; psimpl; try assumption.
    rewrite list_lookup_alter_eq, Hk. reflexivity. }
  { reflexivity. }
  destruct (dbg_record_fold ds (dbg_enter clo)) as (A & B & C & D & E).
  cbv zeta in A, B, C, D, E.
  set (clo2 := fold_left (fun c d => dbg_record (fst d) c) ds (dbg_enter clo)) in *.
  cbn in C, D, E. rewrite Hl in D.
  pose (w3 := set_native_calls (native_calls w2 ++ [UseProgram po])
          (emit LogRestored
             (set_debugCaptureArmed false
                (set_gl Native (dbg_originalDrawElements clo2)
                   (emit_list (capture_events w2 (dbg_lastCapturedTexture clo2))
                      (emit (LogExiting (dbg_drawCountInPass clo2)) w2)))))).
  assert (H3 : host_step native_return blit_calls (S (S n)) (GLCall (UseProgram po)) w2
               = Some (Normal tt, w3)).
  { eapply step_glcall.
    change (slot_of (UseProgram po) w2) with (gl_useProgram w2). rewrite Hu2.
    rewrite (dbg_use_exit _ _ n k po w2 clo2 Hk2 C Ho12). reflexivity. }
  exists w3,
    ([LogEntering (debug_program_name pt); LogExiting (List.length ds)]
       ++ capture_events w (last_target None ds) ++ [LogRestored])%list,
    clo2.
  split; [|split; [|split; [|split; [|split]]]].
  - unfold pass_events.
    eapply run_cons; [exact H1|].
    eapply run_app; [exact H2|].
    eapply run_cons; [exact H3|]. reflexivity.
  - unfold w3. psimpl. rewrite emit_list_trace. psimpl.
    rewrite Ht2. unfold w1. psimpl.
    rewrite D, E.
    rewrite (capture_events_ext w w2).
    + rewrite <- !app_assoc. reflexivity.
    + rewrite Hx2. reflexivity.
    + rewrite Hp2. reflexivity.
  - unfold end_of_pass_draws.
    change (omap _ ([LogEntering (debug_program_name pt); LogExiting (List.length ds)] ++
                      capture_events w (last_target None ds) ++ [LogRestored])%list)
      with (List.length ds :: end_of_pass_draws
              (capture_events w (last_target None ds) ++ [LogRestored])%list).
    unfold end_of_pass_draws. rewrite omap_app.
    fold (end_of_pass_draws (capture_events w (last_target None ds))).
    rewrite end_of_pass_draws_capture. reflexivity.
  - unfold w3. psimpl.
    destruct (emit_list_frame (capture_events w2 (dbg_lastCapturedTexture clo2))
                (emit (LogExiting (dbg_drawCountInPass clo2)) w2)) as (F & _).
    rewrite F. psimpl. exact Hk2.
  - exact D.
  - unfold extracted.
    change (omap _ ([LogEntering (debug_program_name pt); LogExiting (List.length ds)] ++
                      capture_events w (last_target None ds) ++ [LogRestored])%list)
      with (extracted (capture_events w (last_target None ds) ++ [LogRestored])%list).
    unfold extracted. rewrite omap_app.
    fold (extracted (capture_events w (last_target None ds))).
    rewrite extracted_capture. cbn. rewrite app_nil_r. reflexivity.
Qed.

End DebugPass.

Lemma debug_pass_detected_witness :
  exists w' new clo',
    run example_return example_blit 2
      (pass_events example_target example_draws example_other)
      example_debug_world = Some (Normal tt, w') /\
    trace w' = (trace example_debug_world ++ new)%list /\
    end_of_pass_draws new = [5] /\
    dbg_closures w' !! 0 = Some clo' /\
    dbg_lastCapturedTexture clo' = Some 1 /\
    extracted new = [1].
Proof.
  apply (debug_pass_detected example_return example_blit 0 example_debug_world 0
           (fresh_dbg_closure (initial_world NoApp true))
           example_target example_other example_draws).
  - repeat split; vm_compute; reflexivity.
  - reflexivity.
  - reflexivity.
  - vm_compute. reflexivity.
  - vm_compute. reflexivity.
Defined.

(** ** The real-time wrappers, one call at a time *)

Section RealTime.

Variable native_return : glcall -> jsval.
Variable blit_calls : list glcall.

Abbreviation rcall := (call native_return blit_calls).

Lemma rt_draw n k a w clo u :
  rt_closures w !! k = Some clo ->
  originalGLFunctions w = Some (u, Native) ->
  rcall (S (S n)) (RealTimeWrapper k) (DrawElements a) w =
  Some (Normal (native_return (DrawElements a)),
        if rt_inTargetShaderPass clo
        then set_rt_closures
               (alter (rt_set_last (renderTexture_current w)) k (rt_closures w))
               (forwarded (DrawElements a) w)
        else forwarded (DrawElements a) w).
Proof.
  intros Hk Ho.
  change (rcall (S (S n)) (RealTimeWrapper k) (DrawElements a))
    with (rt_drawElements (rcall (S n)) k a).
  unfold rt_drawElements.
  eapply bind_normal; [reflexivity|]. cbv beta. rewrite Ho.
  eapply bind_normal; [apply call_native|]. cbv beta.
  eapply bind_normal; [apply get_rt_closure_eq; psimpl; exact Hk|]. cbv beta.
  destruct (rt_inTargetShaderPass clo); reflexivity.
Qed.

Lemma rt_use_idle n k p w clo d :
  rt_closures w !! k = Some clo ->
  rt_inTargetShaderPass clo = false ->
  originalGLFunctions w = Some (Native, d) ->
  rcall (S (S n)) (RealTimeWrapper k) (UseProgram p) w =
  Some (Normal (native_return (UseProgram p)),
        forwarded (UseProgram p) (rt_entry p k w)).
Proof.
  intros Hk Hf Ho.
  change (rcall (S (S n)) (RealTimeWrapper k) (UseProgram p))
    with (rt_useProgram blit_calls (rcall (S n)) k p).
  unfold rt_useProgram.
  eapply bind_normal; [apply get_rt_closure_eq; exact Hk|]. cbv beta.
  rewrite Hf.
  eapply bind_normal; [reflexivity|]. cbv beta.
  unfold rt_entry.
  destruct (realtime_matches p).
  - eapply bind_normal; [reflexivity|]. cbv beta.
    eapply bind_normal; [reflexivity|]. cbv beta.
    psimpl. rewrite Ho. rewrite call_native. reflexivity.
  - eapply bind_normal; [reflexivity|]. cbv beta.
    eapply bind_normal; [reflexivity|]. cbv beta.
    rewrite Ho. rewrite call_native. reflexivity.
Qed.

(** The calls of a quiet blit go through the idle wrappers untouched. *)
Lemma quiet_calls n k cs :
  Forall quiet_call cs ->
  forall w clo,
    rt_installed_at w k clo ->
    rt_inTargetShaderPass clo = false ->
    gl_calls (rcall (S (S n))) cs w =
    Some (Normal tt, set_native_calls (native_calls w ++ cs) w).
Proof.
  induction 1 as [|c cs Hc Hcs IH]; intros w clo (Hu & Hd & Hk & Ho) Hf.
  - cbn. unfold ret. rewrite app_nil_r.
    destruct w; reflexivity.
  - cbn [gl_calls].
    eapply bind_normal.
    + unfold gl_call. destruct c as [q|a].
      * change (slot_of (UseProgram q) w) with (gl_useProgram w). rewrite Hu.
        rewrite (rt_use_idle n k q w clo Native Hk Hf Ho).
        unfold rt_entry. cbn in Hc. rewrite Hc. reflexivity.
      * change (slot_of (DrawElements a) w) with (gl_drawElements w). rewrite Hd.
        rewrite (rt_draw n k a w clo Native Hk Ho), Hf. reflexivity.
    + cbv beta. rewrite (IH (forwarded c w) clo).
      * unfold forwarded. psimpl. rewrite <- app_assoc. reflexivity.
      * repeat split; assumption.
      * exact Hf.
Qed.

End RealTime.

Section RealTimeExit.

Variable native_return : glcall -> jsval.
Variable blit_calls : list glcall.

Abbreviation xcall := (call native_return blit_calls).

Lemma blit_quiet n k src dst w clo :
  Forall quiet_call blit_calls ->
  rt_installed_at w k clo ->
  rt_inTargetShaderPass clo = false ->
  blit blit_calls (xcall (S (S n))) src dst w =
  Some (Normal tt,
        emit (Blit src dst)
          (set_textures (alter (write_texture src) dst (textures w))
             (set_native_calls (native_calls w ++ blit_calls)
                (set_renderTexture_current (Some dst) w)))).
Proof.
  intros Hq Hi Hf. unfold blit.
  eapply bind_normal; [reflexivity|]. cbv beta.
  eapply bind_normal.
  { apply (quiet_calls native_return blit_calls n k blit_calls Hq _ clo); [|exact Hf].
    destruct Hi as (Hu & Hd & Hk & Ho). repeat split; assumption. }
  cbv beta. reflexivity.
Qed.

Lemma rt_tail n k p w d :
  originalGLFunctions w = Some (Native, d) ->
  (when (realtime_matches p) (update_rt_closure k (rt_set_flag true)) >>;
   let! w0 := get in
   match originalGLFunctions w0 with
   | Some (useProgram, _) => xcall (S n) useProgram (UseProgram p)
   | None => throw TypeError
   end) w =
  Some (Normal (native_return (UseProgram p)),
        forwarded (UseProgram p) (rt_entry p k w)).
Proof.
  intros Ho. unfold rt_entry.
  destruct (realtime_matches p).
  - eapply bind_normal; [reflexivity|]. cbv beta.
    eapply bind_normal; [reflexivity|]. cbv beta.
    psimpl. rewrite Ho. rewrite call_native. reflexivity.
  - eapply bind_normal; [reflexivity|]. cbv beta.
    eapply bind_normal; [reflexivity|]. cbv beta.
    rewrite Ho. rewrite call_native. reflexivity.
Qed.

Lemma rt_exit_block n k w clo :
  Forall quiet_call blit_calls ->
  rt_installed_at w k clo ->
  (update_rt_closure k (rt_set_flag false) >>;
   let! w0 := get in
   match rt_lastCapturedTexture clo, persistentTexture w0 with
   | Some src, Some dst =>
       when (texture_valid w0 (Some src)) (
         blit blit_calls (xcall (S (S n))) src dst >>;
         let! w' := get in
         when (negb (isApiReady w')) (
           modify (set_isApiReady true) >>;
           log LogFirstCapture))
   | _, _ => ret tt
   end) w =
  Some (Normal tt, rt_after_exit blit_calls k clo w).
Proof.
  intros Hq (Hu & Hd & Hk & Ho).
  set (w1 := set_rt_closures (alter (rt_set_flag false) k (rt_closures w)) w).
  assert (Hi1 : rt_installed_at w1 k (rt_set_flag false clo)).
  { unfold w1. repeat split; psimpl; try assumption.
    rewrite list_lookup_alter_eq, Hk. reflexivity. }
  eapply bind_normal; [reflexivity|]. cbv beta.
  eapply bind_normal; [reflexivity|]. cbv beta.
  fold w1.
  change (persistentTexture w1) with (persistentTexture w).
  change (texture_valid w1) with (texture_valid w).
  unfold rt_after_exit, rt_copies. fold w1.
  destruct (rt_lastCapturedTexture clo) as [src|]; [|reflexivity].
  destruct (persistentTexture w) as [dst|]; [|reflexivity].
  destruct (texture_valid w (Some src)); [|reflexivity].
  unfold when.
  eapply bind_normal; [apply (blit_quiet n k src dst w1 _ Hq Hi1); reflexivity|].
  cbv beta.
  eapply bind_normal; [reflexivity|]. cbv beta.
  unfold rt_copy.
  change (isApiReady w1) with (isApiReady w).
  change (isApiReady (emit _ _)) with (isApiReady w).
  destruct (isApiReady w); reflexivity.
Qed.

Lemma rt_use_exit n k p w clo :
  Forall quiet_call blit_calls ->
  rt_installed_at w k clo ->
  rt_inTargetShaderPass clo = true ->
  xcall (S (S (S n))) (RealTimeWrapper k) (UseProgram p) w =
  Some (Normal (native_return (UseProgram p)),
        forwarded (UseProgram p)
          (rt_entry p k (rt_after_exit blit_calls k clo w))).
Proof.
  intros Hq Hi Hf.
  change (xcall (S (S (S n))) (RealTimeWrapper k) (UseProgram p))
    with (rt_useProgram blit_calls (xcall (S (S n))) k p).
  unfold rt_useProgram.
  eapply bind_normal; [apply get_rt_closure_eq; apply Hi|]. cbv beta.
  rewrite Hf.
  eapply bind_normal; [apply (rt_exit_block n k w clo Hq Hi)|]. cbv beta.
  apply (rt_tail (S n) k p _ Native).
  destruct Hi as (Hu & Hd & Hk & Ho).
  unfold rt_after_exit, rt_copy.
  destruct (rt_copies w clo) as [[src dst]|]; [destruct (isApiReady _)|]; exact Ho.
Qed.

End RealTimeExit.

(** *** What the exit branch leaves behind *)

Lemma rt_after_exit_fields cs k clo w :
  let w' := rt_after_exit cs k clo w in
  gl_useProgram w' = gl_useProgram w /\
  gl_drawElements w' = gl_drawElements w /\
  rt_closures w' = alter (rt_set_flag false) k (rt_closures w) /\
  originalGLFunctions w' = originalGLFunctions w /\
  persistentTexture w' = persistentTexture w /\
  native_calls w' =
    (native_calls w ++ match rt_copies w clo with Some _ => cs | None => [] end)%list /\
  trace w' =
    (trace w ++ match rt_copies w clo with
                | Some (src, dst) =>
                    Blit src dst :: (if isApiReady w then [] else [LogFirstCapture])
                | None => []
                end)%list /\
  isApiReady w' =
    (isApiReady w || match rt_copies w clo with Some _ => true | None => false end).
Proof.
  unfold rt_after_exit, rt_copy. cbv zeta.
  destruct (rt_copies w clo) as [[src dst]|].
  - change (isApiReady (set_rt_closures (alter (rt_set_flag false) k (rt_closures w)) w))
      with (isApiReady w).
    destruct (isApiReady w) eqn:Hr.
    + repeat split. psimpl. exact Hr.
    + repeat split. psimpl. rewrite <- app_assoc. reflexivity.
  - rewrite !app_nil_r, orb_false_r. repeat split.
Qed.

Lemma rt_entry_fields p k w :
  let w' := rt_entry p k w in
  gl_useProgram w' = gl_useProgram w /\
  gl_drawElements w' = gl_drawElements w /\
  rt_closures w' =
    (if realtime_matches p then alter (rt_set_flag true) k (rt_closures w)
     else rt_closures w) /\
  originalGLFunctions w' = originalGLFunctions w /\
  persistentTexture w' = persistentTexture w /\
  native_calls w' = native_calls w /\
  trace w' = trace w /\
  isApiReady w' = isApiReady w.
Proof.
  unfold rt_entry. destruct (realtime_matches p); repeat split.
Qed.

Lemma resolution_fails_no_match p :
  resolution_fails p = true ->
  realtime_matches p = false /\ debug_matches p = false.
Proof.
  unfold resolution_fails, realtime_matches, realtime_entry_test,
    debug_matches, debug_program_name, debug_name_test.
  destruct (second_shader_source p) as [[s|]|e]; intros H;
    try discriminate H; split; reflexivity.
Qed.

Section Unresolvable.

Variable native_return : glcall -> jsval.
Variable blit_calls : list glcall.

Abbreviation ucall := (call native_return blit_calls).

(** C7. A program whose shader identifier cannot be resolved counts as no
    match for both detectors. The real-time wrapper returns what the native
    entry point returned for the same argument, the call being the last one
    forwarded; the wrapper stays installed and is idle afterwards. The debug
    wrapper forwards in the same way, and when it was idle nothing else
    changes. Neither throws. *)
Theorem unresolvable_program_is_no_match n p :
  resolution_fails p = true ->
  Forall quiet_call blit_calls ->
  realtime_matches p = false /\
  debug_matches p = false /\
  (forall w k clo,
     rt_installed_at w k clo ->
     exists w' internal,
       ucall (S (S (S n))) (RealTimeWrapper k) (UseProgram p) w =
         Some (Normal (native_return (UseProgram p)), w') /\
       native_calls w' = (native_calls w ++ internal ++ [UseProgram p])%list /\
       rt_installed_at w' k (rt_set_flag false clo)) /\
  (forall w k clo,
     debug_installed_at w k clo ->
     exists w',
       ucall (S (S n)) (DebugWrapper k) (UseProgram p) w =
         Some (Normal (native_return (UseProgram p)), w') /\
       native_calls w' = (native_calls w ++ [UseProgram p])%list /\
       (dbg_inTargetShaderPass clo = false -> w' = forwarded (UseProgram p) w)).
Proof.
  intros Hp Hq.
  destruct (resolution_fails_no_match p Hp) as [Hr Hd].
  split; [exact Hr|]. split; [exact Hd|]. split.
  - intros w k clo Hi.
    destruct (rt_inTargetShaderPass clo) eqn:Hf.
    + exists (forwarded (UseProgram p)
                (rt_entry p k (rt_after_exit blit_calls k clo w))),
             (match rt_copies w clo with Some _ => blit_calls | None => [] end).
      split; [apply rt_use_exit; assumption|].
      destruct (rt_after_exit_fields blit_calls k clo w)
        as (A1 & A2 & A3 & A4 & A5 & A6 & _).
      destruct (rt_entry_fields p k (rt_after_exit blit_calls k clo w))
        as (B1 & B2 & B3 & B4 & B5 & B6 & _).
      cbv zeta in *. rewrite Hr in B3.
      destruct Hi as (Hu & Hd' & Hk & Ho).
      split.
      * unfold forwarded. psimpl. rewrite B6, A6, <- app_assoc. reflexivity.
      * unfold forwarded. repeat split; psimpl.
        -- rewrite B1, A1. exact Hu.
        -- rewrite B2, A2. exact Hd'.
        -- rewrite B3, A3, list_lookup_alter_eq, Hk. reflexivity.
        -- rewrite B4, A4. exact Ho.
    + exists (forwarded (UseProgram p) (rt_entry p k w)), [].
      destruct Hi as (Hu & Hd' & Hk & Ho).
      split; [apply (rt_use_idle native_return blit_calls (S n) k p w clo Native Hk Hf Ho)|].
      unfold rt_entry. rewrite Hr.
      split; [reflexivity|].
      unfold forwarded. repeat split; psimpl; try assumption.
      rewrite Hk. destruct clo as [f l]. cbn in Hf. rewrite Hf. reflexivity.
  - intros w k clo (Hu & Hd' & Hk & Ho1 & Ho2).
    destruct (dbg_inTargetShaderPass clo) eqn:Hf.
    + eexists. split; [apply (dbg_use_exit native_return blit_calls n k p w clo Hk Hf Ho1)|].
      split; [|intros H; discriminate H].
      reflexivity.
    + exists (forwarded (UseProgram p) w).
      split; [|split; [reflexivity|reflexivity]].
      rewrite (dbg_use_idle native_return blit_calls n k p w clo Hk Hf Ho1), Hd.
      reflexivity.
Qed.

End Unresolvable.

Lemma unresolvable_program_is_no_match_witness :
  realtime_matches example_opaque = false /\
  debug_matches example_opaque = false /\
  (exists w' internal,
     call example_return example_blit 3 (RealTimeWrapper 0)
       (UseProgram example_opaque) example_rt_world =
       Some (Normal JSUndefined, w') /\
     native_calls w' =
       (native_calls example_rt_world ++ internal ++ [UseProgram example_opaque])%list /\
     rt_installed_at w' 0 (rt_set_flag false example_rt_closure)) /\
  (exists w',
     call example_return example_blit 2 (DebugWrapper 0)
       (UseProgram example_opaque) example_debug_world =
       Some (Normal JSUndefined, w') /\
     native_calls w' =
       (native_calls example_debug_world ++ [UseProgram example_opaque])%list /\
     w' = forwarded (UseProgram example_opaque) example_debug_world).
Proof.
  destruct (unresolvable_program_is_no_match example_return example_blit 0 example_opaque)
    as (H1 & H2 & H3 & H4); [reflexivity|repeat constructor|].
  split; [exact H1|]. split; [exact H2|]. split.
  - apply (H3 example_rt_world 0 example_rt_closure).
    repeat split; vm_compute; reflexivity.
  - destruct (H4 example_debug_world 0 (fresh_dbg_closure (initial_world NoApp true)))
      as (w' & E & N & F).
    + repeat split; vm_compute; reflexivity.
    + exists w'. split; [exact E|]. split; [exact N|]. apply F. reflexivity.
Defined.

(** ** Re-entrancy of the blit *)

Lemma blits_app l1 l2 : blits (l1 ++ l2) = (blits l1 ++ blits l2)%list.
Proof. unfold blits. apply omap_app. Qed.

(** C10, as stated, fails when the blit itself binds a program that carries
    the target's name: the wrapper, idle during the blit, enters a pass on
    that bind and records the blit's draw. After the call the detector is in
    a pass although the program bound by the caller does not match, and the
    target it keeps is the persistent buffer itself. *)
Lemma loud_blit_counterexample :
  exists w',
    call example_return example_loud_blit 3 (RealTimeWrapper 0)
      (UseProgram example_other) example_rt_world =
      Some (Normal JSUndefined, w') /\
    realtime_matches example_other = false /\
    rt_closures example_rt_world !! 0 =
      Some {| rt_inTargetShaderPass := true; rt_lastCapturedTexture := Some 0 |} /\
    persistentTexture w' = Some 1 /\
    blits (trace w') = [(0, 1)] /\
    rt_closures w' !! 0 =
      Some {| rt_inTargetShaderPass := true; rt_lastCapturedTexture := Some 1 |}.
Proof.
  eexists.
  split; [vm_compute; reflexivity|].
  split; [vm_compute; reflexivity|].
  repeat split.
Qed.

Section Reentry.

Variable native_return : glcall -> jsval.
Variable blit_calls : list glcall.

(** C10, amended. The real-time wrapper leaves the pass before it blits.
    With a blit that does not bind a program matching the target identifier
    itself, a bind-program call at the
    end of a pass returns what the native entry point returned; the calls of
    the blit and then the caller's call reach the native entry points; the
    trace gains at most one copy (exactly the one the exit decided on); and
    the draws of the blit are not recorded: the kept target is the one of
    the pass, and the detector is in the pass afterwards exactly when the
    bound program matches. *)
Theorem blit_reentry_is_inert n k p w clo :
  Forall quiet_call blit_calls ->
  rt_installed_at w k clo ->
  rt_inTargetShaderPass clo = true ->
  exists w' new,
    call native_return blit_calls (S (S (S n))) (RealTimeWrapper k) (UseProgram p) w =
      Some (Normal (native_return (UseProgram p)), w') /\
    trace w' = (trace w ++ new)%list /\
    blits new = option_list (rt_copies w clo) /\
    native_calls w' =
      (native_calls w
         ++ match rt_copies w clo with Some _ => blit_calls | None => [] end
         ++ [UseProgram p])%list /\
    rt_installed_at w' k
      {| rt_inTargetShaderPass := realtime_matches p;
         rt_lastCapturedTexture := rt_lastCapturedTexture clo |}.
Proof.
  intros Hq Hi Hf.
  destruct (rt_after_exit_fields blit_calls k clo w)
    as (A1 & A2 & A3 & A4 & A5 & A6 & A7 & A8).
  destruct (rt_entry_fields p k (rt_after_exit blit_calls k clo w))
    as (B1 & B2 & B3 & B4 & B5 & B6 & B7 & B8).
  cbv zeta in *.
  exists (forwarded (UseProgram p)
            (rt_entry p k (rt_after_exit blit_calls k clo w))),
         (match rt_copies w clo with
          | Some (src, dst) =>
              Blit src dst :: (if isApiReady w then [] else [LogFirstCapture])
          | None => []
          end).
  split; [apply rt_use_exit; assumption|].
  destruct Hi as (Hu & Hd & Hk & Ho).
  unfold forwarded. psimpl.
  split; [rewrite B7, A7; reflexivity|].
  split.
  { destruct (rt_copies w clo) as [[src dst]|]; [|reflexivity].
    destruct (isApiReady w); reflexivity. }
  split; [rewrite B6, A6, <- app_assoc; reflexivity|].
  repeat split; psimpl.
  - rewrite B1, A1. exact Hu.
  - rewrite B2, A2. exact Hd.
  - rewrite B3, A3.
    destruct (realtime_matches p).
    + rewrite list_lookup_alter_eq, list_lookup_alter_eq, Hk. reflexivity.
    + rewrite list_lookup_alter_eq, Hk. reflexivity.
  - rewrite B4, A4. exact Ho.
Qed.

End Reentry.

Lemma blit_reentry_is_inert_witness :
  exists w' new,
    call example_return example_blit 3 (RealTimeWrapper 0)
      (UseProgram example_other) example_rt_world =
      Some (Normal JSUndefined, w') /\
    trace w' = (trace example_rt_world ++ new)%list /\
    blits new = [(0, 1)] /\
    native_calls w' =
      (native_calls example_rt_world ++ example_blit ++ [UseProgram example_other])%list /\
    rt_installed_at w' 0
      {| rt_inTargetShaderPass := false; rt_lastCapturedTexture := Some 0 |}.
Proof.
  apply (blit_reentry_is_inert example_return example_blit 0 0 example_other
           example_rt_world example_rt_closure).
  - repeat constructor.
  - repeat split; vm_compute; reflexivity.
  - reflexivity.
Defined.

(** ** Back-to-back passes *)

(** C2, as stated, fails for the debug detector: bound again right after two
    draws of a pass, the target program ends the capture; the wrappers are
    gone, no new pass is started and the draw count is still 2, not 0. *)
Lemma debug_rebind_counterexample :
  exists w' clo',
    call example_return example_blit 2 (DebugWrapper 0)
      (UseProgram example_target) example_debug_inpass_world =
      Some (Normal JSUndefined, w') /\
    dbg_closures w' !! 0 = Some clo' /\
    dbg_drawCountInPass clo' = 2 /\
    dbg_drawCountInPass clo' <> 0 /\
    gl_useProgram w' = Native /\
    gl_drawElements w' = Native /\
    end_of_pass_draws (trace w') = [2].
Proof.
  eexists. exists example_debug_inpass_closure.
  split; [vm_compute; reflexivity|].
  repeat split; try (vm_compute; reflexivity).
  vm_compute. discriminate.
Qed.

Section BackToBack.

Variable native_return : glcall -> jsval.
Variable blit_calls : list glcall.

(** C2, amended. In the real-time wrapper a bind-program call during a pass
    first leaves the pass and makes the end-of-pass copy, and only then looks
    at the new program: when that program is the target again, the old pass
    is closed (its copy made) and the detector is in a new pass when the call
    returns. The debug wrapper is one-shot: a bind-program call during the
    pass reports the pass with its draw count once, puts the saved entry
    points back and clears the guard; its closure is left as it was, so no
    second pass is counted. It resets the count to 0 when it enters a pass
    from idle. *)
Theorem rebinding_the_target n k p :
  Forall quiet_call blit_calls ->
  (forall w clo,
     rt_installed_at w k clo ->
     rt_inTargetShaderPass clo = true ->
     realtime_matches p = true ->
     exists w' new,
       call native_return blit_calls (S (S (S n))) (RealTimeWrapper k) (UseProgram p) w =
         Some (Normal (native_return (UseProgram p)), w') /\
       trace w' = (trace w ++ new)%list /\
       blits new = option_list (rt_copies w clo) /\
       rt_installed_at w' k
         {| rt_inTargetShaderPass := true;
            rt_lastCapturedTexture := rt_lastCapturedTexture clo |}) /\
  (forall w clo,
     debug_installed_at w k clo ->
     dbg_inTargetShaderPass clo = true ->
     exists w' new,
       call native_return blit_calls (S (S n)) (DebugWrapper k) (UseProgram p) w =
         Some (Normal (native_return (UseProgram p)), w') /\
       trace w' = (trace w ++ new)%list /\
       end_of_pass_draws new = [dbg_drawCountInPass clo] /\
       gl_useProgram w' = Native /\
       gl_drawElements w' = Native /\
       debugCaptureArmed w' = false /\
       dbg_closures w' = dbg_closures w) /\
  (forall w clo,
     debug_installed_at w k clo ->
     dbg_inTargetShaderPass clo = false ->
     debug_matches p = true ->
     exists w',
       call native_return blit_calls (S (S n)) (DebugWrapper k) (UseProgram p) w =
         Some (Normal (native_return (UseProgram p)), w') /\
       dbg_closures w' !! k = Some (dbg_enter clo) /\
       dbg_drawCountInPass (dbg_enter clo) = 0).
Proof.
  intros Hq. split; [|split].
  - intros w clo Hi Hf Hm.
    destruct (rt_after_exit_fields blit_calls k clo w)
      as (A1 & A2 & A3 & A4 & _ & _ & A7 & _).
    destruct (rt_entry_fields p k (rt_after_exit blit_calls k clo w))
      as (B1 & B2 & B3 & B4 & _ & _ & B7 & _).
    cbv zeta in *. rewrite Hm in B3.
    exists (forwarded (UseProgram p)
              (rt_entry p k (rt_after_exit blit_calls k clo w))),
           (match rt_copies w clo with
            | Some (src, dst) =>
                Blit src dst :: (if isApiReady w then [] else [LogFirstCapture])
            | None => []
            end).
    split; [apply rt_use_exit; assumption|].
    destruct Hi as (Hu & Hd & Hk & Ho).
    unfold forwarded. psimpl.
    split; [rewrite B7, A7; reflexivity|].
    split.
    { destruct (rt_copies w clo) as [[src dst]|]; [|reflexivity].
      destruct (isApiReady w); reflexivity. }
    repeat split; psimpl.
    + rewrite B1, A1. exact Hu.
    + rewrite B2, A2. exact Hd.
    + rewrite B3, A3, !list_lookup_alter_eq, Hk. reflexivity.
    + rewrite B4, A4. exact Ho.
  - intros w clo (Hu & Hd & Hk & Ho1 & Ho2) Hf.
    eexists.
    exists ([LogExiting (dbg_drawCountInPass clo)]
              ++ capture_events w (dbg_lastCapturedTexture clo) ++ [LogRestored])%list.
    split; [apply (dbg_use_exit native_return blit_calls n k p w clo Hk Hf Ho1)|].
    destruct (emit_list_frame (capture_events w (dbg_lastCapturedTexture clo))
                (emit (LogExiting (dbg_drawCountInPass clo)) w)) as (F1 & _).
    psimpl. rewrite emit_list_trace, F1, Ho2. psimpl.
    split; [rewrite <- !app_assoc; reflexivity|].
    split; [|repeat split].
    unfold end_of_pass_draws.
    change (omap _ ([LogExiting (dbg_drawCountInPass clo)] ++
              capture_events w (dbg_lastCapturedTexture clo) ++ [LogRestored])%list)
      with (dbg_drawCountInPass clo ::
              end_of_pass_draws
                (capture_events w (dbg_lastCapturedTexture clo) ++ [LogRestored])%list).
    unfold end_of_pass_draws. rewrite omap_app.
    fold (end_of_pass_draws (capture_events w (dbg_lastCapturedTexture clo))).
    rewrite end_of_pass_draws_capture. reflexivity.
  - intros w clo (Hu & Hd & Hk & Ho1 & Ho2) Hf Hm.
    eexists.
    split; [rewrite (dbg_use_idle native_return blit_calls n k p w clo Hk Hf Ho1), Hm;
            reflexivity|].
    psimpl. rewrite list_lookup_alter_eq, Hk. split; reflexivity.
Qed.

End BackToBack.

Lemma rebinding_the_target_witness :
  (exists w' new,
     call example_return example_blit 3 (RealTimeWrapper 0)
       (UseProgram example_target) example_rt_world =
       Some (Normal JSUndefined, w') /\
     trace w' = (trace example_rt_world ++ new)%list /\
     blits new = [(0, 1)] /\
     rt_installed_at w' 0 example_rt_closure) /\
  (exists w' new,
     call example_return example_blit 2 (DebugWrapper 0)
       (UseProgram example_target) example_debug_inpass_world =
       Some (Normal JSUndefined, w') /\
     trace w' = (trace example_debug_inpass_world ++ new)%list /\
     end_of_pass_draws new = [2] /\
     gl_useProgram w' = Native /\
     gl_drawElements w' = Native /\
     debugCaptureArmed w' = false /\
     dbg_closures w' = dbg_closures example_debug_inpass_world) /\
  (exists w',
     call example_return example_blit 2 (DebugWrapper 0)
       (UseProgram example_target) example_debug_world =
       Some (Normal JSUndefined, w') /\
     dbg_closures w' !! 0 =
       Some (dbg_enter (fresh_dbg_closure (initial_world NoApp true))) /\
     dbg_drawCountInPass (dbg_enter (fresh_dbg_closure (initial_world NoApp true))) = 0).
Proof.
  destruct (rebinding_the_target example_return example_blit 0 0 example_target)
    as (H1 & H2 & H3); [repeat constructor|].
  split; [|split].
  - apply (H1 example_rt_world example_rt_closure).
    + repeat split; vm_compute; reflexivity.
    + reflexivity.
    + vm_compute. reflexivity.
  - apply (H2 example_debug_inpass_world example_debug_inpass_closure).
    + repeat split; vm_compute; reflexivity.
    + reflexivity.
  - apply (H3 example_debug_world (fresh_dbg_closure (initial_world NoApp true))).
    + repeat split; vm_compute; reflexivity.
    + reflexivity.
    + vm_compute. reflexivity.
Defined.

(** ** Resizing *)

Lemma RenderTexture_create_ok width height resolution w :
  framebuffer_ok (settings_RESOLUTION w) width height resolution = true ->
  RenderTexture_create width height resolution w =
  Some (Normal (List.length (textures w)),
        set_textures
          (textures w ++
             [let r := effective_resolution (settings_RESOLUTION w) resolution in
              new_texture (real_size width r) (real_size height r) r]) w).
Proof.
  intros Hok. unfold RenderTexture_create, create_texture. rewrite Hok. reflexivity.
Qed.

Lemma RenderTexture_create_zero width height resolution w :
  framebuffer_ok (settings_RESOLUTION w) width height resolution = false ->
  RenderTexture_create width height resolution w = Some (Throw FramebufferError, w).
Proof.
  intros Hok. unfold RenderTexture_create, create_texture. rewrite Hok. reflexivity.
Qed.

Lemma resize_begun_fields w :
  let w' := resize_begun w in
  gl_useProgram w' = gl_useProgram w /\
  gl_drawElements w' = gl_drawElements w /\
  rt_closures w' = rt_closures w /\
  originalGLFunctions w' = originalGLFunctions w /\
  isApiReady w' = isApiReady w /\
  host w' = host w /\
  persistentTexture w' = persistentTexture w /\
  settings_RESOLUTION w' = settings_RESOLUTION w /\
  List.length (textures w') = List.length (textures w) /\
  resize_listeners w' = resize_listeners w /\
  isInterceptorArmed w' = isInterceptorArmed w.
Proof.
  unfold resize_begun. cbv zeta.
  destruct (persistentTexture w) as [t|] eqn:Hp; psimpl; rewrite ?length_alter, ?Hp;
    repeat split.
Qed.

Lemma resize_begun_destroys w t x :
  persistentTexture w = Some t ->
  textures w !! t = Some x ->
  textures (resize_begun w) !! t = Some (destroy_texture x).
Proof.
  intros Hp Hx. unfold resize_begun. cbv zeta. rewrite Hp. psimpl.
  rewrite list_lookup_alter_eq, Hx. reflexivity.
Qed.

(** [onCanvasResize] up to the point where it asks for the new texture. *)
Lemma onCanvasResize_begins width height w :
  onCanvasResize width height w =
  (let! resolution := renderer_resolution in
   let! t := RenderTexture_create width height (Some resolution) in
   modify (set_persistentTexture (Some t))) (resize_begun w).
Proof.
  unfold onCanvasResize, resize_begun. cbv zeta.
  eapply bind_normal; [reflexivity|]. cbv beta.
  eapply bind_normal; [reflexivity|]. cbv beta.
  change (persistentTexture (emit LogCanvasResized w)) with (persistentTexture w).
  destruct (persistentTexture w) as [t|].
  - eapply bind_normal; [|reflexivity].
    unfold destroy_on_heap. eapply bind_normal; reflexivity.
  - eapply bind_normal; reflexivity.
Qed.

Lemma renderer_resolution_eq r w :
  host_resolution (host w) = Some r ->
  renderer_resolution w = Some (Normal r, w).
Proof.
  intros Hr. unfold renderer_resolution.
  eapply bind_normal; [reflexivity|]. cbv beta.
  destruct (host w); try discriminate Hr; injection Hr as ->; reflexivity.
Qed.

Lemma onCanvasResize_returns width height r w :
  host_resolution (host w) = Some r ->
  framebuffer_ok (settings_RESOLUTION w) width height (Some r) = true ->
  onCanvasResize width height w = Some (Normal tt, resized width height r w).
Proof.
  intros Hr Hok. rewrite onCanvasResize_begins.
  destruct (resize_begun_fields w) as (_ & _ & _ & _ & _ & B6 & _ & B8 & _).
  cbv zeta in *.
  eapply bind_normal; [apply (renderer_resolution_eq r); rewrite B6; exact Hr|].
  cbv beta.
  eapply bind_normal;
    [apply RenderTexture_create_ok; rewrite B8; exact Hok|].
  cbv beta. unfold resized, resize_texture. cbv zeta. rewrite B8. reflexivity.
Qed.

(** With a side of zero device pixels the texture cannot be made: the
    function throws where it asks for it. *)
Lemma onCanvasResize_zero width height r w :
  host_resolution (host w) = Some r ->
  framebuffer_ok (settings_RESOLUTION w) width height (Some r) = false ->
  onCanvasResize width height w = Some (Throw FramebufferError, resize_begun w).
Proof.
  intros Hr Hok. rewrite onCanvasResize_begins.
  destruct (resize_begun_fields w) as (_ & _ & _ & _ & _ & B6 & _ & B8 & _).
  cbv zeta in *.
  eapply bind_normal; [apply (renderer_resolution_eq r); rewrite B6; exact Hr|].
  cbv beta.
  eapply bind_throw. apply RenderTexture_create_zero. rewrite B8. exact Hok.
Qed.

Lemma resized_fields width height r w :
  let w' := resized width height r w in
  gl_useProgram w' = gl_useProgram w /\
  gl_drawElements w' = gl_drawElements w /\
  rt_closures w' = rt_closures w /\
  originalGLFunctions w' = originalGLFunctions w /\
  isApiReady w' = isApiReady w /\
  host w' = host w /\
  persistentTexture w' = Some (List.length (textures w)) /\
  textures w' !! List.length (textures w) = Some (resize_texture width height r w).
Proof.
  destruct (resize_begun_fields w) as (B1 & B2 & B3 & B4 & B5 & B6 & _ & _ & B9 & _).
  unfold resized. cbv zeta in *. psimpl. rewrite B9.
  repeat split; try assumption.
  rewrite <- B9. apply list_lookup_middle. reflexivity.
Qed.

Lemma resized_more width height r w :
  let w' := resized width height r w in
  settings_RESOLUTION w' = settings_RESOLUTION w /\
  resize_listeners w' = resize_listeners w /\
  isInterceptorArmed w' = isInterceptorArmed w /\
  (forall t x, persistentTexture w = Some t -> textures w !! t = Some x ->
     textures w' !! t = Some (destroy_texture x)).
Proof.
  destruct (resize_begun_fields w) as (_ & _ & _ & _ & _ & _ & _ & B8 & B9 & B10 & B11).
  unfold resized. cbv zeta in *. psimpl.
  repeat split; try assumption.
  intros t x Hp Hx.
  rewrite lookup_app_l.
  - apply resize_begun_destroys; assumption.
  - rewrite B9. apply lookup_lt_Some with x. exact Hx.
Qed.

Lemma rt_after_exit_textures cs k clo w :
  textures (rt_after_exit cs k clo w) =
  match rt_copies w clo with
  | Some (src, dst) => alter (write_texture src) dst (textures w)
  | None => textures w
  end.
Proof.
  unfold rt_after_exit, rt_copy. cbv zeta.
  destruct (rt_copies w clo) as [[src dst]|]; [|reflexivity].
  destruct (isApiReady _); reflexivity.
Qed.

(** C4, as stated, fails: the canvas is resized while the detector is in the
    pass and holds a target; at the end of that pass the copy is made, into
    the new 1920x1080 buffer. *)
Lemma resize_copy_counterexample :
  exists w' t,
    run example_return example_blit 3 resize_scenario
      (initial_world (HasGL 1%Qc) true) = Some (Normal tt, w') /\
    blits (trace w') = [(0, 2)] /\
    blits (trace w') <> [] /\
    persistentTexture w' = Some 2 /\
    textures w' !! 2 = Some t /\
    this (tex_width t) = inject_Z 1920 /\
    this (tex_height t) = inject_Z 1080 /\
    tex_destroyed t = false /\
    tex_content t = Some 0.
Proof.
  eexists. eexists.
  split; [vm_compute; reflexivity|].
  split; [vm_compute; reflexivity|].
  split; [vm_compute; discriminate|].
  split; [vm_compute; reflexivity|].
  split; [vm_compute; reflexivity|].
  repeat split.
Qed.

Section Resize.

Variable native_return : glcall -> jsval.
Variable blit_calls : list glcall.

(** C4, amended. The canvas is resized, to a size that is not zero in device
    pixels, while the detector is in a pass and holds the target [src].
    [onCanvasResize] returns: it has destroyed the old buffer and left a
    fresh buffer of the new size (rounded to device pixels) as the persistent
    texture. The bind-program call that ends the pass returns without
    throwing; it copies exactly when [src] is still valid then, and the copy
    goes into the new buffer, which is not destroyed; the old buffer stays
    destroyed and is not written. The resize by itself does not make the
    wrapper skip the copy. *)
Theorem resize_during_pass n k p w clo src r width height :
  Forall quiet_call blit_calls ->
  rt_installed_at w k clo ->
  rt_inTargetShaderPass clo = true ->
  rt_lastCapturedTexture clo = Some src ->
  host_resolution (host w) = Some r ->
  framebuffer_ok (settings_RESOLUTION w) width height (Some r) = true ->
  exists w1 w' new t,
    onCanvasResize width height w = Some (Normal tt, w1) /\
    call native_return blit_calls (S (S (S n))) (RealTimeWrapper k) (UseProgram p) w1 =
      Some (Normal (native_return (UseProgram p)), w') /\
    persistentTexture w' = Some (List.length (textures w)) /\
    trace w' = (trace w1 ++ new)%list /\
    blits new =
      (if texture_valid w1 (Some src) then [(src, List.length (textures w))] else []) /\
    textures w' !! List.length (textures w) = Some t /\
    tex_width t = tex_width (resize_texture width height r w) /\
    tex_height t = tex_height (resize_texture width height r w) /\
    tex_resolution t = effective_resolution (settings_RESOLUTION w) (Some r) /\
    tex_destroyed t = false /\
    tex_content t = (if texture_valid w1 (Some src) then Some src else None) /\
    (forall old x,
       persistentTexture w = Some old ->
       textures w !! old = Some x ->
       old <> List.length (textures w) /\
       textures w1 !! old = Some (destroy_texture x) /\
       textures w' !! old = Some (destroy_texture x)).
Proof.
  intros Hq (Hu & Hd & Hk & Ho) Hf Hl Hr Hok.
  set (nb := List.length (textures w)).
  set (w1 := resized width height r w).
  destruct (resized_fields width height r w)
    as (R1 & R2 & R3 & R4 & R5 & R6 & R7 & R8).
  destruct (resized_more width height r w) as (_ & _ & _ & R9).
  cbv zeta in *. fold w1 in R1, R2, R3, R4, R5, R6, R7, R8, R9. fold nb in R7, R8.
  assert (Hi1 : rt_installed_at w1 k clo).
  { repeat split; [rewrite R1|rewrite R2|rewrite R3|rewrite R4]; assumption. }
  assert (Hc : rt_copies w1 clo =
               if texture_valid w1 (Some src) then Some (src, nb) else None).
  { unfold rt_copies. rewrite Hl, R7. reflexivity. }
  destruct (rt_after_exit_fields blit_calls k clo w1)
    as (_ & _ & _ & _ & A5 & _ & A7 & _).
  destruct (rt_entry_fields p k (rt_after_exit blit_calls k clo w1))
    as (_ & _ & _ & _ & B5 & _ & B7 & _).
  pose proof (rt_after_exit_textures blit_calls k clo w1) as AT.
  cbv zeta in *.
  set (w2 := rt_after_exit blit_calls k clo w1) in *.
  exists w1, (forwarded (UseProgram p) (rt_entry p k w2)),
    (match rt_copies w1 clo with
     | Some (s, d) => Blit s d :: (if isApiReady w1 then [] else [LogFirstCapture])
     | None => []
     end),
    (if texture_valid w1 (Some src)
     then write_texture src (resize_texture width height r w)
     else resize_texture width height r w).
  split; [apply onCanvasResize_returns; assumption|].
  split; [apply rt_use_exit; assumption|].
  assert (Tx : textures (forwarded (UseProgram p) (rt_entry p k w2)) = textures w2).
  { unfold forwarded, rt_entry. destruct (realtime_matches p); reflexivity. }
  unfold forwarded at 1 2. psimpl.
  split; [rewrite B5, A5; exact R7|].
  split; [rewrite B7, A7; reflexivity|].
  rewrite Tx, AT, Hc.
  assert (Old : forall old x,
            persistentTexture w = Some old ->
            textures w !! old = Some x ->
            old <> nb /\ textures w1 !! old = Some (destroy_texture x)).
  { intros old x Hp Hx. split; [|apply R9; assumption].
    apply lookup_lt_Some in Hx. fold nb in Hx. lia. }
  destruct (texture_valid w1 (Some src)).
  - split; [destruct (isApiReady w1); reflexivity|].
    split; [rewrite list_lookup_alter_eq, R8; reflexivity|].
    repeat split; try (apply (Old old x); assumption).
    rewrite list_lookup_alter_ne; [apply (Old old x); assumption|].
    intros E. apply (Old old x); [assumption|assumption|]. symmetry. exact E.
  - split; [reflexivity|].
    split; [exact R8|].
    repeat split; apply (Old old x); assumption.
Qed.

End Resize.

Lemma resize_during_pass_witness :
  exists w1 w' new t,
    onCanvasResize 1920 1080 example_rt_world = Some (Normal tt, w1) /\
    call example_return example_blit 3 (RealTimeWrapper 0)
      (UseProgram example_other) w1 = Some (Normal JSUndefined, w') /\
    persistentTexture w' = Some 2 /\
    trace w' = (trace w1 ++ new)%list /\
    blits new = (if texture_valid w1 (Some 0) then [(0, 2)] else []) /\
    textures w' !! 2 = Some t /\
    tex_width t = tex_width (resize_texture 1920 1080 1%Qc example_rt_world) /\
    tex_height t = tex_height (resize_texture 1920 1080 1%Qc example_rt_world) /\
    tex_resolution t =
      effective_resolution (settings_RESOLUTION example_rt_world) (Some 1%Qc) /\
    tex_destroyed t = false /\
    tex_content t = (if texture_valid w1 (Some 0) then Some 0 else None) /\
    (forall old x,
       persistentTexture example_rt_world = Some old ->
       textures example_rt_world !! old = Some x ->
       old <> 2 /\
       textures w1 !! old = Some (destroy_texture x) /\
       textures w' !! old = Some (destroy_texture x)).
Proof.
  apply (resize_during_pass example_return example_blit 0 0 example_other
           example_rt_world example_rt_closure 0 1%Qc 1920 1080).
  - repeat constructor.
  - repeat split; vm_compute; reflexivity.
  - reflexivity.
  - reflexivity.
  - reflexivity.
  - vm_compute. reflexivity.
Defined.

(** ** The tap is transparent *)

Lemma armRealTimeCapture_installs w :
  gl_available (host w) = true ->
  isInterceptorArmed w = false ->
  originalGLFunctions w = None ->
  armRealTimeCapture w = Some (Normal tt, rt_armed w).
Proof.
  destruct w as [pt rdy armed og guard up de rtc dbc tx cur rl h pop nc tr fg sr].
  simpl. intros Hh -> ->.
  destruct h as [| |r|r]; try discriminate Hh. vm_compute. reflexivity.
Qed.

Lemma armRealTimeCapture_reinstalls w o :
  gl_available (host w) = true ->
  isInterceptorArmed w = false ->
  originalGLFunctions w = Some o ->
  armRealTimeCapture w = Some (Normal tt, rt_rearmed w).
Proof.
  destruct w as [pt rdy armed og guard up de rtc dbc tx cur rl h pop nc tr fg sr].
  simpl. intros Hh -> ->. destruct o as [u d].
  destruct h as [| |r|r]; try discriminate Hh. vm_compute. reflexivity.
Qed.


Section Tap.

Variable native_return : glcall -> jsval.
Variable blit_calls : list glcall.

Abbreviation tcall := (call native_return blit_calls).





End Tap.


(** ** The ready flag over an activation *)

Lemma has_blit_app l1 l2 : has_blit (l1 ++ l2) = has_blit l1 || has_blit l2.
Proof.
  unfold has_blit. rewrite blits_app.
  destruct (blits l1); [destruct (blits l2)|]; reflexivity.
Qed.

Lemma ready_hooks_app l1 l2 : ready_hooks (l1 ++ l2) = ready_hooks l1 + ready_hooks l2.
Proof. unfold ready_hooks. rewrite omap_app, length_app. reflexivity. Qed.

Lemma resize_begun_trace w :
  trace (resize_begun w) =
  (trace w ++ LogCanvasResized ::
     match persistentTexture w with
     | Some t => [TextureDestroyed t]
     | None => []
     end)%list.
Proof.
  unfold resize_begun. cbv zeta.
  destruct (persistentTexture w) as [t|]; psimpl; [|reflexivity].
  rewrite <- app_assoc. reflexivity.
Qed.

Lemma resized_trace width height r w :
  trace (resized width height r w) =
  (trace w ++ LogCanvasResized ::
     match persistentTexture w with
     | Some t => [TextureDestroyed t]
     | None => []
     end)%list.
Proof. unfold resized. cbv zeta. psimpl. apply resize_begun_trace. Qed.

Section Lifecycle.

Variable native_return : glcall -> jsval.
Variable blit_calls : list glcall.

Abbreviation lcall := (call native_return blit_calls).
Abbreviation lstep := (host_step native_return blit_calls).
Abbreviation lrun := (run native_return blit_calls).

(** One call through the tap: the trace and the ready flag. *)
Lemma rt_call_ready n k c w clo :
  Forall quiet_call blit_calls ->
  rt_installed_at w k clo ->
  exists w' clo' new,
    lcall (S (S (S n))) (slot_of c w) c w = Some (Normal (native_return c), w') /\
    rt_installed_at w' k clo' /\
    host w' = host w /\
    persistentTexture w' = persistentTexture w /\
    trace w' = (trace w ++ new)%list /\
    isApiReady w' = isApiReady w || has_blit new /\
    ready_hooks new = 0 /\
    (has_blit new = true -> is_Some (persistentTexture w)).
Proof.
  intros Hq Hi. pose proof Hi as (Hu & Hd & Hk & Ho).
  destruct c as [p|a].
  - change (slot_of (UseProgram p) w) with (gl_useProgram w). rewrite Hu.
    destruct (rt_inTargetShaderPass clo) eqn:Hf.
    + destruct (rt_after_exit_fields blit_calls k clo w)
        as (A1 & A2 & A3 & A4 & A5 & A6 & A7 & A8).
      destruct (rt_entry_fields p k (rt_after_exit blit_calls k clo w))
        as (B1 & B2 & B3 & B4 & B5 & B6 & B7 & B8).
      cbv zeta in *.
      exists (forwarded (UseProgram p)
                (rt_entry p k (rt_after_exit blit_calls k clo w))),
        {| rt_inTargetShaderPass := realtime_matches p;
           rt_lastCapturedTexture := rt_lastCapturedTexture clo |},
        (match rt_copies w clo with
         | Some (src, dst) =>
             Blit src dst :: (if isApiReady w then [] else [LogFirstCapture])
         | None => []
         end).
      split; [apply rt_use_exit; assumption|].
      unfold forwarded. psimpl.
      split; [repeat split; psimpl|].
      * rewrite B1, A1. exact Hu.
      * rewrite B2, A2. exact Hd.
      * rewrite B3, A3.
        destruct (realtime_matches p);
          rewrite ?list_lookup_alter_eq, Hk; reflexivity.
      * rewrite B4, A4. exact Ho.
      * split.
        { unfold rt_entry, rt_after_exit, rt_copy. cbv zeta.
          destruct (realtime_matches p), (rt_copies w clo) as [[s d]|];
            try destruct (isApiReady _); reflexivity. }
        split; [rewrite B5, A5; reflexivity|].
        split; [rewrite B7, A7; reflexivity|].
        rewrite B8, A8.
        destruct (rt_copies w clo) as [[s d]|] eqn:Hc.
        -- split; [reflexivity|].
           split; [destruct (isApiReady w); reflexivity|].
           intros _. unfold rt_copies in Hc.
           destruct (rt_lastCapturedTexture clo); [|discriminate Hc].
           destruct (persistentTexture w); [|discriminate Hc].
           eexists. reflexivity.
        -- split; [reflexivity|]. split; [reflexivity|].
           intros H. discriminate H.
    + exists (forwarded (UseProgram p) (rt_entry p k w)),
        {| rt_inTargetShaderPass := realtime_matches p;
           rt_lastCapturedTexture := rt_lastCapturedTexture clo |}, [].
      split; [apply (rt_use_idle native_return blit_calls (S n) k p w clo Native Hk Hf Ho)|].
      unfold forwarded, rt_entry. rewrite app_nil_r, orb_false_r.
      destruct (realtime_matches p); psimpl;
        (split; [repeat split; psimpl; try assumption|
                 repeat split; intros H; discriminate H]).
      * rewrite list_lookup_alter_eq, Hk. reflexivity.
      * rewrite Hk. destruct clo as [f l]. cbn in Hf. rewrite Hf. reflexivity.
  - change (slot_of (DrawElements a) w) with (gl_drawElements w). rewrite Hd.
    exists (if rt_inTargetShaderPass clo
            then set_rt_closures
                   (alter (rt_set_last (renderTexture_current w)) k (rt_closures w))
                   (forwarded (DrawElements a) w)
            else forwarded (DrawElements a) w),
      (if rt_inTargetShaderPass clo then rt_set_last (renderTexture_current w) clo else clo),
      [].
    split; [apply (rt_draw native_return blit_calls (S n) k a w clo Native Hk Ho)|].
    unfold forwarded. rewrite app_nil_r, orb_false_r.
    destruct (rt_inTargetShaderPass clo); psimpl;
      (split; [repeat split; psimpl; try assumption|
               repeat split; intros H; discriminate H]).
    rewrite list_lookup_alter_eq, Hk. reflexivity.
Qed.

(** The resize listeners, run one after the other: they all return, or the
    first one throws because the texture cannot be made. *)
Lemma resize_listeners_run width height r m : forall w,
  host_resolution (host w) = Some r ->
  exists c w' new,
    repeat_M m (onCanvasResize width height) w = Some (c, w') /\
    gl_useProgram w' = gl_useProgram w /\
    gl_drawElements w' = gl_drawElements w /\
    rt_closures w' = rt_closures w /\
    originalGLFunctions w' = originalGLFunctions w /\
    host w' = host w /\
    isApiReady w' = isApiReady w /\
    trace w' = (trace w ++ new)%list /\
    has_blit new = false /\
    ready_hooks new = 0 /\
    (is_Some (persistentTexture w) -> is_Some (persistentTexture w')).
Proof.
  induction m as [|m IH]; intros w Hr.
  - exists (Normal tt), w, []. rewrite app_nil_r. repeat split. intros H; exact H.
  - destruct (framebuffer_ok (settings_RESOLUTION w) width height (Some r)) eqn:Hok.
    + destruct (resized_fields width height r w)
        as (R1 & R2 & R3 & R4 & R5 & R6 & R7 & _).
      cbv zeta in *.
      destruct (IH (resized width height r w)) as
        (c & w' & new & E & F1 & F2 & F3 & F4 & F5 & F6 & F7 & F8 & F9 & F10).
      { rewrite R6. exact Hr. }
      exists c, w',
        ((LogCanvasResized ::
            match persistentTexture w with
            | Some t => [TextureDestroyed t]
            | None => []
            end) ++ new)%list.
      split.
      { cbn [repeat_M].
        eapply bind_normal; [exact (onCanvasResize_returns width height r w Hr Hok)|].
        exact E. }
      split; [rewrite F1; exact R1|].
      split; [rewrite F2; exact R2|].
      split; [rewrite F3; exact R3|].
      split; [rewrite F4; exact R4|].
      split; [rewrite F5; exact R6|].
      split; [rewrite F6; exact R5|].
      split; [rewrite F7, resized_trace, <- app_assoc; reflexivity|].
      split; [rewrite has_blit_app, F8; destruct (persistentTexture w); reflexivity|].
      split; [rewrite ready_hooks_app, F9; destruct (persistentTexture w); reflexivity|].
      intros _. apply F10. rewrite R7. eexists. reflexivity.
    + destruct (resize_begun_fields w)
        as (B1 & B2 & B3 & B4 & B5 & B6 & B7 & _).
      cbv zeta in *.
      exists (Throw FramebufferError), (resize_begun w),
        (LogCanvasResized ::
           match persistentTexture w with
           | Some t => [TextureDestroyed t]
           | None => []
           end).
      split.
      { cbn [repeat_M].
        eapply bind_throw. exact (onCanvasResize_zero width height r w Hr Hok). }
      split; [exact B1|]. split; [exact B2|]. split; [exact B3|].
      split; [exact B4|]. split; [exact B6|]. split; [exact B5|].
      split; [apply resize_begun_trace|].
      split; [destruct (persistentTexture w); reflexivity|].
      split; [destruct (persistentTexture w); reflexivity|].
      rewrite B7. intros H; exact H.
Qed.

(** One event of the lifecycle: it returns, or a resize to a zero size
    throws. *)
Lemma lifecycle_step n k e w :
  Forall quiet_call blit_calls ->
  rt_active w k ->
  (isApiReady w = true -> is_Some (persistentTexture w)) ->
  lifecycle_event e ->
  exists c w' new,
    lstep (S (S (S n))) e w = Some (c, w') /\
    rt_active w' k /\
    (isApiReady w' = true -> is_Some (persistentTexture w')) /\
    trace w' = (trace w ++ new)%list /\
    isApiReady w' = isApiReady w || has_blit new /\
    ready_hooks new = 0.
Proof.
  intros Hq ((clo & Hi) & (r & Hr)) HJ He.
  pose proof Hi as (Hu & Hd & Hk & Ho).
  destruct e as [wd ht| |wd ht|c|t|wd ht rs|t|h| | |]; try (exfalso; exact He).
  - (* RendererResize *)
    destruct (resize_listeners_run wd ht r (resize_listeners w) w Hr)
      as (c & w' & new & E & F1 & F2 & F3 & F4 & F5 & F6 & F7 & F8 & F9 & F10).
    exists c, w', new.
    split.
    { change (lstep (S (S (S n))) (RendererResize wd ht) w)
        with ((let! w0 := get in
               match host w0 with
               | NoApp | NoRenderer => ret tt
               | NoGL _ | HasGL _ =>
                   repeat_M (resize_listeners w0) (onCanvasResize wd ht)
               end) w).
      eapply bind_normal; [reflexivity|]. cbv beta.
      destruct (host w); try discriminate Hr; exact E. }
    split.
    { split; [exists clo; repeat split;
              [rewrite F1|rewrite F2|rewrite F3|rewrite F4]; assumption|].
      exists r. rewrite F5. exact Hr. }
    split; [intros H; apply F10, HJ; rewrite <- F6; exact H|].
    split; [exact F7|].
    split; [rewrite F6, F8, orb_false_r; reflexivity|exact F9].
  - (* GLCall *)
    destruct (rt_call_ready n k c w clo Hq Hi)
      as (w' & clo' & new & E & I' & H' & P' & T' & R' & K' & B').
    exists (Normal tt), w', new.
    split; [eapply step_glcall; exact E|].
    split; [split; [exists clo'; exact I'|exists r; rewrite H'; exact Hr]|].
    split; [|split; [exact T'|split; [exact R'|exact K']]].
    rewrite R', P'. intros H.
    destruct (has_blit new); [apply B'; reflexivity|].
    rewrite orb_false_r in H. apply HJ. exact H.
  - (* BindRenderTexture *)
    exists (Normal tt), (set_renderTexture_current t w), [].
    rewrite app_nil_r, orb_false_r.
    split; [reflexivity|].
    split; [split; [exists clo; exact Hi|exists r; exact Hr]|].
    split; [exact HJ|repeat split].
  - (* HostCreateTexture *)
    change (lstep (S (S (S n))) (HostCreateTexture wd ht rs) w)
      with (attempt (RenderTexture_create wd ht (Some rs)) w).
    unfold attempt.
    destruct (framebuffer_ok (settings_RESOLUTION w) wd ht (Some rs)) eqn:Hok.
    + rewrite (RenderTexture_create_ok _ _ _ _ Hok).
      eexists (Normal tt), _, [].
      rewrite app_nil_r, orb_false_r.
      split; [reflexivity|].
      split; [split; [exists clo; exact Hi|exists r; exact Hr]|].
      split; [exact HJ|repeat split].
    + rewrite (RenderTexture_create_zero _ _ _ _ Hok).
      exists (Normal tt), w, [].
      rewrite app_nil_r, orb_false_r.
      split; [reflexivity|].
      split; [split; [exists clo; exact Hi|exists r; exact Hr]|].
      split; [exact HJ|repeat split].
  - (* HostDestroyTexture *)
    exists (Normal tt), (set_textures (alter destroy_texture t (textures w)) w), [].
    rewrite app_nil_r, orb_false_r.
    split; [reflexivity|].
    split; [split; [exists clo; exact Hi|exists r; exact Hr]|].
    split; [exact HJ|repeat split].
  - (* ConsumerGetTexture *)
    assert (Hg : forall v w1,
               (if negb (isApiReady w)
                then log WarnGetTextureNotReady >>; ret None
                else ret (persistentTexture w)) w = Some (Normal v, w1) ->
               lstep (S (S (S n))) ConsumerGetTexture w = Some (Normal tt, w1)).
    { intros v w1 E.
      change (lstep (S (S (S n))) ConsumerGetTexture w) with (ignore getTexture w).
      unfold ignore, getTexture.
      eapply bind_normal; [eapply bind_normal; [reflexivity|exact E]|reflexivity]. }
    destruct (isApiReady w) eqn:Hy.
    + exists (Normal tt), w, []. rewrite app_nil_r.
      split; [eapply Hg; reflexivity|].
      split; [split; [exists clo; exact Hi|exists r; exact Hr]|].
      split; [intros _; apply HJ; reflexivity|]. repeat split. exact Hy.
    + exists (Normal tt), (emit WarnGetTextureNotReady w), [WarnGetTextureNotReady].
      split; [eapply Hg; reflexivity|].
      split; [split; [exists clo; exact Hi|exists r; exact Hr]|].
      split; [psimpl; intros H; rewrite Hy in H; discriminate H|].
      repeat split. exact Hy.
  - (* ConsumerIsReady *)
    exists (Normal tt), w, []. rewrite app_nil_r, orb_false_r.
    split; [reflexivity|].
    split; [split; [exists clo; exact Hi|exists r; exact Hr]|].
    split; [exact HJ|repeat split].
Qed.

(** A run of lifecycle events: it goes through, or stops at a resize that
    throws. *)
Lemma lifecycle_run n k es : forall w,
  Forall quiet_call blit_calls ->
  rt_active w k ->
  (isApiReady w = true -> is_Some (persistentTexture w)) ->
  Forall lifecycle_event es ->
  exists c w' new,
    lrun (S (S (S n))) es w = Some (c, w') /\
    rt_active w' k /\
    (isApiReady w' = true -> is_Some (persistentTexture w')) /\
    trace w' = (trace w ++ new)%list /\
    isApiReady w' = isApiReady w || has_blit new /\
    ready_hooks new = 0.
Proof.
  induction es as [|e es IH]; intros w Hq Ha HJ Hes.
  - exists (Normal tt), w, []. rewrite app_nil_r, orb_false_r.
    split; [reflexivity|]. split; [exact Ha|]. split; [exact HJ|]. repeat split.
  - inversion Hes as [|e' es' He Hes']; subst.
    destruct (lifecycle_step n k e w Hq Ha HJ He)
      as (c1 & w1 & new1 & E1 & A1 & J1 & T1 & R1 & K1).
    destruct c1 as [[]|err].
    + destruct (IH w1 Hq A1 J1 Hes') as (c2 & w2 & new2 & E2 & A2 & J2 & T2 & R2 & K2).
      exists c2, w2, (new1 ++ new2)%list.
      split; [cbn [run]; eapply bind_normal; [exact E1|exact E2]|].
      split; [exact A2|]. split; [exact J2|].
      split; [rewrite T2, T1, <- app_assoc; reflexivity|].
      split; [rewrite R2, R1, has_blit_app, orb_assoc; reflexivity|].
      rewrite ready_hooks_app, K1, K2. reflexivity.
    + exists (Throw err), w1, new1.
      split; [cbn [run]; eapply bind_throw; exact E1|].
      split; [exact A1|]. split; [exact J1|].
      split; [exact T1|]. split; [exact R1|exact K1].
Qed.

End Lifecycle.

(** C3 fails on the code: after a completed pass and a resize of the canvas,
    [isReady()] is true and [getTexture()] returns the buffer created by the
    resize, a valid texture into which nothing has been copied yet. The
    resize replaces the buffer and leaves the ready flag up. *)
Lemma ready_unpopulated_counterexample :
  exists w' t,
    run example_return example_blit 3 ready_then_resize_scenario
      (initial_world (HasGL 1%Qc) true) = Some (Normal tt, w') /\
    isReady w' = Some (Normal true, w') /\
    getTexture w' = Some (Normal (Some 2), w') /\
    textures w' !! 2 = Some t /\
    tex_valid t = true /\
    tex_content t = None /\
    blits (trace w') = [(0, 1)].
Proof.
  eexists. eexists.
  split; [vm_compute; reflexivity|].
  split; [vm_compute; reflexivity|].
  split; [vm_compute; reflexivity|].
  split; [vm_compute; reflexivity|].
  split; [reflexivity|]. split; reflexivity.
Qed.

Section ReadyFlag.

Variable native_return : glcall -> jsval.
Variable blit_calls : list glcall.

(** X18. Over the events of an activation that starts with the flag down
    (the run goes through, or stops at a resize whose texture cannot be
    made): [isReady()] is true exactly when an end-of-pass copy has been made
    since the activation started; [getTexture()] returns [null] (with a
    warning) as long as it is false, and the current, non-null buffer
    reference once it is true; and once true the flag stays true whatever
    lifecycle events follow. *)
Theorem ready_flag_over_activation n k es w :
  Forall quiet_call blit_calls ->
  rt_active w k ->
  isApiReady w = false ->
  Forall lifecycle_event es ->
  exists c w' new,
    run native_return blit_calls (S (S (S n))) es w = Some (c, w') /\
    trace w' = (trace w ++ new)%list /\
    isReady w' = Some (Normal (has_blit new), w') /\
    (has_blit new = false ->
       getTexture w' = Some (Normal None, emit WarnGetTextureNotReady w')) /\
    (has_blit new = true ->
       exists t, persistentTexture w' = Some t /\
                 getTexture w' = Some (Normal (Some t), w')) /\
    (forall es',
       Forall lifecycle_event es' ->
       has_blit new = true ->
       exists c' w'',
         run native_return blit_calls (S (S (S n))) es' w' = Some (c', w'') /\
         isReady w'' = Some (Normal true, w'')).
Proof.
  intros Hq Ha Hy Hes.
  destruct (lifecycle_run native_return blit_calls n k es w Hq Ha) as
    (c & w' & new & E & A' & J' & T' & R' & _);
    [rewrite Hy; intros H; discriminate H|exact Hes|].
  rewrite Hy in R'. cbn [orb] in R'.
  exists c, w', new.
  split; [exact E|]. split; [exact T'|].
  split; [unfold isReady; eapply bind_normal; [reflexivity|]; cbv beta;
          rewrite R'; reflexivity|].
  split; [|split].
  - intros Hb. unfold getTexture.
    eapply bind_normal; [reflexivity|]. cbv beta.
    rewrite R', Hb. reflexivity.
  - intros Hb. rewrite Hb in R'.
    destruct (J' R') as [t Ht].
    exists t. split; [exact Ht|].
    unfold getTexture.
    eapply bind_normal; [reflexivity|]. cbv beta.
    rewrite R', Ht. reflexivity.
  - intros es' Hes' Hb. rewrite Hb in R'.
    destruct (lifecycle_run native_return blit_calls n k es' w' Hq A' J' Hes') as
      (c' & w'' & new' & E' & _ & _ & _ & R'' & _).
    exists c', w''. split; [exact E'|].
    unfold isReady. eapply bind_normal; [reflexivity|]. cbv beta.
    rewrite R'', R'. reflexivity.
Qed.

End ReadyFlag.

Lemma ready_flag_over_activation_witness :
  exists c w' new,
    run example_return example_blit 3 example_lifecycle example_activated_world =
      Some (c, w') /\
    trace w' = (trace example_activated_world ++ new)%list /\
    isReady w' = Some (Normal (has_blit new), w') /\
    (has_blit new = false ->
       getTexture w' = Some (Normal None, emit WarnGetTextureNotReady w')) /\
    (has_blit new = true ->
       exists t, persistentTexture w' = Some t /\
                 getTexture w' = Some (Normal (Some t), w')) /\
    (forall es',
       Forall lifecycle_event es' ->
       has_blit new = true ->
       exists c' w'',
         run example_return example_blit 3 es' w' = Some (c', w'') /\
         isReady w'' = Some (Normal true, w'')).
Proof.
  apply (ready_flag_over_activation example_return example_blit 0 0
           example_lifecycle example_activated_world).
  - repeat constructor.
  - split.
    + exists {| rt_inTargetShaderPass := false; rt_lastCapturedTexture := None |}.
      repeat split; vm_compute; reflexivity.
    + exists 1%Qc. reflexivity.
  - reflexivity.
  - repeat constructor.
Defined.

(** ** The ready notification *)

Lemma lbind_normal {A B} (m : LM A) (k : A -> LM B) s a s1 r :
  m s = Some (Normal a, s1) -> k a s1 = r -> lbind m k s = r.
Proof. intros H1 H2. unfold lbind. rewrite H1. exact H2. Qed.

Lemma lbind_throw {A B} (m : LM A) (k : A -> LM B) s e s1 :
  m s = Some (Throw e, s1) -> lbind m k s = Some (Throw e, s1).
Proof. intros H1. unfold lbind. rewrite H1. reflexivity. Qed.

Lemma set_page_self s : set_page (page s) s = s.
Proof. destruct s; reflexivity. Qed.

Lemma initialize_begun_fields s :
  settings_RESOLUTION (initialize_begun s) = settings_RESOLUTION (page s) /\
  host (initialize_begun s) = host (page s) /\
  List.length (textures (initialize_begun s)) = List.length (textures (page s)) /\
  trace (initialize_begun s) =
    (trace (page s) ++
       match api_persistentTexture s with
       | Some t => [TextureDestroyed t]
       | None => []
       end)%list.
Proof.
  unfold initialize_begun. cbv zeta.
  destruct (api_persistentTexture s) as [t|]; psimpl; rewrite ?length_alter, ?app_nil_r;
    repeat split.
Qed.

(** [api.initialize] up to the point where it asks for the new texture. *)
Lemma api_initialize_begins env s :
  api_initialize env s =
  lbind (on_page (RenderTexture_create (screen_width env) (screen_height env) None))
    (fun t => lmodify (set_api_persistentTexture (Some t)))
    (set_page (initialize_begun s) s).
Proof.
  unfold api_initialize, initialize_begun. cbv zeta.
  destruct (api_persistentTexture s) as [t|].
  - eapply lbind_normal; [|reflexivity].
    unfold on_page, destroy_on_heap, bind, modify, log. reflexivity.
  - rewrite set_page_self. reflexivity.
Qed.

Lemma api_initialize_returns env s :
  framebuffer_ok (settings_RESOLUTION (page s))
    (screen_width env) (screen_height env) None = true ->
  api_initialize env s = Some (Normal tt, legacy_initialized env s).
Proof.
  intros Hok. rewrite api_initialize_begins.
  destruct (initialize_begun_fields s) as (B1 & _).
  eapply lbind_normal.
  - unfold on_page. cbn [page set_page].
    rewrite RenderTexture_create_ok by (rewrite B1; exact Hok).
    reflexivity.
  - unfold legacy_initialized, screen_texture, effective_resolution. cbv zeta.
    rewrite B1. reflexivity.
Qed.

(** When the screen has a side of zero device pixels, [api.initialize]
    throws after it has destroyed the old buffer. *)
Lemma api_initialize_zero env s :
  framebuffer_ok (settings_RESOLUTION (page s))
    (screen_width env) (screen_height env) None = false ->
  api_initialize env s =
  Some (Throw FramebufferError, set_page (initialize_begun s) s).
Proof.
  intros Hok. rewrite api_initialize_begins.
  destruct (initialize_begun_fields s) as (B1 & _).
  eapply lbind_throw.
  unfold on_page. cbn [page set_page].
  rewrite RenderTexture_create_zero by (rewrite B1; exact Hok).
  reflexivity.
Qed.

Lemma oneShotDebugCapture_no_gl w :
  oneShotDebugCapture (Some false) w = Some (Normal tt, emit NotifyCaptureNoGL w).
Proof. reflexivity. Qed.

Lemma oneShotDebugCapture_guarded w :
  finalCaptureArmed w = true ->
  oneShotDebugCapture (Some true) w = Some (Normal tt, emit NotifyFinalAlreadyArmed w).
Proof.
  destruct w as [pt rdy armed og guard up de rtc dbc tx cur rl h pop nc tr fg sr].
  simpl. intros ->. vm_compute. reflexivity.
Qed.

Lemma oneShotDebugCapture_installs w :
  finalCaptureArmed w = false ->
  oneShotDebugCapture (Some true) w = Some (Normal tt, final_installed w).
Proof.
  destruct w as [pt rdy armed og guard up de rtc dbc tx cur rl h pop nc tr fg sr].
  simpl. intros ->. vm_compute. reflexivity.
Qed.

Lemma oneShotDebugCapture_given g w :
  exists w',
    oneShotDebugCapture (Some g) w = Some (Normal tt, w') /\
    trace w' = (trace w ++ final_arming_events g w)%list.
Proof.
  unfold final_arming_events.
  destruct g; [destruct (finalCaptureArmed w) eqn:Hg|].
  - exists (emit NotifyFinalAlreadyArmed w).
    split; [apply oneShotDebugCapture_guarded; exact Hg|reflexivity].
  - exists (final_installed w).
    split; [apply oneShotDebugCapture_installs; exact Hg|].
    unfold final_installed. cbv zeta. psimpl. rewrite <- app_assoc. reflexivity.
  - exists (emit NotifyCaptureNoGL w).
    split; [apply oneShotDebugCapture_no_gl|reflexivity].
Qed.

Lemma legacy_canvasReady_body_announces env s g :
  canvas_app_renderer (host (page s)) = Some g ->
  setting_debugMode env = false ->
  framebuffer_ok (settings_RESOLUTION (page s))
    (screen_width env) (screen_height env) None = true ->
  legacy_canvasReady_body env s =
  Some (Normal tt, legacy_announced env (legacy_initialized env s)).
Proof.
  intros Hren Hd Hok. unfold legacy_canvasReady_body. rewrite Hren, Hd.
  eapply lbind_normal; [apply api_initialize_returns; exact Hok|]. cbv beta.
  generalize (legacy_initialized env s). intros s1.
  destruct env as [dm lp la fa sw sh].
  destruct s1 as [w apt dc ps awr tc pend].
  destruct w as [pt rdy armed og guard up de rtc dbc tx cur rl h pop nc tr fg sr].
  destruct la, fa, lp; vm_compute; reflexivity.
Qed.

Lemma legacy_ready_events_hooks env :
  ready_hooks (legacy_ready_events env) = 1 /\
  blits (legacy_ready_events env) = [].
Proof.
  unfold legacy_ready_events.
  destruct (libWrapper_active env), (filter_apply_present env),
    (setting_livePreview env); split; reflexivity.
Qed.

Lemma legacy_announced_fields env s :
  trace (page (legacy_announced env s)) =
    (trace (page s) ++ legacy_ready_events env)%list /\
  textures (page (legacy_announced env s)) = textures (page s) /\
  api_persistentTexture (legacy_announced env s) = api_persistentTexture s /\
  canvasReady_pending (legacy_announced env s) = canvasReady_pending s.
Proof.
  unfold legacy_announced. cbn [page api_persistentTexture canvasReady_pending].
  split; [apply emit_list_trace|].
  split; [|split; reflexivity].
  apply emit_list_frame.
Qed.

Lemma destroyed_events_quiet (o : option nat) :
  blits (match o with Some t => [TextureDestroyed t] | None => [] end) = [] /\
  ready_hooks (match o with Some t => [TextureDestroyed t] | None => [] end) = 0.
Proof. destruct o; split; reflexivity. Qed.

Lemma final_arming_events_quiet g w :
  blits (LogDebugModeArming :: final_arming_events g w) = [] /\
  ready_hooks (LogDebugModeArming :: final_arming_events g w) = 0.
Proof.
  unfold final_arming_events.
  destruct g; [destruct (finalCaptureArmed w)|]; split; reflexivity.
Qed.

(** The handler, whatever it finds. *)
Lemma legacy_canvasReady_body_cases env s :
  exists c s' new,
    legacy_canvasReady_body env s = Some (c, s') /\
    trace (page s') = (trace (page s) ++ new)%list /\
    blits new = [] /\
    ready_hooks new = (if hook_fires env s then 1 else 0) /\
    canvasReady_pending s' = canvasReady_pending s /\
    (hook_fires env s = true ->
       c = Normal tt /\
       s' = legacy_announced env (legacy_initialized env s) /\
       api_initialize env s = Some (Normal tt, legacy_initialized env s)).
Proof.
  unfold hook_fires.
  destruct (canvas_app_renderer (host (page s))) as [g|] eqn:Hren.
  - destruct (setting_debugMode env) eqn:Hd; cbn [negb andb].
    + destruct (oneShotDebugCapture_given g (emit LogDebugModeArming (page s)))
        as (w' & E & T).
      exists (Normal tt), (set_page w' s),
        (LogDebugModeArming :: final_arming_events g (emit LogDebugModeArming (page s))).
      destruct (final_arming_events_quiet g (emit LogDebugModeArming (page s)))
        as (Q1 & Q2).
      split.
      { unfold legacy_canvasReady_body. rewrite Hren, Hd.
        eapply lbind_normal; [reflexivity|]. cbv beta.
        unfold on_page. cbn [page set_page]. rewrite E.
        destruct s; reflexivity. }
      cbn [page set_page canvasReady_pending].
      split; [rewrite T; psimpl; rewrite <- app_assoc; reflexivity|].
      split; [exact Q1|]. split; [exact Q2|].
      split; [destruct s; reflexivity|].
      intros H. discriminate H.
    + destruct (framebuffer_ok (settings_RESOLUTION (page s))
                  (screen_width env) (screen_height env) None) eqn:Hok.
      * destruct (legacy_announced_fields env (legacy_initialized env s))
          as (T1 & _ & _ & P1).
        destruct (initialize_begun_fields s) as (_ & _ & _ & T0).
        destruct (legacy_ready_events_hooks env) as (K & B).
        destruct (destroyed_events_quiet (api_persistentTexture s)) as (Q1 & Q2).
        exists (Normal tt), (legacy_announced env (legacy_initialized env s)),
          (match api_persistentTexture s with
           | Some t => [TextureDestroyed t]
           | None => []
           end ++ legacy_ready_events env)%list.
        split; [apply (legacy_canvasReady_body_announces env s g); assumption|].
        split.
        { rewrite T1. unfold legacy_initialized. cbv zeta.
          cbn [page set_page set_api_persistentTexture]. psimpl.
          rewrite T0, <- app_assoc. reflexivity. }
        split; [rewrite blits_app, Q1, B; reflexivity|].
        split; [rewrite ready_hooks_app, Q2, K; reflexivity|].
        split; [rewrite P1; destruct s; reflexivity|].
        intros _. split; [reflexivity|]. split; [reflexivity|].
        apply api_initialize_returns. exact Hok.
      * destruct (initialize_begun_fields s) as (_ & _ & _ & T0).
        destruct (destroyed_events_quiet (api_persistentTexture s)) as (Q1 & Q2).
        exists (Throw FramebufferError), (set_page (initialize_begun s) s),
          (match api_persistentTexture s with
           | Some t => [TextureDestroyed t]
           | None => []
           end).
        split.
        { unfold legacy_canvasReady_body. rewrite Hren, Hd.
          eapply lbind_throw. apply api_initialize_zero. exact Hok. }
        cbn [page set_page canvasReady_pending].
        split; [exact T0|]. split; [exact Q1|]. split; [exact Q2|].
        split; [destruct s; reflexivity|].
        intros H. discriminate H.
  - exists (Normal tt), s, [].
    split; [unfold legacy_canvasReady_body; rewrite Hren; reflexivity|].
    rewrite app_nil_r.
    split; [reflexivity|]. split; [reflexivity|]. split; [reflexivity|].
    split; [reflexivity|]. intros H. discriminate H.
Qed.

(** C6, as stated, fails in both versions of the module. The libWrapper
    based one fires the hook from its [canvasReady] handler, before any copy
    has been made; the WebGL interceptor makes its first copy and raises the
    ready flag without firing any hook. *)
Lemma ready_hook_counterexample :
  (exists s',
     legacy_canvasReady example_legacy_env (legacy_initial (HasGL 1%Qc) true) =
       Some (Normal tt, s') /\
     trace (page s') =
       [LogApiInitialized; LogLibWrapperActive; LogPreviewCreated;
        HookIlluminationBufferReady; LogHookFired] /\
     blits (trace (page s')) = []) /\
  (exists w',
     run example_return example_blit 3 completed_pass_scenario
       (initial_world (HasGL 1%Qc) true) = Some (Normal tt, w') /\
     isApiReady w' = true /\
     blits (trace w') = [(0, 1)] /\
     ready_hooks (trace w') = 0).
Proof.
  split.
  - eexists. split; [vm_compute; reflexivity|]. split; reflexivity.
  - eexists. split; [vm_compute; reflexivity|]. repeat split.
Qed.

Section ReadyHook.

Variable native_return : glcall -> jsval.
Variable blit_calls : list glcall.

(** C6, amended. In the libWrapper based module the ready hook is fired by
    the [canvasReady] handler, which is registered with [Hooks.once]: at most
    once per page load, whatever the handler finds, a later [canvasReady]
    changing nothing. It is fired exactly once when the handler finds a
    renderer, debug mode is off and the screen is not of zero size, and not
    at all otherwise. When it is fired, [api.initialize] has returned before:
    the buffer exists, the hook comes after its creation in the trace, and no
    copy has been made. The WebGL interceptor never fires the hook: over the
    events of an activation no ready hook appears in the trace, whether a
    copy is made or not. *)
Theorem ready_hook_firing :
  (forall env s,
     canvasReady_pending s = true ->
     exists c s' new,
       legacy_canvasReady env s = Some (c, s') /\
       trace (page s') = (trace (page s) ++ new)%list /\
       blits new = [] /\
       ready_hooks new = (if hook_fires env s then 1 else 0) /\
       (forall env', legacy_canvasReady env' s' = Some (Normal tt, s')) /\
       (hook_fires env s = true ->
          c = Normal tt /\
          exists s1 b,
            api_initialize env (set_canvasReady_pending false s) =
              Some (Normal tt, s1) /\
            ready_hooks (trace (page s1)) = ready_hooks (trace (page s)) /\
            api_persistentTexture s1 = Some b /\
            textures (page s1) !! b = Some (screen_texture env s) /\
            trace (page s') = (trace (page s1) ++ legacy_ready_events env)%list /\
            ready_hooks (legacy_ready_events env) = 1 /\
            api_persistentTexture s' = Some b /\
            textures (page s') = textures (page s1))) /\
  (forall n k es w,
     Forall quiet_call blit_calls ->
     rt_active w k ->
     isApiReady w = false ->
     Forall lifecycle_event es ->
     exists c w' new,
       run native_return blit_calls (S (S (S n))) es w = Some (c, w') /\
       trace w' = (trace w ++ new)%list /\
       isApiReady w' = has_blit new /\
       ready_hooks new = 0).
Proof.
  split.
  - intros env s Hp.
    set (s0 := set_canvasReady_pending false s).
    assert (F0 : hook_fires env s0 = hook_fires env s) by reflexivity.
    destruct (legacy_canvasReady_body_cases env s0)
      as (c & s' & new & E & T & B & K & P & Hf).
    exists c, s', new.
    split; [unfold legacy_canvasReady; rewrite Hp; exact E|].
    split; [exact T|]. split; [exact B|].
    split; [rewrite <- F0; exact K|].
    split.
    { intros env'. unfold legacy_canvasReady. rewrite P. reflexivity. }
    intros Hfire. rewrite <- F0 in Hfire.
    destruct (Hf Hfire) as (-> & -> & Ei).
    split; [reflexivity|].
    destruct (legacy_announced_fields env (legacy_initialized env s0))
      as (T1 & X1 & A1 & _).
    destruct (initialize_begun_fields s0) as (_ & _ & L0 & T0).
    destruct (legacy_ready_events_hooks env) as (K1 & _).
    destruct (destroyed_events_quiet (api_persistentTexture s0)) as (_ & Q2).
    exists (legacy_initialized env s0), (List.length (textures (initialize_begun s0))).
    split; [exact Ei|].
    split.
    { unfold legacy_initialized. cbv zeta.
      cbn [page set_page set_api_persistentTexture]. psimpl.
      rewrite T0, ready_hooks_app, Q2. change (page s0) with (page s). lia. }
    split; [reflexivity|].
    split.
    { unfold legacy_initialized. cbv zeta.
      cbn [page set_page set_api_persistentTexture]. psimpl.
      apply list_lookup_middle. reflexivity. }
    split; [exact T1|]. split; [exact K1|].
    split; [rewrite A1; reflexivity|exact X1].
  - intros n k es w Hq Ha Hy Hes.
    destruct (lifecycle_run native_return blit_calls n k es w Hq Ha) as
      (c & w' & new & E & _ & _ & T' & R' & K');
      [rewrite Hy; intros H; discriminate H|exact Hes|].
    rewrite Hy in R'. cbn [orb] in R'.
    exists c, w', new. repeat split; assumption.
Qed.

End ReadyHook.

Lemma ready_hook_firing_witness :
  (exists s' new,
     legacy_canvasReady example_legacy_env (legacy_initial (HasGL 1%Qc) true) =
       Some (Normal tt, s') /\
     trace (page s') = (trace (page (legacy_initial (HasGL 1%Qc) true)) ++ new)%list /\
     blits new = [] /\
     ready_hooks new = 1 /\
     (forall env', legacy_canvasReady env' s' = Some (Normal tt, s')) /\
     exists s1 b,
       api_initialize example_legacy_env
         (set_canvasReady_pending false (legacy_initial (HasGL 1%Qc) true)) =
         Some (Normal tt, s1) /\
       ready_hooks (trace (page s1)) = 0 /\
       api_persistentTexture s1 = Some b /\
       trace (page s') = (trace (page s1) ++ legacy_ready_events example_legacy_env)%list /\
       api_persistentTexture s' = Some b /\
       textures (page s') = textures (page s1)) /\
  (exists c s' new,
     legacy_canvasReady example_legacy_env (legacy_initial NoRenderer true) =
       Some (c, s') /\
     trace (page s') = (trace (page (legacy_initial NoRenderer true)) ++ new)%list /\
     ready_hooks new = 0 /\
     (forall env', legacy_canvasReady env' s' = Some (Normal tt, s'))) /\
  (exists c w' new,
     run example_return example_blit 3 example_lifecycle example_activated_world =
       Some (c, w') /\
     trace w' = (trace example_activated_world ++ new)%list /\
     isApiReady w' = has_blit new /\
     ready_hooks new = 0).
Proof.
  destruct (ready_hook_firing example_return example_blit) as (H1 & H2).
  split; [|split].
  - assert (F : hook_fires example_legacy_env (legacy_initial (HasGL 1%Qc) true) = true)
      by (vm_compute; reflexivity).
    destruct (H1 example_legacy_env (legacy_initial (HasGL 1%Qc) true) eq_refl)
      as (c & s' & new & E & T & B & K & O & Hf).
    rewrite F in K.
    destruct (Hf F) as (-> & s1 & b & Ei & K0 & A1 & _ & T1 & _ & A' & X').
    exists s', new.
    split; [exact E|]. split; [exact T|]. split; [exact B|]. split; [exact K|].
    split; [exact O|].
    exists s1, b. repeat split; assumption.
  - assert (F : hook_fires example_legacy_env (legacy_initial NoRenderer true) = false)
      by reflexivity.
    destruct (H1 example_legacy_env (legacy_initial NoRenderer true) eq_refl)
      as (c & s' & new & E & T & B & K & O & _).
    rewrite F in K.
    exists c, s', new. repeat split; assumption.
  - apply (H2 0 0 example_lifecycle example_activated_world).
    + repeat constructor.
    + split.
      * exists {| rt_inTargetShaderPass := false; rt_lastCapturedTexture := None |}.
        repeat split; vm_compute; reflexivity.
      * exists 1%Qc. reflexivity.
    + reflexivity.
    + repeat constructor.
Defined.

(** * Further properties of the module *)

(** ** Failures of the host page *)

(** X1. [onCanvasResize] on a page without renderer throws a TypeError, and
    it does so after it has destroyed the buffer: the persistent texture
    still refers to the destroyed texture. *)
Theorem onCanvasResize_without_renderer width height w :
  host_resolution (host w) = None ->
  exists w',
    onCanvasResize width height w = Some (Throw TypeError, w') /\
    persistentTexture w' = persistentTexture w /\
    forall t x,
      persistentTexture w = Some t ->
      textures w !! t = Some x ->
      textures w' !! t = Some (destroy_texture x).
Proof.
  intros Hh.
  exists (match persistentTexture w with
          | Some t =>
              emit (TextureDestroyed t)
                (set_textures (alter destroy_texture t (textures w))
                   (emit LogCanvasResized w))
          | None => emit LogCanvasResized w
          end).
  split; [|split].
  - destruct w as [pt rdy armed og guard up de rtc dbc tx cur rl h pop nc tr fg sr].
    simpl in Hh.
    destruct h as [| |r|r]; try discriminate Hh;
      destruct pt as [t|]; vm_compute; reflexivity.
  - destruct (persistentTexture w) eqn:E; psimpl; exact E.
  - intros t x Ht Hx. rewrite Ht. psimpl.
    rewrite list_lookup_alter_eq, Hx. reflexivity.
Qed.

Lemma onCanvasResize_without_renderer_witness :
  exists w',
    onCanvasResize 1920 1080 (set_host NoApp example_activated_world) =
      Some (Throw TypeError, w') /\
    persistentTexture w' = Some 1 /\
    forall t x,
      persistentTexture (set_host NoApp example_activated_world) = Some t ->
      textures (set_host NoApp example_activated_world) !! t = Some x ->
      textures w' !! t = Some (destroy_texture x).
Proof.
  apply (onCanvasResize_without_renderer 1920 1080
           (set_host NoApp example_activated_world)).
  reflexivity.
Defined.

(** X2. [tearDownRealTime] on a page whose application object has lost its
    renderer throws a TypeError at the removal of the resize listener: the
    buffer has been released and the reference is null, but the ready flag
    and the armed flag are left as they were. *)
Theorem tearDownRealTime_without_renderer w :
  host w = NoRenderer ->
  exists w',
    tearDownRealTime w = Some (Throw TypeError, w') /\
    persistentTexture w' = None /\
    isApiReady w' = isApiReady w /\
    isInterceptorArmed w' = isInterceptorArmed w /\
    gl_useProgram w' = gl_useProgram w.
Proof.
  intros Hh.
  exists (match persistentTexture w with
          | Some t =>
              set_persistentTexture None
                (emit (TextureDestroyed t)
                   (set_textures (alter destroy_texture t (textures w))
                      (emit LogTearDown w)))
          | None => emit LogTearDown w
          end).
  destruct w as [pt rdy armed og guard up de rtc dbc tx cur rl h pop nc tr fg sr].
  simpl in Hh. subst h.
  destruct og as [[u d]|], armed, pt as [t|];
    (split; [vm_compute; reflexivity|repeat split]).
Qed.

Lemma tearDownRealTime_without_renderer_witness :
  exists w',
    tearDownRealTime (set_host NoRenderer example_activated_world) =
      Some (Throw TypeError, w') /\
    persistentTexture w' = None /\
    isApiReady w' = false /\
    isInterceptorArmed w' = true /\
    gl_useProgram w' = RealTimeWrapper 0.
Proof.
  apply (tearDownRealTime_without_renderer
           (set_host NoRenderer example_activated_world)).
  reflexivity.
Defined.

(** ** Arming the real-time interceptor *)

(** X3. [armRealTimeCapture] does nothing at all, not even log, when the
    interceptor is already armed or no context is found. *)
Theorem armRealTimeCapture_rejected w :
  isInterceptorArmed w = true \/ gl_available (host w) = false ->
  armRealTimeCapture w = Some (Normal tt, w).
Proof.
  destruct w as [pt rdy armed og guard up de rtc dbc tx cur rl h pop nc tr fg sr].
  simpl. intros [-> | Hh].
  - destruct h; vm_compute; reflexivity.
  - destruct h; try discriminate Hh; vm_compute; reflexivity.
Qed.

Lemma armRealTimeCapture_rejected_witness :
  armRealTimeCapture example_activated_world = Some (Normal tt, example_activated_world).
Proof.
  apply (armRealTimeCapture_rejected example_activated_world).
  left. reflexivity.
Defined.

(** X4. The original entry points are saved once: whenever
    [armRealTimeCapture] runs on a page where they are saved already, it
    keeps them, whatever sits in the [gl] object at that time. *)
Theorem armRealTimeCapture_keeps_originals w o :
  originalGLFunctions w = Some o ->
  exists w',
    armRealTimeCapture w = Some (Normal tt, w') /\
    originalGLFunctions w' = Some o.
Proof.
  destruct w as [pt rdy armed og guard up de rtc dbc tx cur rl h pop nc tr fg sr].
  simpl. intros ->. destruct o as [u d].
  destruct h, armed; eexists; (split; [vm_compute; reflexivity|reflexivity]).
Qed.

Lemma armRealTimeCapture_keeps_originals_witness :
  exists w',
    armRealTimeCapture (set_isInterceptorArmed false example_activated_world) =
      Some (Normal tt, w') /\
    originalGLFunctions w' = Some (Native, Native).
Proof.
  apply (armRealTimeCapture_keeps_originals
           (set_isInterceptorArmed false example_activated_world) (Native, Native)).
  reflexivity.
Defined.

(** ** The one-shot capture of the earlier modules *)

(** X5. [oneShotDebugCapture(renderer)] reads [renderer.gl] before it looks
    at its guard [window.isFinalStateMachineCaptureArmed]. Given no renderer
    it throws a TypeError and changes nothing. Given a renderer without
    context it only reports the error and leaves the guard as it was, set or
    not. With a context and the guard set it only warns. Otherwise it sets
    the guard and installs its wrappers. The guard of
    [armOneShotDebugCapture] is never touched. *)
Theorem oneShotDebugCapture_context_first renderer w :
  exists c w',
    oneShotDebugCapture renderer w = Some (c, w') /\
    debugCaptureArmed w' = debugCaptureArmed w /\
    (renderer = None -> c = Throw TypeError /\ w' = w) /\
    (renderer = Some false -> c = Normal tt /\ w' = emit NotifyCaptureNoGL w) /\
    (renderer = Some true -> finalCaptureArmed w = true ->
       c = Normal tt /\ w' = emit NotifyFinalAlreadyArmed w) /\
    (renderer = Some true -> finalCaptureArmed w = false ->
       c = Normal tt /\
       w' = final_installed w /\
       finalCaptureArmed w' = true /\
       gl_useProgram w' = FinalWrapper (List.length (dbg_closures w)) /\
       gl_drawElements w' = FinalWrapper (List.length (dbg_closures w)) /\
       dbg_closures w' !! List.length (dbg_closures w) = Some (fresh_dbg_closure w)).
Proof.
  destruct renderer as [[|]|].
  - destruct (finalCaptureArmed w) eqn:Hg.
    + exists (Normal tt), (emit NotifyFinalAlreadyArmed w).
      split; [apply oneShotDebugCapture_guarded; exact Hg|].
      split; [reflexivity|].
      split; [intros H; discriminate H|]. split; [intros H; discriminate H|].
      split; [intros _ _; split; reflexivity|]. intros _ H. discriminate H.
    + exists (Normal tt), (final_installed w).
      split; [apply oneShotDebugCapture_installs; exact Hg|].
      split; [reflexivity|].
      split; [intros H; discriminate H|]. split; [intros H; discriminate H|].
      split; [intros _ H; discriminate H|]. intros _ _.
      unfold final_installed. cbv zeta. psimpl.
      split; [reflexivity|]. split; [reflexivity|]. split; [reflexivity|].
      split; [reflexivity|]. split; [reflexivity|].
      apply list_lookup_middle. reflexivity.
  - exists (Normal tt), (emit NotifyCaptureNoGL w).
    split; [apply oneShotDebugCapture_no_gl|].
    split; [reflexivity|].
    split; [intros H; discriminate H|]. split; [intros _; split; reflexivity|].
    split; intros H; discriminate H.
  - exists (Throw TypeError), w.
    split; [reflexivity|]. split; [reflexivity|].
    split; [intros _; split; reflexivity|].
    split; [intros H; discriminate H|]. split; intros H; discriminate H.
Qed.

Lemma oneShotDebugCapture_context_first_witness :
  oneShotDebugCapture None example_activated_world =
    Some (Throw TypeError, example_activated_world) /\
  oneShotDebugCapture (Some false)
    (set_finalCaptureArmed true example_activated_world) =
    Some (Normal tt,
          emit NotifyCaptureNoGL (set_finalCaptureArmed true example_activated_world)) /\
  oneShotDebugCapture (Some true)
    (set_finalCaptureArmed true example_activated_world) =
    Some (Normal tt,
          emit NotifyFinalAlreadyArmed
            (set_finalCaptureArmed true example_activated_world)) /\
  oneShotDebugCapture (Some true) example_activated_world =
    Some (Normal tt, final_installed example_activated_world).
Proof.
  destruct (oneShotDebugCapture_context_first None example_activated_world)
    as (c1 & w1 & E1 & _ & H1 & _).
  destruct (oneShotDebugCapture_context_first (Some false)
              (set_finalCaptureArmed true example_activated_world))
    as (c2 & w2 & E2 & _ & _ & H2 & _).
  destruct (oneShotDebugCapture_context_first (Some true)
              (set_finalCaptureArmed true example_activated_world))
    as (c3 & w3 & E3 & _ & _ & _ & H3 & _).
  destruct (oneShotDebugCapture_context_first (Some true) example_activated_world)
    as (c4 & w4 & E4 & _ & _ & _ & _ & H4).
  destruct (H1 eq_refl) as (-> & ->).
  destruct (H2 eq_refl) as (-> & ->).
  destruct (H3 eq_refl eq_refl) as (-> & ->).
  destruct (H4 eq_refl eq_refl) as (-> & -> & _).
  split; [exact E1|]. split; [exact E2|]. split; [exact E3|exact E4].
Defined.

(** X20. [Frame_Capture] of the first WebGL module always returns. With its
    guard set it only warns: nothing else changes. Without a context it only
    reports the error, and the guard is clear afterwards. Otherwise the guard
    is set and its wrappers are installed over the entry points found, with
    an idle detector. *)
Theorem Frame_Capture_aborts w :
  exists w',
    Frame_Capture w = Some (Normal tt, w') /\
    (finalCaptureArmed w = true -> w' = emit NotifyFinalAlreadyArmed w) /\
    (finalCaptureArmed w = false -> gl_available (host w) = false ->
       w' = emit NotifyCaptureNoGL w /\ finalCaptureArmed w' = false) /\
    (finalCaptureArmed w = false -> gl_available (host w) = true ->
       w' = final_installed w /\
       finalCaptureArmed w' = true /\
       gl_useProgram w' = FinalWrapper (List.length (dbg_closures w)) /\
       gl_drawElements w' = FinalWrapper (List.length (dbg_closures w)) /\
       dbg_closures w' !! List.length (dbg_closures w) = Some (fresh_dbg_closure w)).
Proof.
  destruct (finalCaptureArmed w) eqn:Hg; [|destruct (gl_available (host w)) eqn:Hgl].
  - exists (emit NotifyFinalAlreadyArmed w).
    split.
    { destruct w as [pt rdy armed og guard up de rtc dbc tx cur rl h pop nc tr fg sr].
      simpl in Hg. rewrite Hg. vm_compute. reflexivity. }
    split; [intros _; reflexivity|]. split; intros H; discriminate H.
  - exists (final_installed w).
    split.
    { destruct w as [pt rdy armed og guard up de rtc dbc tx cur rl h pop nc tr fg sr].
      simpl in Hg, Hgl. rewrite Hg.
      destruct h as [| |r|r]; try discriminate Hgl. vm_compute. reflexivity. }
    split; [intros H; discriminate H|]. split; [intros _ H; discriminate H|].
    intros _ _. unfold final_installed. cbv zeta. psimpl.
    split; [reflexivity|]. split; [reflexivity|]. split; [reflexivity|].
    split; [reflexivity|]. apply list_lookup_middle. reflexivity.
  - exists (emit NotifyCaptureNoGL w).
    split.
    { destruct w as [pt rdy armed og guard up de rtc dbc tx cur rl h pop nc tr fg sr].
      simpl in Hg, Hgl. rewrite Hg.
      destruct h as [| |r|r]; try discriminate Hgl; vm_compute; reflexivity. }
    split; [intros H; discriminate H|].
    split; [intros _ _; split; [reflexivity|exact Hg]|].
    intros _ H. discriminate H.
Qed.

Lemma Frame_Capture_aborts_witness :
  Frame_Capture (set_finalCaptureArmed true example_activated_world) =
    Some (Normal tt,
          emit NotifyFinalAlreadyArmed
            (set_finalCaptureArmed true example_activated_world)) /\
  Frame_Capture (initial_world NoRenderer true) =
    Some (Normal tt, emit NotifyCaptureNoGL (initial_world NoRenderer true)) /\
  Frame_Capture example_activated_world =
    Some (Normal tt, final_installed example_activated_world).
Proof.
  destruct (Frame_Capture_aborts (set_finalCaptureArmed true example_activated_world))
    as (w1 & E1 & H1 & _).
  destruct (Frame_Capture_aborts (initial_world NoRenderer true))
    as (w2 & E2 & _ & H2 & _).
  destruct (Frame_Capture_aborts example_activated_world)
    as (w3 & E3 & _ & _ & H3).
  rewrite (H1 eq_refl) in E1.
  destruct (H2 eq_refl eq_refl) as (-> & _).
  destruct (H3 eq_refl eq_refl) as (-> & _).
  split; [exact E1|]. split; [exact E2|exact E3].
Defined.

(** ** A pass seen by the real-time interceptor *)

Section RealTimePass.

Variable native_return : glcall -> jsval.
Variable blit_calls : list glcall.

Lemma rt_draws n k ds : forall w clo,
  rt_installed_at w k clo ->
  rt_inTargetShaderPass clo = true ->
  exists w',
    run native_return blit_calls (S (S n)) (draw_events ds) w = Some (Normal tt, w') /\
    rt_installed_at w' k
      {| rt_inTargetShaderPass := true;
         rt_lastCapturedTexture := last_target (rt_lastCapturedTexture clo) ds |} /\
    trace w' = trace w /\
    textures w' = textures w /\
    persistentTexture w' = persistentTexture w /\
    isApiReady w' = isApiReady w.
Proof.
  induction ds as [|[t a] ds IH]; intros w clo (Hu & Hd & Hk & Ho) Hf.
  - exists w. split; [reflexivity|].
    split; [|repeat split].
    repeat split; try assumption.
    rewrite Hk. destruct clo as [f l]. cbn in Hf. rewrite Hf. reflexivity.
  - pose (w1 := set_renderTexture_current t w).
    pose (w2 := set_rt_closures
                  (alter (rt_set_last t) k (rt_closures w))
                  (forwarded (DrawElements a) w1)).
    destruct (IH w2 (rt_set_last t clo)) as (w' & Hr & Hi & Ht & Hx & Hp & Hy).
    { unfold w2, w1, forwarded. repeat split; psimpl; try assumption.
      rewrite list_lookup_alter_eq, Hk. reflexivity. }
    { exact Hf. }
    exists w'. split; [|split; [|split; [|split; [|split]]]].
    + change (draw_events ((t, a) :: ds))
        with (BindRenderTexture t :: GLCall (DrawElements a) :: draw_events ds).
      eapply run_cons; [reflexivity|].
      eapply run_cons; [|exact Hr].
      eapply step_glcall. fold w1.
      change (slot_of (DrawElements a) w1) with (gl_drawElements w).
      rewrite Hd.
      rewrite (rt_draw native_return blit_calls n k a w1 clo Native Hk Ho), Hf.
      reflexivity.
    + rewrite last_target_cons. exact Hi.
    + rewrite Ht. reflexivity.
    + rewrite Hx. reflexivity.
    + rewrite Hp. reflexivity.
    + rewrite Hy. reflexivity.
Qed.

(** X6. The real-time interceptor, installed and idle, sees the host bind
    the target program, draw on the render targets [ds] and bind another
    program. The run completes; it copies at most once, and when it copies
    the source is the render target of the last draw and the destination the
    persistent buffer. The kept target is not cleared between passes: after
    a pass without any draw the source is the target kept from the pass
    before. *)
Theorem realtime_pass_copies_last_target n k w clo pt po ds :
  Forall quiet_call blit_calls ->
  rt_installed_at w k clo ->
  rt_inTargetShaderPass clo = false ->
  realtime_matches pt = true ->
  realtime_matches po = false ->
  exists w' new,
    run native_return blit_calls (S (S (S n))) (pass_events pt ds po) w =
      Some (Normal tt, w') /\
    trace w' = (trace w ++ new)%list /\
    blits new =
      match last_target (rt_lastCapturedTexture clo) ds, persistentTexture w with
      | Some src, Some dst => if texture_valid w (Some src) then [(src, dst)] else []
      | _, _ => []
      end /\
    rt_installed_at w' k
      {| rt_inTargetShaderPass := false;
         rt_lastCapturedTexture := last_target (rt_lastCapturedTexture clo) ds |}.
Proof.
  intros Hq (Hu & Hd & Hk & Ho) Hf Hpt Hpo.
  pose (w1 := forwarded (UseProgram pt) (rt_entry pt k w)).
  assert (H1 : host_step native_return blit_calls (S (S (S n)))
                 (GLCall (UseProgram pt)) w = Some (Normal tt, w1)).
  { eapply step_glcall.
    change (slot_of (UseProgram pt) w) with (gl_useProgram w). rewrite Hu.
    apply (rt_use_idle native_return blit_calls (S n) k pt w clo Native Hk Hf Ho). }
  assert (Hi1 : rt_installed_at w1 k (rt_set_flag true clo)).
  { unfold w1, forwarded, rt_entry. rewrite Hpt.
    repeat split; psimpl; try assumption.
    rewrite list_lookup_alter_eq, Hk. reflexivity. }
  destruct (rt_draws (S n) k ds w1 (rt_set_flag true clo) Hi1 eq_refl)
    as (w2 & H2 & Hi2 & Ht2 & Hx2 & Hp2 & Hy2).
  cbn [rt_set_flag rt_lastCapturedTexture] in Hi2.
  set (clo2 := {| rt_inTargetShaderPass := true;
                  rt_lastCapturedTexture :=
                    last_target (rt_lastCapturedTexture clo) ds |}) in *.
  pose proof (rt_use_exit native_return blit_calls n k po w2 clo2 Hq Hi2 eq_refl) as E3.
  destruct (rt_after_exit_fields blit_calls k clo2 w2)
    as (A1 & A2 & A3 & A4 & _ & _ & A7 & _).
  destruct (rt_entry_fields po k (rt_after_exit blit_calls k clo2 w2))
    as (B1 & B2 & B3 & B4 & _ & _ & B7 & _).
  cbv zeta in *. rewrite Hpo in B3.
  assert (Hc : rt_copies w2 clo2 =
               match last_target (rt_lastCapturedTexture clo) ds, persistentTexture w with
               | Some src, Some dst =>
                   if texture_valid w (Some src) then Some (src, dst) else None
               | _, _ => None
               end).
  { unfold rt_copies, texture_valid. rewrite Hp2, Hx2.
    unfold w1, forwarded, rt_entry. rewrite Hpt. reflexivity. }
  exists (forwarded (UseProgram po)
            (rt_entry po k (rt_after_exit blit_calls k clo2 w2))),
    (match rt_copies w2 clo2 with
     | Some (src, dst) =>
         Blit src dst :: (if isApiReady w2 then [] else [LogFirstCapture])
     | None => []
     end).
  split.
  { unfold pass_events.
    eapply run_cons; [exact H1|].
    eapply run_app; [exact H2|].
    eapply run_cons; [|reflexivity].
    eapply step_glcall.
    change (slot_of (UseProgram po) w2) with (gl_useProgram w2).
    destruct Hi2 as (Hu2 & _). rewrite Hu2. exact E3. }
  destruct Hi2 as (Hu2 & Hd2 & Hk2 & Ho2).
  assert (Tw1 : trace w1 = trace w)
    by (unfold w1, forwarded, rt_entry; rewrite Hpt; reflexivity).
  unfold forwarded. psimpl.
  split; [rewrite B7, A7, Ht2, Tw1; reflexivity|].
  split.
  { rewrite Hc.
    destruct (last_target (rt_lastCapturedTexture clo) ds) as [src|]; [|reflexivity].
    destruct (persistentTexture w) as [dst|]; [|reflexivity].
    destruct (texture_valid w (Some src)); [|reflexivity].
    destruct (isApiReady w2); reflexivity. }
  repeat split; psimpl.
  - rewrite B1, A1. exact Hu2.
  - rewrite B2, A2. exact Hd2.
  - rewrite B3, A3, list_lookup_alter_eq, Hk2. reflexivity.
  - rewrite B4, A4. exact Ho2.
Qed.

(** X7. At the end of a pass the real-time wrapper makes no copy when it
    holds no target, when the target is no longer valid (the host has
    destroyed it) or when there is no buffer: the call returns as usual, the
    textures, the trace and the ready flag are as before, and the detector
    has left the pass. *)
Theorem stale_target_is_skipped n k p w clo :
  Forall quiet_call blit_calls ->
  rt_installed_at w k clo ->
  rt_inTargetShaderPass clo = true ->
  rt_copies w clo = None ->
  realtime_matches p = false ->
  exists w',
    call native_return blit_calls (S (S (S n))) (RealTimeWrapper k) (UseProgram p) w =
      Some (Normal (native_return (UseProgram p)), w') /\
    textures w' = textures w /\
    trace w' = trace w /\
    isApiReady w' = isApiReady w /\
    native_calls w' = (native_calls w ++ [UseProgram p])%list /\
    rt_closures w' !! k =
      Some {| rt_inTargetShaderPass := false;
              rt_lastCapturedTexture := rt_lastCapturedTexture clo |}.
Proof.
  intros Hq Hi Hf Hc Hp.
  exists (forwarded (UseProgram p) (rt_entry p k (rt_after_exit blit_calls k clo w))).
  split; [apply rt_use_exit; assumption|].
  destruct Hi as (_ & _ & Hk & _).
  unfold rt_entry, rt_after_exit, forwarded. rewrite Hp, Hc. cbv zeta. psimpl.
  repeat split.
  rewrite list_lookup_alter_eq, Hk. reflexivity.
Qed.

End RealTimePass.

Lemma realtime_pass_copies_last_target_witness :
  exists w' new,
    run example_return example_blit 3
      (pass_events example_target [(Some 0, example_draw); (Some 0, example_draw)]
         example_other)
      example_activated_world = Some (Normal tt, w') /\
    trace w' = (trace example_activated_world ++ new)%list /\
    blits new = [(0, 1)] /\
    rt_installed_at w' 0
      {| rt_inTargetShaderPass := false; rt_lastCapturedTexture := Some 0 |}.
Proof.
  apply (realtime_pass_copies_last_target example_return example_blit 0 0
           example_activated_world
           {| rt_inTargetShaderPass := false; rt_lastCapturedTexture := None |}
           example_target example_other
           [(Some 0, example_draw); (Some 0, example_draw)]).
  - repeat constructor.
  - repeat split; vm_compute; reflexivity.
  - reflexivity.
  - vm_compute. reflexivity.
  - vm_compute. reflexivity.
Defined.

Lemma stale_target_is_skipped_witness :
  exists w',
    call example_return example_blit 3 (RealTimeWrapper 0)
      (UseProgram example_other) example_stale_world =
      Some (Normal JSUndefined, w') /\
    textures w' = textures example_stale_world /\
    trace w' = trace example_stale_world /\
    isApiReady w' = false /\
    native_calls w' =
      (native_calls example_stale_world ++ [UseProgram example_other])%list /\
    rt_closures w' !! 0 =
      Some {| rt_inTargetShaderPass := false; rt_lastCapturedTexture := Some 0 |}.
Proof.
  apply (stale_target_is_skipped example_return example_blit 0 0 example_other
           example_stale_world example_rt_closure).
  - repeat constructor.
  - repeat split; vm_compute; reflexivity.
  - reflexivity.
  - vm_compute. reflexivity.
  - vm_compute. reflexivity.
Defined.

(** ** Resizing and activating *)

Lemma real_size_zero r : real_size 0 r = 0%Z.
Proof.
  unfold real_size. change (Q2Qc (inject_Z 0)) with (Q2Qc 0).
  rewrite Qcmult_0_l. reflexivity.
Qed.

(** A width or a height of zero is a size of zero device pixels, whatever
    the resolution. *)
Lemma zero_size_not_ok settings width height resolution :
  width = 0%Z \/ height = 0%Z ->
  framebuffer_ok settings width height resolution = false.
Proof.
  unfold framebuffer_ok. cbv zeta.
  intros [-> | ->]; rewrite real_size_zero; [reflexivity|].
  change (0 =? 0)%Z with true. rewrite orb_true_r. reflexivity.
Qed.

Lemma resize_texture_fresh width height r w :
  tex_valid (resize_texture width height r w) = true /\
  tex_destroyed (resize_texture width height r w) = false /\
  tex_content (resize_texture width height r w) = None /\
  tex_resolution (resize_texture width height r w) =
    effective_resolution (settings_RESOLUTION w) (Some r).
Proof. repeat split. Qed.

Lemma repeat_resize width height r m : forall w,
  host_resolution (host w) = Some r ->
  framebuffer_ok (settings_RESOLUTION w) width height (Some r) = true ->
  exists w' t,
    repeat_M (S m) (onCanvasResize width height) w = Some (Normal tt, w') /\
    host w' = host w /\
    isApiReady w' = isApiReady w /\
    persistentTexture w' = Some t /\
    textures w' !! t = Some (resize_texture width height r w).
Proof.
  induction m as [|m IH]; intros w Hr Hok;
    destruct (resized_fields width height r w)
      as (_ & _ & _ & _ & R5 & R6 & R7 & R8);
    destruct (resized_more width height r w) as (S1 & _); cbv zeta in *.
  - exists (resized width height r w), (List.length (textures w)).
    split; [|repeat split; assumption].
    cbn [repeat_M].
    eapply bind_normal; [exact (onCanvasResize_returns width height r w Hr Hok)|].
    reflexivity.
  - destruct (IH (resized width height r w)) as (w' & t & E & H1 & H2 & H3 & H4).
    { rewrite R6. exact Hr. }
    { rewrite S1. exact Hok. }
    exists w', t.
    split; [|split; [rewrite H1; exact R6|split; [rewrite H2; exact R5|split]]].
    + change (repeat_M (S (S m)) (onCanvasResize width height))
        with (onCanvasResize width height >>; repeat_M (S m) (onCanvasResize width height)).
      eapply bind_normal; [exact (onCanvasResize_returns width height r w Hr Hok)|].
      exact E.
    + exact H3.
    + rewrite H4. unfold resize_texture. rewrite S1. reflexivity.
Qed.

Section Activation.

Variable native_return : glcall -> jsval.
Variable blit_calls : list glcall.

(** X8. When the renderer announces a resize to a size that is not zero in
    device pixels and the listener is registered (once or several times), the
    persistent texture afterwards is a fresh texture of the announced size
    rounded to device pixels, at the renderer's resolution: valid, not
    destroyed and without content. The ready flag is not touched. *)
Theorem resize_event_gives_fresh_buffer fuel width height r w :
  host_resolution (host w) = Some r ->
  resize_listeners w <> 0 ->
  framebuffer_ok (settings_RESOLUTION w) width height (Some r) = true ->
  exists w' t x,
    host_step native_return blit_calls fuel (RendererResize width height) w =
      Some (Normal tt, w') /\
    persistentTexture w' = Some t /\
    textures w' !! t = Some x /\
    x = resize_texture width height r w /\
    tex_valid x = true /\
    tex_destroyed x = false /\
    tex_content x = None /\
    isApiReady w' = isApiReady w.
Proof.
  intros Hr Hl Hok.
  destruct (resize_listeners w) as [|m] eqn:Hm; [exfalso; apply Hl; reflexivity|].
  destruct (repeat_resize width height r m w Hr Hok) as (w' & t & E & _ & Hy & Hp & Ht).
  exists w', t, (resize_texture width height r w).
  split; [|repeat split; assumption].
  change (host_step native_return blit_calls fuel (RendererResize width height) w)
    with ((let! w0 := get in
           match host w0 with
           | NoApp | NoRenderer => ret tt
           | NoGL _ | HasGL _ =>
               repeat_M (resize_listeners w0) (onCanvasResize width height)
           end) w).
  eapply bind_normal; [reflexivity|]. cbv beta. rewrite Hm.
  destruct (host w); try discriminate Hr; exact E.
Qed.

End Activation.

Lemma resize_event_gives_fresh_buffer_witness :
  exists w' t x,
    host_step example_return example_blit 3 (RendererResize 1921 1080)
      (set_host (HasGL (Q2Qc (5 # 4))) example_rt_world) =
      Some (Normal tt, w') /\
    persistentTexture w' = Some t /\
    textures w' !! t = Some x /\
    x = resize_texture 1921 1080 (Q2Qc (5 # 4))
          (set_host (HasGL (Q2Qc (5 # 4))) example_rt_world) /\
    tex_valid x = true /\
    tex_destroyed x = false /\
    tex_content x = None /\
    isApiReady w' = false.
Proof.
  apply (resize_event_gives_fresh_buffer example_return example_blit 3 1921 1080
           (Q2Qc (5 # 4)) (set_host (HasGL (Q2Qc (5 # 4))) example_rt_world)).
  - reflexivity.
  - vm_compute. discriminate.
  - vm_compute. reflexivity.
Defined.

(** At a resolution of 5/4, a width of 1921 becomes 2401 device pixels: the
    texture is 9604/5 wide. *)
Lemma resize_texture_rounds :
  this (tex_width (resize_texture 1921 1080 (Q2Qc (5 # 4))
                     (set_host (HasGL (Q2Qc (5 # 4))) example_rt_world))) =
    Qmake 9604 5 /\
  this (tex_height (resize_texture 1921 1080 (Q2Qc (5 # 4))
                      (set_host (HasGL (Q2Qc (5 # 4))) example_rt_world))) =
    inject_Z 1080.
Proof. split; vm_compute; reflexivity. Qed.

(** X9. The [canvasReady] handler of the real-time mode, on a page with a
    context where the interceptor is not armed and the entry points are the
    native ones (first activation, or activation after a teardown), the
    screen not being of zero size in device pixels: it returns, the buffer
    is a fresh texture of the size of the screen rounded to device pixels,
    one more resize listener is registered, the interceptor is installed
    with an idle detector that forwards to the native entry points, and the
    ready flag is as before. *)
Theorem onCanvasReady_activates width height r w :
  host w = HasGL r ->
  framebuffer_ok (settings_RESOLUTION w) width height (Some r) = true ->
  isInterceptorArmed w = false ->
  gl_useProgram w = Native ->
  gl_drawElements w = Native ->
  originalGLFunctions w = None \/ originalGLFunctions w = Some (Native, Native) ->
  exists w',
    onCanvasReady width height w = Some (Normal tt, w') /\
    rt_active w' (List.length (rt_closures w)) /\
    rt_closures w' !! List.length (rt_closures w) =
      Some {| rt_inTargetShaderPass := false; rt_lastCapturedTexture := None |} /\
    persistentTexture w' = Some (List.length (textures w)) /\
    textures w' !! List.length (textures w) = Some (resize_texture width height r w) /\
    resize_listeners w' = S (resize_listeners w) /\
    isApiReady w' = isApiReady w.
Proof.
  intros Hh Hok Ha Hu Hd Ho.
  assert (Hr : host_resolution (host w) = Some r) by (rewrite Hh; reflexivity).
  destruct (resized_fields width height r w)
    as (R1 & R2 & R3 & R4 & R5 & R6 & R7 & R8). cbv zeta in *.
  set (w1 := resized width height r w) in *.
  set (w2 := set_resize_listeners (S (resize_listeners w1)) w1).
  assert (E2 : renderer_on_resize w1 = Some (Normal tt, w2)).
  { unfold renderer_on_resize. eapply bind_normal; [reflexivity|]. cbv beta.
    rewrite R6, Hh. reflexivity. }
  assert (Hl : resize_listeners w1 = resize_listeners w)
    by apply (resized_more width height r w).
  assert (Hm : isInterceptorArmed w1 = isInterceptorArmed w)
    by apply (resized_more width height r w).
  assert (E3 : exists w3,
             armRealTimeCapture w2 = Some (Normal tt, w3) /\
             (w3 = rt_armed w2 \/ w3 = rt_rearmed w2) /\
             originalGLFunctions w3 = Some (Native, Native)).
  { destruct Ho as [Ho | Ho].
    - exists (rt_armed w2). split; [|split; [left; reflexivity|]].
      + apply armRealTimeCapture_installs.
        * unfold w2. psimpl. rewrite R6, Hh. reflexivity.
        * unfold w2. psimpl. rewrite Hm. exact Ha.
        * unfold w2. psimpl. rewrite R4. exact Ho.
      + unfold rt_armed, w2. psimpl. rewrite R1, R2, Hu, Hd. reflexivity.
    - exists (rt_rearmed w2). split; [|split; [right; reflexivity|]].
      + apply (armRealTimeCapture_reinstalls w2 (Native, Native)).
        * unfold w2. psimpl. rewrite R6, Hh. reflexivity.
        * unfold w2. psimpl. rewrite Hm. exact Ha.
        * unfold w2. psimpl. rewrite R4. exact Ho.
      + unfold rt_rearmed, w2. psimpl. rewrite R4. exact Ho. }
  destruct E3 as (w3 & E3 & Hw3 & Ho3).
  exists w3.
  split.
  { unfold onCanvasReady.
    eapply bind_normal; [exact (onCanvasResize_returns width height r w Hr Hok)|].
    cbv beta.
    eapply bind_normal; [exact E2|]. exact E3. }
  assert (K : rt_closures w3 !! List.length (rt_closures w) =
              Some {| rt_inTargetShaderPass := false; rt_lastCapturedTexture := None |}).
  { destruct Hw3 as [-> | ->]; unfold rt_armed, rt_rearmed, w2; psimpl;
      rewrite R3; apply list_lookup_middle; reflexivity. }
  split; [split|].
  - exists {| rt_inTargetShaderPass := false; rt_lastCapturedTexture := None |}.
    split; [|split; [|split; [exact K|exact Ho3]]];
      destruct Hw3 as [-> | ->]; unfold rt_armed, rt_rearmed, w2; psimpl;
      rewrite R3; reflexivity.
  - exists r.
    destruct Hw3 as [-> | ->]; unfold rt_armed, rt_rearmed, w2; psimpl;
      rewrite R6; exact Hr.
  - split; [exact K|].
    destruct Hw3 as [-> | ->]; unfold rt_armed, rt_rearmed, w2; psimpl;
      rewrite R7, R8, Hl, R5; repeat split.
Qed.

Lemma onCanvasReady_activates_witness :
  exists w',
    onCanvasReady 800 600 example_torn_down_world = Some (Normal tt, w') /\
    rt_active w' 1 /\
    rt_closures w' !! 1 =
      Some {| rt_inTargetShaderPass := false; rt_lastCapturedTexture := None |} /\
    persistentTexture w' = Some 2 /\
    textures w' !! 2 = Some (resize_texture 800 600 1%Qc example_torn_down_world) /\
    resize_listeners w' = 1 /\
    isApiReady w' = false.
Proof.
  apply (onCanvasReady_activates 800 600 1%Qc example_torn_down_world).
  - reflexivity.
  - vm_compute. reflexivity.
  - reflexivity.
  - reflexivity.
  - reflexivity.
  - right. reflexivity.
Defined.

(** X19. [onCanvasResize] with a size that is zero in device pixels (a
    width or a height of zero, or one that rounds to zero) throws, and it
    does so after it has destroyed the old buffer: no texture is created, the
    persistent texture still refers to the destroyed one, and the ready flag
    is as before. The [canvasReady] handler of the real-time mode stops
    there too: no listener is registered and nothing is installed. *)
Theorem onCanvasResize_zero_size width height r w :
  host_resolution (host w) = Some r ->
  framebuffer_ok (settings_RESOLUTION w) width height (Some r) = false ->
  exists w',
    onCanvasResize width height w = Some (Throw FramebufferError, w') /\
    onCanvasReady width height w = Some (Throw FramebufferError, w') /\
    persistentTexture w' = persistentTexture w /\
    List.length (textures w') = List.length (textures w) /\
    (forall t x,
       persistentTexture w = Some t ->
       textures w !! t = Some x ->
       textures w' !! t = Some (destroy_texture x)) /\
    isApiReady w' = isApiReady w /\
    resize_listeners w' = resize_listeners w /\
    isInterceptorArmed w' = isInterceptorArmed w /\
    gl_useProgram w' = gl_useProgram w /\
    gl_drawElements w' = gl_drawElements w.
Proof.
  intros Hr Hok.
  destruct (resize_begun_fields w)
    as (B1 & B2 & _ & _ & B5 & _ & B7 & _ & B9 & B10 & B11).
  cbv zeta in *.
  exists (resize_begun w).
  split; [exact (onCanvasResize_zero width height r w Hr Hok)|].
  split.
  { unfold onCanvasReady. eapply bind_throw.
    exact (onCanvasResize_zero width height r w Hr Hok). }
  split; [exact B7|]. split; [exact B9|].
  split; [intros t x Hp Hx; apply resize_begun_destroys; assumption|].
  split; [exact B5|]. split; [exact B10|]. split; [exact B11|].
  split; [exact B1|exact B2].
Qed.

Lemma onCanvasResize_zero_size_witness :
  exists w',
    onCanvasResize 0 1080 example_rt_world = Some (Throw FramebufferError, w') /\
    onCanvasReady 0 1080 example_rt_world = Some (Throw FramebufferError, w') /\
    persistentTexture w' = Some 1 /\
    List.length (textures w') = 2 /\
    (forall t x,
       persistentTexture example_rt_world = Some t ->
       textures example_rt_world !! t = Some x ->
       textures w' !! t = Some (destroy_texture x)) /\
    isApiReady w' = false /\
    resize_listeners w' = 1 /\
    isInterceptorArmed w' = true /\
    gl_useProgram w' = RealTimeWrapper 0 /\
    gl_drawElements w' = RealTimeWrapper 0.
Proof.
  apply (onCanvasResize_zero_size 0 1080 1%Qc example_rt_world).
  - reflexivity.
  - apply zero_size_not_ok. left. reflexivity.
Defined.

(** ** Arming the debug capture again *)

Lemma emit_list_host es : forall w,
  host (emit_list es w) = host w /\
  debugCaptureArmed (emit_list es w) = debugCaptureArmed w.
Proof.
  induction es as [|e es IH]; intros w.
  - split; reflexivity.
  - change (emit_list (e :: es) w) with (emit_list es (emit e w)).
    destruct (IH (emit e w)) as (A & B). rewrite A, B. split; reflexivity.
Qed.

Section Rearm.

Variable native_return : glcall -> jsval.
Variable blit_calls : list glcall.

(** X10. The debug capture is one-shot but can be armed again. Once the
    bind-program call that ends the watched pass has returned,
    [armOneShotDebugCapture] installs its wrappers anew: both slots hold a
    wrapper over a new closure, whose saved entry points are the native ones
    (the wrappers do not nest), whose detector is idle and whose count
    is 0. *)
Theorem debug_capture_rearms n k p w clo :
  debug_installed_at w k clo ->
  dbg_inTargetShaderPass clo = true ->
  gl_available (host w) = true ->
  exists w' w'',
    call native_return blit_calls (S (S n)) (gl_useProgram w) (UseProgram p) w =
      Some (Normal (native_return (UseProgram p)), w') /\
    armOneShotDebugCapture w' = Some (Normal tt, w'') /\
    k < List.length (dbg_closures w) /\
    gl_useProgram w'' = DebugWrapper (List.length (dbg_closures w)) /\
    gl_drawElements w'' = DebugWrapper (List.length (dbg_closures w)) /\
    dbg_closures w'' !! List.length (dbg_closures w) =
      Some {| dbg_originalUseProgram := Native;
              dbg_originalDrawElements := Native;
              dbg_inTargetShaderPass := false;
              dbg_lastCapturedTexture := None;
              dbg_drawCountInPass := 0 |} /\
    dbg_closures w'' !! k = Some clo.
Proof.
  intros (Hu & Hd & Hk & Ho & Hod) Hf Hgl.
  pose proof (dbg_use_exit native_return blit_calls n k p w clo Hk Hf Ho) as E.
  rewrite Hod in E. rewrite Hu.
  set (w0 := emit_list (capture_events w (dbg_lastCapturedTexture clo))
               (emit (LogExiting (dbg_drawCountInPass clo)) w)) in *.
  destruct (emit_list_frame (capture_events w (dbg_lastCapturedTexture clo))
              (emit (LogExiting (dbg_drawCountInPass clo)) w))
    as (F1 & _ & _ & _ & _ & _).
  destruct (emit_list_host (capture_events w (dbg_lastCapturedTexture clo))
              (emit (LogExiting (dbg_drawCountInPass clo)) w))
    as (G1 & _).
  fold w0 in F1, G1.
  assert (D0 : dbg_closures w0 = dbg_closures w) by exact F1.
  assert (H0 : host w0 = host w) by exact G1.
  set (w' := set_native_calls (native_calls w ++ [UseProgram p])%list
               (emit LogRestored
                  (set_debugCaptureArmed false (set_gl Native Native w0)))) in *.
  exists w', (debug_installed w').
  split; [exact E|].
  split.
  { apply armOneShotDebugCapture_installs.
    - reflexivity.
    - unfold w'. psimpl. rewrite H0. exact Hgl. }
  split; [apply lookup_lt_Some with clo; exact Hk|].
  unfold debug_installed, fresh_dbg_closure, w'. cbv zeta. psimpl. rewrite D0.
  split; [reflexivity|]. split; [reflexivity|].
  split; [apply list_lookup_middle; reflexivity|].
  apply lookup_app_l_Some. exact Hk.
Qed.

End Rearm.

Lemma debug_capture_rearms_witness :
  exists w' w'',
    call example_return example_blit 2 (gl_useProgram example_debug_inpass_world)
      (UseProgram example_other) example_debug_inpass_world =
      Some (Normal (example_return (UseProgram example_other)), w') /\
    armOneShotDebugCapture w' = Some (Normal tt, w'') /\
    0 < List.length (dbg_closures example_debug_inpass_world) /\
    gl_useProgram w'' = DebugWrapper (List.length (dbg_closures example_debug_inpass_world)) /\
    gl_drawElements w'' = DebugWrapper (List.length (dbg_closures example_debug_inpass_world)) /\
    dbg_closures w'' !! List.length (dbg_closures example_debug_inpass_world) =
      Some {| dbg_originalUseProgram := Native;
              dbg_originalDrawElements := Native;
              dbg_inTargetShaderPass := false;
              dbg_lastCapturedTexture := None;
              dbg_drawCountInPass := 0 |} /\
    dbg_closures w'' !! 0 = Some example_debug_inpass_closure.
Proof.
  apply (debug_capture_rearms example_return example_blit 0 0 example_other
           example_debug_inpass_world example_debug_inpass_closure).
  - repeat split; reflexivity.
  - reflexivity.
  - reflexivity.
Defined.

(** ** The earlier modules *)

Section Legacy.

Variable native_return : glcall -> jsval.
Variable blit_calls : list glcall.

Lemma api_updateFromSource_without_renderer fuel src s :
  api_updateFromSource native_return blit_calls fuel src false s = Some (Normal tt, s) \/
  api_updateFromSource native_return blit_calls fuel src false s = Some (Throw TypeError, s).
Proof.
  unfold api_updateFromSource.
  destruct src as [t|]; [|left; reflexivity].
  destruct (api_persistentTexture s) as [d|]; [|left; reflexivity].
  destruct (texture_valid (page s) (Some t) && has_baseTexture (page s) d);
    [right|left]; reflexivity.
Qed.

Lemma draw_wrapper_capture_cases fuel filters s :
  draw_wrapper_capture native_return blit_calls fuel filters s = Some (Normal tt, s) \/
  draw_wrapper_capture native_return blit_calls fuel filters s = Some (Throw TypeError, s).
Proof.
  unfold draw_wrapper_capture.
  destruct (find_filter _ filters) as [f|];
    [destruct (illuminationTexture f) as [t|];
       [apply api_updateFromSource_without_renderer|]|];
    (destruct (find_filter _ filters) as [g|]; [|left; reflexivity];
     destruct (illuminationTexture g) as [t'|]; [|left; reflexivity];
     apply api_updateFromSource_without_renderer).
Qed.

(** X11. The wrapper of the first interceptor on the group's [draw]: for any
    filters and any state it returns what the wrapped [draw] returned, it
    never throws, and it never copies anything. [updateFromSource] is called
    without a renderer, so when a source and a live buffer are there the
    call fails, the failure is caught and logged; otherwise nothing happens
    at all. The module's own variables are as before in both cases. *)
Theorem draw_wrapper_never_copies fuel filters result s :
  exists s',
    draw_wrapper native_return blit_calls fuel filters result s =
      Some (Normal result, s') /\
    (s' = s \/ s' = set_page (emit ErrorCapturing (page s)) s) /\
    textures (page s') = textures (page s) /\
    blits (trace (page s')) = blits (trace (page s)) /\
    native_calls (page s') = native_calls (page s) /\
    api_persistentTexture s' = api_persistentTexture s.
Proof.
  unfold draw_wrapper, lbind, ltry.
  destruct (draw_wrapper_capture_cases fuel filters s) as [E | E]; rewrite E.
  - exists s. split; [reflexivity|]. split; [left; reflexivity|]. repeat split.
  - exists (set_page (emit ErrorCapturing (page s)) s).
    split; [reflexivity|]. split; [right; reflexivity|].
    cbn [set_page page api_persistentTexture]. psimpl.
    repeat split. unfold blits. rewrite omap_app. cbn. apply app_nil_r.
Qed.

Lemma gl_calls_native n cs : forall w,
  gl_useProgram w = Native ->
  gl_drawElements w = Native ->
  gl_calls (call native_return blit_calls (S n)) cs w =
    Some (Normal tt, set_native_calls (native_calls w ++ cs)%list w).
Proof.
  induction cs as [|c cs IH]; intros w Hu Hd.
  - cbn [gl_calls]. unfold ret. rewrite app_nil_r.
    destruct w; reflexivity.
  - cbn [gl_calls].
    eapply bind_normal.
    { unfold gl_call.
      destruct c; cbn [slot_of]; rewrite ?Hu, ?Hd; rewrite call_native; reflexivity. }
    cbv beta. rewrite IH; [|exact Hu|exact Hd]. psimpl.
    rewrite <- app_assoc. reflexivity.
Qed.

(** X12. The wrapper of the libWrapper module on the illumination filter's
    [apply], on a page whose entry points are the native ones. It always
    returns and always raises the copy flag, whether or not it copied. It
    copies exactly when the source is a valid texture and the buffer is
    there with its base texture: then the buffer becomes the render target,
    it takes the source's content, the calls of the blit reach the native
    entry points and one blit is recorded. In every other case the textures,
    the render target and the native calls are as before. *)
Theorem apply_wrapper_copies n src s :
  gl_useProgram (page s) = Native ->
  gl_drawElements (page s) = Native ->
  exists s',
    apply_wrapper native_return blit_calls (S n) src s = Some (Normal tt, s') /\
    didCopy s' = true /\
    api_persistentTexture s' = api_persistentTexture s /\
    match src, api_persistentTexture s with
    | Some t, Some d =>
        if texture_valid (page s) (Some t) && has_baseTexture (page s) d then
          textures (page s') = alter (write_texture t) d (textures (page s)) /\
          renderTexture_current (page s') = Some d /\
          native_calls (page s') = (native_calls (page s) ++ blit_calls)%list /\
          blits (trace (page s')) = (blits (trace (page s)) ++ [(t, d)])%list
        else
          textures (page s') = textures (page s) /\
          renderTexture_current (page s') = renderTexture_current (page s) /\
          native_calls (page s') = native_calls (page s) /\
          blits (trace (page s')) = blits (trace (page s))
    | _, _ =>
        textures (page s') = textures (page s) /\
        renderTexture_current (page s') = renderTexture_current (page s) /\
        native_calls (page s') = native_calls (page s) /\
        blits (trace (page s')) = blits (trace (page s))
    end.
Proof.
  intros Hu Hd.
  set (s1 := set_page (emit FilterApplied (page s)) s).
  assert (B0 : blits (trace (page s1)) = blits (trace (page s))).
  { unfold s1. cbn [set_page page]. psimpl. unfold blits.
    rewrite omap_app. cbn. apply app_nil_r. }
  assert (Skip : api_updateFromSource native_return blit_calls (S n) src true s1 =
                   Some (Normal tt, s1) ->
          exists s',
            apply_wrapper native_return blit_calls (S n) src s = Some (Normal tt, s') /\
            didCopy s' = true /\
            api_persistentTexture s' = api_persistentTexture s /\
            textures (page s') = textures (page s) /\
            renderTexture_current (page s') = renderTexture_current (page s) /\
            native_calls (page s') = native_calls (page s) /\
            blits (trace (page s')) = blits (trace (page s))).
  { intros E. exists (set_didCopy true s1).
    split.
    { unfold apply_wrapper, lbind.
      change (on_page (log FilterApplied) s) with (Some (Normal tt, s1)).
      cbv iota beta. rewrite E. reflexivity. }
    cbn [set_didCopy didCopy api_persistentTexture page].
    split; [reflexivity|]. split; [reflexivity|].
    split; [reflexivity|]. split; [reflexivity|]. split; [reflexivity|].
    exact B0. }
  destruct src as [t|]; [|apply Skip; reflexivity].
  destruct (api_persistentTexture s) as [d|] eqn:Hp;
    [|apply Skip; unfold api_updateFromSource;
      change (api_persistentTexture s1) with (api_persistentTexture s);
      rewrite Hp; reflexivity].
  change (texture_valid (page s) (Some t)) with (texture_valid (page s1) (Some t)).
  change (has_baseTexture (page s) d) with (has_baseTexture (page s1) d).
  destruct (texture_valid (page s1) (Some t) && has_baseTexture (page s1) d) eqn:Hc;
    [|apply Skip; unfold api_updateFromSource;
      change (api_persistentTexture s1) with (api_persistentTexture s);
      rewrite Hp, Hc; reflexivity].
  set (w1 := page s1).
  set (w2 := set_renderTexture_current (Some d) w1).
  set (w3 := set_native_calls (native_calls w2 ++ blit_calls)%list w2).
  set (w4 := set_textures (alter (write_texture t) d (textures w3)) w3).
  assert (E : blit blit_calls (call native_return blit_calls (S n)) t d w1 =
              Some (Normal tt, emit (Blit t d) w4)).
  { unfold blit.
    eapply bind_normal; [reflexivity|]. cbv beta.
    eapply bind_normal; [apply gl_calls_native; [exact Hu|exact Hd]|]. cbv beta.
    eapply bind_normal; [reflexivity|]. reflexivity. }
  exists (set_didCopy true (set_page (emit (Blit t d) w4) s1)).
  split.
  { unfold apply_wrapper, lbind.
    change (on_page (log FilterApplied) s) with (Some (Normal tt, s1)).
    cbv iota beta. unfold api_updateFromSource.
    change (api_persistentTexture s1) with (api_persistentTexture s).
    rewrite Hp, Hc. unfold on_page. fold w1. rewrite E. reflexivity. }
  cbn [set_didCopy set_page didCopy api_persistentTexture page].
  split; [reflexivity|]. split; [exact Hp|].
  unfold w4, w3, w2, w1. psimpl.
  split; [reflexivity|]. split; [reflexivity|]. split; [reflexivity|].
  clear. unfold s1. cbn [set_page page]. psimpl. unfold blits.
  rewrite !omap_app. cbn. rewrite app_nil_r. reflexivity.
Qed.

End Legacy.

Lemma apply_wrapper_copies_witness :
  exists s',
    apply_wrapper example_return example_blit 1 (Some 0) example_legacy_state =
      Some (Normal tt, s') /\
    didCopy s' = true /\
    api_persistentTexture s' = Some 1 /\
    textures (page s') = alter (write_texture 0) 1 (textures (page example_legacy_state)) /\
    renderTexture_current (page s') = Some 1 /\
    native_calls (page s') = example_blit /\
    blits (trace (page s')) = [(0, 1)].
Proof.
  apply (apply_wrapper_copies example_return example_blit 0 (Some 0) example_legacy_state).
  - reflexivity.
  - reflexivity.
Defined.

(** X13. The ticker callback of the libWrapper module always returns with
    the copy flag down. With the flag down it does nothing; with the flag
    raised and a preview sprite, the sprite shows the buffer afterwards. The
    page and the buffer are never touched, and a second run changes
    nothing. *)
Theorem ticker_callback_clears_flag s :
  exists s',
    ticker_callback s = Some (Normal tt, s') /\
    didCopy s' = false /\
    page s' = page s /\
    api_persistentTexture s' = api_persistentTexture s /\
    (didCopy s = false -> s' = s) /\
    (didCopy s = true ->
       previewSprite s' =
         match previewSprite s with
         | Some _ => Some (api_persistentTexture s)
         | None => None
         end) /\
    ticker_callback s' = Some (Normal tt, s').
Proof.
  destruct s as [pg pt dc ps reg tc pend].
  destruct dc; destruct ps as [x|]; eexists;
    (split; [vm_compute; reflexivity|]);
    repeat split; try reflexivity; try (intros H; discriminate H).
Qed.

Lemma ticker_callback_clears_flag_witness :
  exists s',
    ticker_callback (set_didCopy true example_legacy_state) = Some (Normal tt, s') /\
    didCopy s' = false /\
    previewSprite s' = Some (Some 1).
Proof.
  destruct (ticker_callback_clears_flag (set_didCopy true example_legacy_state))
    as (s' & E & D & _ & _ & _ & P & _).
  exists s'. split; [exact E|]. split; [exact D|]. exact (P eq_refl).
Defined.

(** ** The two entry conditions *)

Lemma string_app_cons c (a b : string) : String c a ++ b = String c (a ++ b).
Proof. reflexivity. Qed.

Lemma string_app_assoc (a b c : string) : (a ++ b) ++ c = a ++ b ++ c.
Proof.
  induction a as [|x a IH]; [reflexivity|].
  rewrite !string_app_cons, IH. reflexivity.
Qed.

Lemma string_app_nil_r (a : string) : a ++ "" = a.
Proof.
  induction a as [|x a IH]; [reflexivity|].
  rewrite string_app_cons, IH. reflexivity.
Qed.

Lemma prefix_app (x : string) : forall s,
  String.prefix x s = true <-> exists b, s = x ++ b.
Proof.
  induction x as [|c x IH]; intros s.
  - split; [intros _; exists s; reflexivity|]. intros _. destruct s; reflexivity.
  - destruct s as [|d s].
    + split; [intros H; discriminate H|]. intros [b H]. discriminate H.
    + cbn [String.prefix]. destruct (ascii_dec c d) as [->|Hn].
      * rewrite IH. split; intros [b H]; exists b.
        -- rewrite string_app_cons, <- H. reflexivity.
        -- rewrite string_app_cons in H. injection H as H. exact H.
      * split; [intros H; discriminate H|]. intros [b H].
        rewrite string_app_cons in H. injection H as H1 H2. exfalso. apply Hn. symmetry. exact H1.
Qed.

Lemma includes_occurs (pat : string) : forall s,
  includes s pat = true <-> occurs_in pat s.
Proof.
  intros s. split.
  - induction s as [|c s IH]; cbn [includes]; intros H;
      apply orb_true_iff in H; destruct H as [H | H].
    + apply prefix_app in H. destruct H as [b H]. exists "", b. exact H.
    + discriminate H.
    + apply prefix_app in H. destruct H as [b H]. exists "", b. exact H.
    + destruct (IH H) as (a & b & E). exists (String c a), b.
      rewrite string_app_cons, <- E. reflexivity.
  - intros (a & b & E). revert s E. induction a as [|c a IH]; intros s E.
    + assert (P : String.prefix pat s = true) by (apply prefix_app; exists b; exact E).
      destruct s; cbn [includes]; rewrite P; reflexivity.
    + destruct s as [|d s]; [discriminate E|].
      rewrite string_app_cons in E. injection E as E1 E2.
      cbn [includes]. rewrite (IH s E2). apply orb_true_r.
Qed.

Lemma occurs_in_trans x y z : occurs_in x y -> occurs_in y z -> occurs_in x z.
Proof.
  intros (a & b & E1) (a' & b' & E2). exists (a' ++ a), (b ++ b').
  rewrite E2, E1, !string_app_assoc. reflexivity.
Qed.

Lemma trim_start_suffix s : exists a, s = a ++ trim_start s.
Proof.
  induction s as [|c s (a & IH)]; [exists ""; reflexivity|].
  cbn [trim_start]. destruct (is_space c).
  - exists (String c a). rewrite string_app_cons, <- IH. reflexivity.
  - exists "". reflexivity.
Qed.

Lemma trim_end_prefix s : exists b, s = trim_end s ++ b.
Proof.
  induction s as [|c s (b & IH)]; [exists ""; reflexivity|].
  cbn [trim_end]. destruct (trim_end s) as [|d r].
  - destruct (is_space c).
    + exists (String c s). reflexivity.
    + exists s. reflexivity.
  - exists b. rewrite string_app_cons, <- IH. reflexivity.
Qed.

Lemma trim_occurs s : occurs_in (trim s) s.
Proof.
  destruct (trim_start_suffix s) as [a Ha].
  destruct (trim_end_prefix (trim_start s)) as [b Hb].
  exists a, b. unfold trim. rewrite <- Hb. exact Ha.
Qed.

Lemma take_line_prefix s : exists b, s = take_line s ++ b.
Proof.
  induction s as [|c s (b & IH)]; [exists ""; reflexivity|].
  cbn [take_line]. destruct (is_newline c).
  - exists (String c s). reflexivity.
  - exists b. rewrite string_app_cons, <- IH. reflexivity.
Qed.

Lemma match_line_occurs s r : match_line s = Some r -> occurs_in r s.
Proof.
  unfold match_line. intros H.
  assert (E : r = take_line s) by (destruct (take_line s); [discriminate H|injection H as <-; reflexivity]).
  destruct (take_line_prefix s) as [b Hb].
  exists "", b. rewrite E. exact Hb.
Qed.

Lemma occurs_in_cons c r s : occurs_in r s -> occurs_in r (String c s).
Proof.
  intros (a & b & E). exists (String c a), b.
  rewrite string_app_cons, <- E. reflexivity.
Qed.

Lemma match_blanks_line_occurs r : forall s,
  match_blanks_line s = Some r -> occurs_in r s.
Proof.
  induction s as [|c s IH]; cbn [match_blanks_line]; intros H; [discriminate H|].
  destruct (is_space c); [|apply match_line_occurs; exact H].
  destruct (match_blanks_line s) as [r'|].
  - injection H as ->. apply occurs_in_cons, IH. reflexivity.
  - apply match_line_occurs. exact H.
Qed.

Lemma drop_chars_suffix n : forall s, exists a, s = a ++ drop_chars n s.
Proof.
  induction n as [|n IH]; intros s; [exists ""; destruct s; reflexivity|].
  destruct s as [|c s]; [exists ""; reflexivity|].
  destruct (IH s) as [a Ha]. exists (String c a).
  change (drop_chars (S n) (String c s)) with (drop_chars n s).
  rewrite string_app_cons, <- Ha. reflexivity.
Qed.

Lemma match_define_here_occurs s r :
  match_define_here s = Some r -> occurs_in r s.
Proof.
  unfold match_define_here.
  destruct (String.prefix "#define SHADER_NAME" s); [|intros H; discriminate H].
  destruct (drop_chars_suffix 19 s) as [a Ha].
  destruct (drop_chars 19 s) as [|c s'] eqn:Hd; [intros H; discriminate H|].
  destruct (is_space c); [|intros H; discriminate H].
  intros H. apply match_blanks_line_occurs in H.
  apply occurs_in_trans with (String c s'); [apply occurs_in_cons; exact H|].
  exists a, "". rewrite string_app_nil_r. exact Ha.
Qed.

Lemma match_shader_name_occurs r : forall s,
  match_shader_name s = Some r -> occurs_in r s.
Proof.
  induction s as [|c s IH]; cbn [match_shader_name]; intros H.
  - destruct (match_define_here "") eqn:E; [|discriminate H].
    injection H as ->. apply match_define_here_occurs. exact E.
  - destruct (match_define_here (String c s)) eqn:E.
    + injection H as ->. apply match_define_here_occurs. exact E.
    + apply occurs_in_cons, IH. exact H.
Qed.

(** X14. The debug detector is the stricter of the two: a program that the
    debug wrapper takes for the target (the identifier occurs in the trimmed
    name captured after [#define SHADER_NAME]) is also taken for the target
    by the real-time wrapper (the identifier occurs in the source). *)
Theorem debug_match_is_realtime_match p :
  debug_matches p = true -> realtime_matches p = true.
Proof.
  unfold debug_matches, debug_program_name, debug_name_test,
    realtime_matches, realtime_entry_test.
  destruct (second_shader_source p) as [[s|]|e]; cbn [cbind try_catch];
    try (intros H; vm_compute in H; discriminate H).
  destruct (match_shader_name s) as [m|] eqn:Hm;
    [|intros H; vm_compute in H; discriminate H].
  intros H. apply includes_occurs in H.
  assert (Hs : occurs_in target_identifier s).
  { apply occurs_in_trans with (trim m); [exact H|].
    apply occurs_in_trans with m; [apply trim_occurs|].
    apply match_shader_name_occurs. exact Hm. }
  apply includes_occurs in Hs. rewrite Hs.
  destruct s; [vm_compute in Hm; discriminate Hm|reflexivity].
Qed.

Lemma debug_match_is_realtime_match_witness :
  realtime_matches example_target = true.
Proof.
  apply (debug_match_is_realtime_match example_target). reflexivity.
Defined.

(** X15. The converse fails whenever the source mentions the identifier but
    defines no shader name: the real-time wrapper enters the pass, the debug
    wrapper keeps the name "UnknownProgram" and stays idle. *)
Theorem realtime_match_without_name pid first body :
  includes body target_identifier = true ->
  match_shader_name body = None ->
  realtime_matches (Program pid (Some [first; Some body])) = true /\
  debug_program_name (Program pid (Some [first; Some body])) = "UnknownProgram" /\
  debug_matches (Program pid (Some [first; Some body])) = false.
Proof.
  intros Hi Hm.
  unfold debug_matches, debug_program_name, debug_name_test,
    realtime_matches, realtime_entry_test.
  change (second_shader_source (Program pid (Some [first; Some body])))
    with (Normal (Some body) : completion (option string)).
  cbn [cbind try_catch]. rewrite Hi, Hm.
  split; [|split; reflexivity].
  destruct body; [vm_compute in Hi; discriminate Hi|reflexivity].
Qed.

Lemma realtime_match_without_name_witness :
  realtime_matches example_unnamed = true /\
  debug_program_name example_unnamed = "UnknownProgram" /\
  debug_matches example_unnamed = false.
Proof.
  apply (realtime_match_without_name 16 (Some "void main(void){}") "// pixi-shader-15").
  - reflexivity.
  - reflexivity.
Defined.

(** ** The buffer of the libWrapper module *)

(** X16. [initialize] of the libWrapper module's API when a buffer is
    there already and the screen is not of zero size in device pixels: the
    old buffer loses its base texture, the new buffer is a fresh texture of
    the size of the screen (rounded to device pixels, at PIXI's default
    resolution) at the end of the heap, with its base texture, and every
    other texture is as before. As the old buffer is no longer referred to,
    [getLightingTexture] gives the new one. *)
Theorem api_initialize_replaces env s t :
  api_persistentTexture s = Some t ->
  t < List.length (textures (page s)) ->
  framebuffer_ok (settings_RESOLUTION (page s))
    (screen_width env) (screen_height env) None = true ->
  exists s',
    api_initialize env s = Some (Normal tt, s') /\
    api_getLightingTexture s' = Some (List.length (textures (page s))) /\
    textures (page s') !! List.length (textures (page s)) =
      Some (screen_texture env s) /\
    has_baseTexture (page s') (List.length (textures (page s))) = true /\
    has_baseTexture (page s') t = false /\
    (forall i, i <> t -> i < List.length (textures (page s)) ->
       textures (page s') !! i = textures (page s) !! i).
Proof.
  intros Hp Hlt Hok.
  exists (legacy_initialized env s).
  split; [apply api_initialize_returns; exact Hok|].
  unfold api_getLightingTexture, has_baseTexture, legacy_initialized, initialize_begun.
  cbv zeta. rewrite Hp.
  cbn [set_api_persistentTexture set_page page api_persistentTexture]. psimpl.
  set (tx1 := alter destroy_texture t (textures (page s))).
  assert (L : List.length tx1 = List.length (textures (page s)))
    by apply length_alter.
  rewrite L.
  assert (K : (tx1 ++ [screen_texture env s])%list !! List.length (textures (page s)) =
              Some (screen_texture env s))
    by (rewrite <- L; apply list_lookup_middle; reflexivity).
  split; [reflexivity|]. split; [exact K|]. split; [rewrite K; reflexivity|].
  split.
  - rewrite lookup_app_l by (rewrite L; exact Hlt).
    unfold tx1. rewrite list_lookup_alter_eq.
    destruct (lookup_lt_is_Some_2 _ _ Hlt) as [x Hx]. rewrite Hx. reflexivity.
  - intros i Hi Hl.
    rewrite lookup_app_l by (rewrite L; exact Hl).
    unfold tx1. apply list_lookup_alter_ne. intros H. apply Hi. symmetry. exact H.
Qed.

Lemma api_initialize_replaces_witness :
  exists s',
    api_initialize example_legacy_env example_legacy_state = Some (Normal tt, s') /\
    api_getLightingTexture s' = Some (List.length (textures (page example_legacy_state))) /\
    textures (page s') !! List.length (textures (page example_legacy_state)) =
      Some (screen_texture example_legacy_env example_legacy_state) /\
    has_baseTexture (page s') (List.length (textures (page example_legacy_state))) = true /\
    has_baseTexture (page s') 1 = false /\
    (forall i, i <> 1 -> i < List.length (textures (page example_legacy_state)) ->
       textures (page s') !! i = textures (page example_legacy_state) !! i).
Proof.
  apply (api_initialize_replaces example_legacy_env example_legacy_state 1).
  - reflexivity.
  - vm_compute. lia.
  - vm_compute. reflexivity.
Defined.

(** X21. [initialize] with a screen of zero size in device pixels throws,
    after it has destroyed the old buffer: no texture is created and
    [getLightingTexture] still gives the old buffer, which has lost its base
    texture. [updateFromSource] then skips every copy. *)
Theorem api_initialize_zero_screen native_return blit_calls env s t fuel src :
  api_persistentTexture s = Some t ->
  t < List.length (textures (page s)) ->
  framebuffer_ok (settings_RESOLUTION (page s))
    (screen_width env) (screen_height env) None = false ->
  exists s',
    api_initialize env s = Some (Throw FramebufferError, s') /\
    api_getLightingTexture s' = Some t /\
    has_baseTexture (page s') t = false /\
    List.length (textures (page s')) = List.length (textures (page s)) /\
    api_updateFromSource native_return blit_calls fuel src true s' =
      Some (Normal tt, s').
Proof.
  intros Hp Hlt Hok.
  exists (set_page (initialize_begun s) s).
  split; [apply api_initialize_zero; exact Hok|].
  assert (Hb : has_baseTexture (page (set_page (initialize_begun s) s)) t = false).
  { unfold has_baseTexture, initialize_begun. cbv zeta. rewrite Hp.
    cbn [set_page page]. psimpl. rewrite list_lookup_alter_eq.
    destruct (lookup_lt_is_Some_2 _ _ Hlt) as [x Hx]. rewrite Hx. reflexivity. }
  split; [exact Hp|]. split; [exact Hb|].
  split; [cbn [set_page page]; apply initialize_begun_fields|].
  unfold api_updateFromSource.
  change (api_persistentTexture (set_page (initialize_begun s) s))
    with (api_persistentTexture s).
  rewrite Hp. destruct src as [x|]; [|reflexivity].
  rewrite Hb, andb_false_r. reflexivity.
Qed.

Lemma api_initialize_zero_screen_witness :
  exists s',
    api_initialize
      {| setting_debugMode := false; setting_livePreview := true;
         libWrapper_active := true; filter_apply_present := true;
         screen_width := 800; screen_height := 0 |}
      example_legacy_state = Some (Throw FramebufferError, s') /\
    api_getLightingTexture s' = Some 1 /\
    has_baseTexture (page s') 1 = false /\
    List.length (textures (page s')) = List.length (textures (page example_legacy_state)) /\
    api_updateFromSource example_return example_blit 3 (Some 0) true s' =
      Some (Normal tt, s').
Proof.
  apply (api_initialize_zero_screen example_return example_blit
           {| setting_debugMode := false; setting_livePreview := true;
              libWrapper_active := true; filter_apply_present := true;
              screen_width := 800; screen_height := 0 |}
           example_legacy_state 1 3 (Some 0)).
  - reflexivity.
  - vm_compute. lia.
  - apply zero_size_not_ok. right. reflexivity.
Defined.
